(** * SoS task executor: a shallow embedding of [sos/task_executor.py]
    and of [validate_step_sig] from [sos/executor_utils.py].

    Python dictionaries keep their insertion order and the code iterates over
    them ([svars.items()], [_runtime['env'].items()]), so a dictionary value is
    an association list updated in place or extended at its end.  Maps that the
    code only looks up ([os.environ], the signature store, the file system) are
    finite maps.  Every function that can raise returns an [outcome]; the
    process state is threaded through a state-and-exception monad in which the
    state survives a raised exception, as in Python. *)

From Stdlib Require Import Ascii.
From stdpp Require Import gmap strings list fin_maps.

Set Warnings "-register-all".
Open Scope string_scope.
Open Scope list_scope.

(** ** Python strings *)

Module PyStr.

(** [sub in s] for two strings. *)
Fixpoint contains (sub s : string) : bool :=
  String.prefix sub s ||
  match s with
  | EmptyString => false
  | String _ s' => contains sub s'
  end.

Definition snoc (acc : string) (c : Ascii.ascii) : string := acc +:+ String c "".

(** The scan of [s.split(sep)] for a non-empty [sep]: leftmost matches, which
    do not overlap ([skip] counts the characters of a match still to pass). *)
Fixpoint split_go (sep : string) (skip : nat) (acc : string) (s : string)
  : list string :=
  match s with
  | EmptyString => [acc]
  | String c s' =>
      match skip with
      | S k => split_go sep k acc s'
      | O =>
          if String.prefix sep s
          then acc :: split_go sep (String.length sep - 1) "" s'
          else split_go sep 0 (snoc acc c) s'
      end
  end.

(** [s.split(sep)]; [None] stands for [ValueError: empty separator]. *)
Definition split (s sep : string) : option (list string) :=
  match sep with
  | EmptyString => None
  | _ => Some (split_go sep 0 "" s)
  end.

(** [sep.join(l)]. *)
Definition join (sep : string) (l : list string) : string :=
  String.concat sep l.

End PyStr.

(** ** Exceptions *)

(** [PyError cls detail] ranges over the subclasses of [Exception] that the
    code raises or meets by name ([ValueError], [RuntimeError], [KeyError],
    [ZeroDivisionError], [OSError], ...); [detail] is [e.args[0]]. *)
Inductive exn :=
| StopInputGroup (message : string)
| KeyboardInterrupt
| SystemExit
| CalledProcessError (returncode : Z) (stderr : string)
| UnknownTarget (target : string)
| PyError (cls : string) (detail : string).

#[global] Instance exn_eq_dec : EqDecision exn.
Proof. solve_decision. Defined.

Definition ValueError := PyError "ValueError".
Definition RuntimeError := PyError "RuntimeError".
Definition KeyError := PyError "KeyError".
Definition TypeError := PyError "TypeError".
Definition AttributeError := PyError "AttributeError".
Definition UnboundLocalError := PyError "UnboundLocalError".
Definition FileNotFoundError := PyError "FileNotFoundError".
Definition FileExistsError := PyError "FileExistsError".
Definition PermissionError := PyError "PermissionError".
Definition ZeroDivisionError := PyError "ZeroDivisionError".

(** [e.__class__.__name__]. *)
Definition class_name (e : exn) : string :=
  match e with
  | StopInputGroup _ => "StopInputGroup"
  | KeyboardInterrupt => "KeyboardInterrupt"
  | SystemExit => "SystemExit"
  | CalledProcessError _ _ => "CalledProcessError"
  | UnknownTarget _ => "UnknownTarget"
  | PyError cls _ => cls
  end.

(** [isinstance(e, Exception)]: what [except Exception] catches. *)
Definition is_Exception (e : exn) : bool :=
  match e with
  | KeyboardInterrupt | SystemExit => false
  | _ => true
  end.

(** [e.args[0] if e.args else '']. *)
Definition exn_detail (e : exn) : string :=
  match e with
  | StopInputGroup m => m
  | UnknownTarget t => t
  | PyError _ d => d
  | _ => ""
  end.

(** ** Values *)

(** The targets of [sos/targets.py] that the executor tells apart. *)
Inductive target :=
| file_target (path : string)
| sos_step (name : string)
| sos_variable (name : string)
| remote (inner : string).

#[global] Instance target_eq_dec : EqDecision target.
Proof. solve_decision. Defined.

(** Hashable values used as dictionary keys. *)
Inductive pykey :=
| KStr (s : string)
| KInt (z : Z)
| KFile (path : string).

#[global] Instance pykey_eq_dec : EqDecision pykey.
Proof. solve_decision. Defined.

Inductive pyval :=
| VNone
| VBool (b : bool)
| VInt (z : Z)
| VStr (s : string)
| VTime (t : Z)                          (* a reading of [time.time()] *)
| VTarget (t : target)
| VList (l : list pyval)
| VTargets (l : list pyval)              (* a determined [sos_targets] *)
| VUndetermined (expr : string)          (* an undetermined [sos_targets] *)
| VDict (d : list (pykey * pyval))
| VFunc (name : string)
| VExc (e : exn).

Abbreviation pydict := (list (pykey * pyval)).

Module Dict.

Fixpoint get (k : pykey) (d : pydict) : option pyval :=
  match d with
  | [] => None
  | (k', v) :: d' => if decide (k = k') then Some v else get k d'
  end.

(** [d[k] = v]: an existing key keeps its place, a new one goes last. *)
Fixpoint set (k : pykey) (v : pyval) (d : pydict) : pydict :=
  match d with
  | [] => [(k, v)]
  | (k', v') :: d' =>
      if decide (k = k') then (k, v) :: d' else (k', v') :: set k v d'
  end.

Definition mem (k : pykey) (d : pydict) : bool :=
  match get k d with Some _ => true | None => false end.

(** [d.update(other)] for a dictionary [other]. *)
Definition update (d other : pydict) : pydict :=
  fold_left (fun acc kv => set kv.1 kv.2 acc) other d.

(** [d.get(k, default)]. *)
Definition get_default (k : pykey) (dflt : pyval) (d : pydict) : pyval :=
  match get k d with Some v => v | None => dflt end.

End Dict.

(** A task definition ([TaskParams], [MasterTaskParams] of [sos/tasks.py]):
    a master task is one that has the attribute [task_stack]. *)
Inductive TaskParams :=
| Task (global_def : string) (task : string) (sos_dict : pydict)
| MasterTask (sos_dict : pydict) (num_workers : Z)
    (task_stack : list (string * TaskParams)).

(** ** The process and its host *)

(** What the statements of a task can reach besides [env.sos_dict]: the
    working directory, the directories and files of the host (absolute names;
    [denied] are names the process may not create), [os.environ] and the
    clock. *)
Record Host := mkHost {
  cwd : string;
  home : string;
  dirs : gset string;
  files : gmap string string;
  denied : gset string;
  environ : gmap string string;
  clock : Z;
}.

Definition set_cwd (d : string) (h : Host) : Host :=
  mkHost d (home h) (dirs h) (files h) (denied h) (environ h) (clock h).
Definition set_dirs (ds : gset string) (h : Host) : Host :=
  mkHost (cwd h) (home h) ds (files h) (denied h) (environ h) (clock h).
Definition set_files (fs : gmap string string) (h : Host) : Host :=
  mkHost (cwd h) (home h) (dirs h) fs (denied h) (environ h) (clock h).
Definition set_environ (e : gmap string string) (h : Host) : Host :=
  mkHost (cwd h) (home h) (dirs h) (files h) (denied h) e (clock h).

Inductive level := TRACE | DEBUG | INFO | WARNING | ERROR.

(** The calls the executor makes to its collaborators, in the order it makes
    them. *)
Inductive event :=
| EvLog (lv : level) (msg : string)
| EvMonitorStart (task_id : string)
| EvExecGlobal (code : string)
| EvSigLock (id : string)
| EvSigValidate (id : string)
| EvSigWrite (id : string) (rebuild : bool)
| EvSigRelease (id : string)
| EvTargetExists (name : string)
| EvRemoveSig (name : string)
| EvExecTask (code : string)
| EvMasterOut (text : string)
| EvMasterErr (text : string).

#[global] Instance level_eq_dec : EqDecision level.
Proof. solve_decision. Defined.
#[global] Instance event_eq_dec : EqDecision event.
Proof. solve_decision. Defined.

(** The state of the process: the host, [env.sos_dict], [env.config]
    ([run_mode] and [sig_mode]), [env.verbosity], the signature store (the
    fingerprints whose lock this process holds, and the records) and the
    calls made so far. *)
Record State := mkState {
  host : Host;
  env_sos_dict : pydict;
  run_mode : option string;
  sig_mode : option string;
  verbosity : option Z;
  locked : gset string;
  store : gmap string pydict;
  trace : list event;
}.

Definition set_host (h : Host) (s : State) : State :=
  mkState h (env_sos_dict s) (run_mode s) (sig_mode s) (verbosity s)
    (locked s) (store s) (trace s).
Definition set_env_sos_dict (d : pydict) (s : State) : State :=
  mkState (host s) d (run_mode s) (sig_mode s) (verbosity s)
    (locked s) (store s) (trace s).
Definition set_run_mode (m : option string) (s : State) : State :=
  mkState (host s) (env_sos_dict s) m (sig_mode s) (verbosity s)
    (locked s) (store s) (trace s).
Definition set_sig_mode (m : option string) (s : State) : State :=
  mkState (host s) (env_sos_dict s) (run_mode s) m (verbosity s)
    (locked s) (store s) (trace s).
Definition set_verbosity (v : option Z) (s : State) : State :=
  mkState (host s) (env_sos_dict s) (run_mode s) (sig_mode s) v
    (locked s) (store s) (trace s).
Definition set_locked (l : gset string) (s : State) : State :=
  mkState (host s) (env_sos_dict s) (run_mode s) (sig_mode s) (verbosity s)
    l (store s) (trace s).
Definition set_store (st : gmap string pydict) (s : State) : State :=
  mkState (host s) (env_sos_dict s) (run_mode s) (sig_mode s) (verbosity s)
    (locked s) st (trace s).
Definition set_trace (t : list event) (s : State) : State :=
  mkState (host s) (env_sos_dict s) (run_mode s) (sig_mode s) (verbosity s)
    (locked s) (store s) t.

(** ** The monad: state that survives exceptions *)

Inductive outcome (A : Type) :=
| Return (a : A)
| Raise (e : exn).
Arguments Return {A} a.
Arguments Raise {A} e.

Definition M (A : Type) : Type := State -> outcome A * State.

Definition ret {A} (a : A) : M A := fun s => (Return a, s).
Definition raise {A} (e : exn) : M A := fun s => (Raise e, s).
Definition bind {A B} (m : M A) (k : A -> M B) : M B :=
  fun s => match m s with
           | (Return a, s') => k a s'
           | (Raise e, s') => (Raise e, s')
           end.
Definition gets {A} (f : State -> A) : M A := fun s => (Return (f s), s).
Definition modify (f : State -> State) : M unit := fun s => (Return tt, f s).
Definition emit (ev : event) : M unit :=
  modify (fun s => set_trace (trace s ++ [ev]) s).
Definition lift_outcome {A} (o : outcome A) : M A := fun s => (o, s).

Notation "x <- m ;; k" := (bind m (fun x => k))
  (at level 100, m at next level, right associativity).
Notation "m ;; k" := (bind m (fun _ => k))
  (at level 100, right associativity).

(** [try: m  except <those e with h e = Some k>: k]. *)
Definition try_except {A} (m : M A) (h : exn -> option (M A)) : M A :=
  fun s => match m s with
           | (Return a, s') => (Return a, s')
           | (Raise e, s') =>
               match h e with
               | Some k => k s'
               | None => (Raise e, s')
               end
           end.

(** [try: m  finally: fin]: [fin] runs on every way out of [m]; an exception
    of [fin] replaces the result or exception of [m]. *)
Definition try_finally {A} (m : M A) (fin : M unit) : M A :=
  fun s => let (r, s1) := m s in
           match fin s1 with
           | (Return _, s2) => (r, s2)
           | (Raise e, s2) => (Raise e, s2)
           end.

Fixpoint for_each {A} (l : list A) (f : A -> M unit) : M unit :=
  match l with
  | [] => ret tt
  | x :: l' => f x ;; for_each l' f
  end.

Definition log (lv : level) (msg : string) : M unit := emit (EvLog lv msg).

(** ** Operating-system calls *)

(** [os.path.expanduser]: [~] and [~/...] only. *)
Definition expanduser (h : Host) (p : string) : string :=
  match p with
  | String "~"%char EmptyString => home h
  | String "~"%char (String "/"%char _ as rest) => home h +:+ rest
  | _ => p
  end.

(** A relative name is taken from the working directory; [..] and links are
    not resolved. *)
Definition abspath (h : Host) (p : string) : string :=
  if String.prefix "/" p then p
  else if decide (p = ".") then cwd h
  else cwd h +:+ "/" +:+ p.

Definition isdir (h : Host) (p : string) : bool :=
  bool_decide (abspath h p ∈ dirs h).
Definition isfile (h : Host) (p : string) : bool :=
  bool_decide (is_Some (files h !! abspath h p)).
Definition path_exists (h : Host) (p : string) : bool :=
  isdir h p || isfile h p.

Definition os_path_isdir (p : string) : M bool :=
  gets (fun s => isdir (host s) p).

(** [os.makedirs(p)] (and [Path.mkdir(parents=True, exist_ok=...)]). *)
Definition os_makedirs (exist_ok : bool) (p : string) : M unit :=
  h <- gets host ;;
  if isdir h p then
    if exist_ok then ret tt else raise (FileExistsError p)
  else if isfile h p then raise (FileExistsError p)
  else if bool_decide (abspath h p ∈ denied h) then raise (PermissionError p)
  else modify (fun s => set_host (set_dirs ({[ abspath h p ]} ∪ dirs h) h) s).

Definition os_chdir (p : string) : M unit :=
  h <- gets host ;;
  if isdir h p then modify (fun s => set_host (set_cwd (abspath h p) h) s)
  else raise (FileNotFoundError p).

Definition os_getcwd : M string := gets (fun s => cwd (host s)).

(** [os.utime(p, ...)]: the file must be there; times are not modelled. *)
Definition os_utime (p : string) : M unit :=
  h <- gets host ;;
  if isfile h p then ret tt else raise (FileNotFoundError p).

(** [open(p, 'w').close()]. *)
Definition truncate_file (p : string) : M unit :=
  h <- gets host ;;
  if isdir h p then raise (PyError "IsADirectoryError" p)
  else modify (fun s => set_host (set_files (<[ abspath h p := "" ]> (files h)) h) s).

Definition time_time : M pyval := gets (fun s => VTime (clock (host s))).

(** [os.path.join(os.path.expanduser('~'), '.sos', 'tasks', task_id + ext)]. *)
Definition task_path (h : Host) (task_id ext : string) : string :=
  home h +:+ "/.sos/tasks/" +:+ task_id +:+ ext.

Definition pathsep : string := ":".

(** ** [env.sos_dict] *)

Definition env_get (k : string) : M pyval :=
  d <- gets env_sos_dict ;;
  match Dict.get (KStr k) d with
  | Some v => ret v
  | None => raise (KeyError k)
  end.

Definition env_set (k : string) (v : pyval) : M unit :=
  modify (fun s => set_env_sos_dict (Dict.set (KStr k) v (env_sos_dict s)) s).

Definition env_update (other : pydict) : M unit :=
  modify (fun s => set_env_sos_dict (Dict.update (env_sos_dict s) other) s).

(** [d[k]] for a local dictionary. *)
Definition getitem (k : string) (d : pydict) : M pyval :=
  match Dict.get (KStr k) d with
  | Some v => ret v
  | None => raise (KeyError k)
  end.

(** ** Targets *)

Definition target_name (t : target) : string :=
  match t with
  | file_target p => p
  | sos_step n => n
  | sos_variable n => n
  | remote x => x
  end.

(** Modelled from the spec: [target_exists] of [sos/targets.py], which is not
    among the sources.  A file target exists when the host has the file or
    directory; a named variable when [env.sos_dict] binds it; a step
    reference and a remote value are not checked on this host. *)
Definition target_exists (t : target) : M bool :=
  emit (EvTargetExists (target_name t)) ;;
  match t with
  | file_target p => gets (fun s => path_exists (host s) p)
  | sos_variable n => gets (fun s => Dict.mem (KStr n) (env_sos_dict s))
  | sos_step _ | remote _ => ret true
  end.

(** [remove_sig]: the stale signature of the target is dropped. *)
Definition remove_sig (t : target) : M unit :=
  emit (EvRemoveSig (target_name t)).

(** [sos_targets(items)]: strings become file targets. *)
Definition as_target (v : pyval) : outcome pyval :=
  match v with
  | VStr s => Return (VTarget (file_target s))
  | VTarget t => Return (VTarget t)
  | _ => Raise (RuntimeError "Unrecognized targets")
  end.

Fixpoint map_outcome {A B} (f : A -> outcome B) (l : list A)
  : outcome (list B) :=
  match l with
  | [] => Return []
  | x :: l' =>
      match f x with
      | Raise e => Raise e
      | Return y =>
          match map_outcome f l' with
          | Raise e => Raise e
          | Return ys => Return (y :: ys)
          end
      end
  end.

Definition sos_targets (v : pyval) : outcome pyval :=
  match v with
  | VList l | VTargets l =>
      match map_outcome as_target l with
      | Return l' => Return (VTargets l')
      | Raise e => Raise e
      end
  | VUndetermined e => Return (VUndetermined e)
  | VNone => Return (VTargets [])
  | _ => Raise (RuntimeError "Unrecognized targets")
  end.

(** The fingerprint of a task with what it was computed from
    ([RuntimeInfo] of [sos/targets.py]). *)
Record RuntimeInfo := mkRuntimeInfo {
  sig_id : string;
  script : string;
  input_files : pyval;
  output_files : pyval;
  dependent_files : pyval;
  signature_vars : pyval;
}.

(** ** Collaborators

    What the executor calls and does not define (§6 of the design): running
    statements and evaluating expressions in [env.sos_dict], formatting,
    tokenizing and hashing, reading a task file, expanding file lists, the
    content signature of a file, the comparison of a stored record with the
    present state, and the pool of worker processes ([Pool] runs the
    invocations it is given, calls [copy_out_and_err] as each one ends, and
    gives the results in the order of submission). *)
Class Collaborators := {
  SoS_exec : string -> Host * pydict -> outcome unit * (Host * pydict);
  SoS_eval : string -> Host -> pydict -> outcome pyval;
  py_str : pyval -> string;
  short_repr : string -> string;
  generate_tokens : string -> outcome (list string);
  textMD5 : string -> string;
  interpolate : string -> pydict -> string;
  unpickle : string -> option TaskParams;
  _expand_file_list : Host -> list pyval -> list string;
  target_signature : Host -> string -> pyval;
  fingerprint : string -> string -> pyval -> pyval -> pyval -> pyval -> string;
  sig_mismatch : Host -> pydict -> RuntimeInfo -> pydict -> option string;
  sig_content : Host -> pydict -> RuntimeInfo -> option pydict;
  Pool : list (string * M pydict) -> M (list pydict);
}.

Section Executor.
Context `{Collaborators}.

(** ** The signature store *)

(** Modelled from the spec: [lock], [validate], [write] and [release] of
    [RuntimeInfo] ([sos/targets.py] is not among the sources).  [lock] takes
    the lock of the fingerprint and [release] gives it back; [validate]
    answers with the stored record when it agrees with the present state and
    with a reason (a string) otherwise, also when there is no record;
    [write] stores the present values, and with [rebuild] only when the
    declared outputs exist. *)
Definition sig_lock (sig : RuntimeInfo) : M unit :=
  emit (EvSigLock (sig_id sig)) ;;
  modify (fun s => set_locked ({[ sig_id sig ]} ∪ locked s) s).

Definition sig_release (sig : RuntimeInfo) : M unit :=
  emit (EvSigRelease (sig_id sig)) ;;
  modify (fun s => set_locked (locked s ∖ {[ sig_id sig ]}) s).

Definition sig_validate (sig : RuntimeInfo) : M pyval :=
  emit (EvSigValidate (sig_id sig)) ;;
  s <- gets id ;;
  match store s !! sig_id sig with
  | None => ret (VStr "Missing signature")
  | Some rec =>
      match sig_mismatch (host s) (env_sos_dict s) sig rec with
      | Some why => ret (VStr why)
      | None => ret (VDict rec)
      end
  end.

Definition outputs_exist (h : Host) (output : pyval) : bool :=
  match output with
  | VTargets l =>
      forallb (fun x => match x with
                        | VTarget (file_target p) => path_exists h p
                        | _ => true
                        end) l
  | _ => false
  end.

Definition sig_write (sig : RuntimeInfo) (rebuild : bool) : M bool :=
  emit (EvSigWrite (sig_id sig) rebuild) ;;
  s <- gets id ;;
  if rebuild && negb (outputs_exist (host s) (output_files sig)) then ret false
  else match sig_content (host s) (env_sos_dict s) sig with
       | Some rec =>
           modify (fun s => set_store (<[ sig_id sig := rec ]> (store s)) s) ;;
           ret true
       | None => ret false
       end.

(** ** [collect_task_result] *)

(** What [in env.sos_dict] is asked about: a name, or (line 30) the builtin
    function [vars], which is no key of the dictionary. *)
Inductive asked :=
| Name (k : pykey)
| builtin_vars.

Definition env_contains (a : asked) : M bool :=
  match a with
  | Name k => gets (fun s => Dict.mem k (env_sos_dict s))
  | builtin_vars => ret false
  end.

Definition key_str (k : pykey) : string :=
  match k with
  | KStr s => s
  | KInt z => py_str (VInt z)
  | KFile p => p
  end.

Definition unavailable (name task_id : string) : string :=
  "Unavailable shared variable " +:+ name +:+
  " after the completion of task " +:+ task_id.

Definition bad_shared (svars : pyval) : string :=
  "Option shared should be a string, a mapping of expression, or a list of string or mappings. "
  +:+ py_str svars +:+ " provided".

(** [if <test> not in env.sos_dict: raise ValueError(...)] followed by
    [shared[name] = copy.deepcopy(env.sos_dict[name])]. *)
Definition export_name (task_id : string) (test : asked) (name : pykey)
    (shared : pydict) : M pydict :=
  present <- env_contains test ;;
  if negb present then raise (ValueError (unavailable (key_str name) task_id))
  else
    d <- gets env_sos_dict ;;
    match Dict.get name d with
    | Some v => ret (Dict.set name v shared)
    | None => raise (KeyError (key_str name))
    end.

(** [var == val] for a key and a value (the code asks [var != val]). *)
Definition key_is (k : pykey) (v : pyval) : bool :=
  match k, v with
  | KStr a, VStr b => bool_decide (a = b)
  | KInt a, VInt b => bool_decide (a = b)
  | _, _ => false
  end.

Definition eval_expr (expr : pyval) : M pyval :=
  match expr with
  | VStr e => s <- gets id ;; lift_outcome (SoS_eval e (host s) (env_sos_dict s))
  | _ => raise (TypeError "eval() arg 1 must be a string, bytes or code object")
  end.

(** The loop over [svars.items()] (lines 35-41, and 52-58 inside a list). *)
Fixpoint export_mapping (task_id : string) (items : pydict) (shared : pydict)
  : M pydict :=
  match items with
  | [] => ret shared
  | (var, val) :: items' =>
      (if negb (key_is var val)
       then v <- eval_expr val ;;
            modify (fun s => set_env_sos_dict (Dict.set var v (env_sos_dict s)) s)
       else ret tt) ;;
      shared' <- export_name task_id (Name var) var shared ;;
      export_mapping task_id items' shared'
  end.

(** The loop over a list of names and mappings (lines 45-61). *)
Fixpoint export_sequence (task_id : string) (svars : pyval)
    (items : list pyval) (shared : pydict) : M pydict :=
  match items with
  | [] => ret shared
  | VStr item :: items' =>
      shared' <- export_name task_id (Name (KStr item)) (KStr item) shared ;;
      export_sequence task_id svars items' shared'
  | VDict m :: items' =>
      shared' <- export_mapping task_id m shared ;;
      export_sequence task_id svars items' shared'
  | _ :: _ => raise (ValueError (bad_shared svars))
  end.

(** Lines 26-66: the shared variables of the result. *)
Definition collect_shared (task_id : string) : M pydict :=
  rt <- env_get "_runtime" ;;
  match rt with
  | VDict runtime =>
      match Dict.get (KStr "shared") runtime with
      | None => ret []
      | Some svars =>
          shared <-
            match svars with
            | VStr name => export_name task_id builtin_vars (KStr name) []
            | VDict m => export_mapping task_id m []
            | VList l | VTargets l => export_sequence task_id svars l []
            | VUndetermined _ => ret []
            | _ => raise (ValueError (bad_shared svars))
            end ;;
          idx <- env_get "_index" ;;
          log DEBUG ("task " +:+ task_id +:+ " (index=" +:+ py_str idx +:+
                     ") return shared variable " +:+ py_str (VDict shared)) ;;
          ret shared
      end
  | _ => raise (TypeError "argument is not iterable")
  end.

(** [{x: file_target(x).target_signature() for x in l
      if isinstance(x, (str, file_target))}]. *)
Definition digests (h : Host) (l : list pyval) : pydict :=
  fold_left (fun acc x =>
               match x with
               | VStr p => Dict.set (KStr p) (target_signature h p) acc
               | VTarget (file_target p) =>
                   Dict.set (KFile p) (target_signature h p) acc
               | _ => acc
               end) l [].

Definition key_value (k : pykey) : pyval :=
  match k with
  | KStr s => VStr s
  | KInt z => VInt z
  | KFile p => VTarget (file_target p)
  end.

(** [for x in v]. *)
Definition iterate (v : pyval) : outcome (list pyval) :=
  match v with
  | VList l | VTargets l => Return l
  | VUndetermined _ => Return []
  | VStr s => Return (map (fun c => VStr (String c "")) (String.list_ascii_of_string s))
  | VDict d => Return (map (fun kv => key_value kv.1) d)
  | _ => Raise (TypeError "object is not iterable")
  end.

Definition digests_of (v : pyval) : M pydict :=
  l <- lift_outcome (iterate v) ;;
  h <- gets host ;;
  ret (digests h l).

(** Lines 69-87. *)
Definition collect_output (sos_dict : pydict) : M pydict :=
  o <- env_get "_output" ;;
  match o with
  | VNone => ret []
  | VUndetermined expr =>
      env_set "__null_func__" (VFunc "__null_func__") ;;
      r <- eval_expr (VStr ("__null_func__(" +:+ expr +:+ ")")) ;;
      match r with
      | VList [VList args; _] =>
          h <- gets host ;;
          ret (fold_left (fun acc x => Dict.set (KFile x) (target_signature h x) acc)
                         (_expand_file_list h args) [])
      | _ => raise (TypeError "cannot unpack")
      end
  | VTargets _ =>
      o' <- getitem "_output" sos_dict ;;
      match o' with
      | VNone => ret []
      | _ => digests_of o'
      end
  | _ => raise (AttributeError "determined")
  end.

(** Lines 89-92, for [key] one of [_input] and [_depends]. *)
Definition collect_files (key : string) (sos_dict : pydict) : M pydict :=
  e <- env_get key ;;
  match e with
  | VNone => ret []
  | _ =>
      v <- getitem key sos_dict ;;
      match v with
      | VNone => ret []
      | _ => digests_of v
      end
  end.

Definition hashable (v : pyval) : outcome pykey :=
  match v with
  | VInt z => Return (KInt z)
  | VStr s => Return (KStr s)
  | VTarget (file_target p) => Return (KFile p)
  | _ => Raise (TypeError "unhashable type")
  end.

Definition collect_task_result (task_id : string) (sos_dict : pydict)
    (skipped : bool) : M pydict :=
  shared <- collect_shared task_id ;;
  output <- collect_output sos_dict ;;
  input <- collect_files "_input" sos_dict ;;
  depends <- collect_files "_depends" sos_dict ;;
  idx <- env_get "_index" ;;
  kidx <- lift_outcome (hashable idx) ;;
  now <- time_time ;;
  ret [ (KStr "ret_code", VInt 0); (KStr "task", VStr task_id);
        (KStr "input", VDict input); (KStr "output", VDict output);
        (KStr "depends", VDict depends);
        (KStr "shared", VDict [(kidx, VDict shared)]);
        (KStr "skipped", VBool skipped);
        (KStr "start_time", Dict.get_default (KStr "start_time") (VStr "") sos_dict);
        (KStr "peak_cpu", Dict.get_default (KStr "peak_cpu") (VInt 0) sos_dict);
        (KStr "peak_mem", Dict.get_default (KStr "peak_mem") (VInt 0) sos_dict);
        (KStr "end_time", now) ].

(** ** Environment staging (lines 382-461) *)

(** [sos_dict['_runtime'][k]] under the guard
    ['_runtime' in sos_dict and k in sos_dict['_runtime']]. *)
Definition in_runtime (k : string) (sos_dict : pydict) : M (option pyval) :=
  match Dict.get (KStr "_runtime") sos_dict with
  | None => ret None
  | Some (VDict rt) => ret (Dict.get (KStr k) rt)
  | Some _ => raise (TypeError "argument is not iterable")
  end.

(** Lines 384-398: go to [cur_dir]. *)
Definition go_to_cur_dir (sos_dict : pydict) : M unit :=
  c <- in_runtime "cur_dir" sos_dict ;;
  match c with
  | None => ret tt
  | Some (VStr d) =>
      h <- gets host ;;
      isd <- os_path_isdir (expanduser h d) ;;
      if negb isd then
        try_except
          (os_makedirs false (expanduser h d) ;; os_chdir (expanduser h d))
          (fun e => if is_Exception e
                    then Some (log DEBUG ("Failed to create cur_dir " +:+ d))
                    else None)
      else os_chdir (expanduser h d)
  | Some _ => raise (TypeError "expected str, bytes or os.PathLike object")
  end.

(** Lines 408-417: one input or dependency target. *)
Definition check_target (t : pyval) : M unit :=
  match t with
  | VStr p =>
      ok <- target_exists (file_target p) ;;
      if ok then ret tt
      else remove_sig (file_target p) ;; raise (UnknownTarget p)
  | VTarget (sos_step _) => ret tt
  | VTarget t' =>
      ok <- target_exists t' ;;
      if ok then ret tt
      else remove_sig t' ;; raise (UnknownTarget (target_name t'))
  | _ => raise (AttributeError "target_exists")
  end.

Definition list_or_empty (v : pyval) : list pyval :=
  match v with
  | VList l => l
  | _ => []
  end.

(** Lines 404-417. *)
Definition verify_targets (sos_dict : pydict) : M unit :=
  i <- getitem "_input" sos_dict ;;
  d <- getitem "_depends" sos_dict ;;
  for_each (list_or_empty i ++ list_or_empty d) check_target.

(** The part of [s] before its last [/], if it has one. *)
Fixpoint before_last_slash (s : string) : option string :=
  match s with
  | EmptyString => None
  | String c s' =>
      match before_last_slash s' with
      | Some d => Some (String c d)
      | None => if decide (c = "/"%char) then Some "" else None
      end
  end.

(** [Path(p).parent]. *)
Definition parent (p : string) : string :=
  match before_last_slash p with
  | None => "."
  | Some EmptyString => "/"
  | Some d => d
  end.

(** Lines 421-426: the directories of the outputs. *)
Definition make_output_dirs : M unit :=
  ofiles <- env_get "_output" ;;
  match ofiles with
  | VTargets l =>
      for_each l (fun ofile =>
        match ofile with
        | VTarget (file_target p) =>
            isd <- os_path_isdir (parent p) ;;
            if negb isd then os_makedirs true (parent p) else ret tt
        | _ => raise (AttributeError "parent")
        end)
  | VUndetermined _ => ret tt
  | _ => raise (AttributeError "determined")
  end.

(** Lines 429-437: go to [workdir]. *)
Definition go_to_workdir (sos_dict : pydict) : M unit :=
  w <- in_runtime "workdir" sos_dict ;;
  match w with
  | None => ret tt
  | Some (VStr d) =>
      h <- gets host ;;
      isd <- os_path_isdir (expanduser h d) ;;
      (if negb isd then
         try_except (os_makedirs false (expanduser h d))
           (fun e => if is_Exception e
                     then Some (raise (RuntimeError ("Failed to create workdir " +:+ d)))
                     else None)
       else ret tt) ;;
      os_chdir (expanduser h d)
  | Some _ => raise (TypeError "expected str, bytes or os.PathLike object")
  end.

(** [new_path[p] = 1] on an [OrderedDict]: the keys in the order they were
    first set. *)
Definition ordered_add (p : string) (keys : list string) : list string :=
  if bool_decide (p ∈ keys) then keys else keys ++ [p].

(** Lines 444-449: the value given to a variable whose name contains [PATH]
    and which [os.environ] already has ([inherited]).  The second loop splits
    [value] at the inherited value. *)
Definition merge_path (value inherited : string) : outcome string :=
  match PyStr.split value pathsep with
  | None => Raise (ValueError "empty separator")
  | Some first =>
      let new_path := fold_left (fun acc p => ordered_add p acc) first [] in
      match PyStr.split value inherited with
      | None => Raise (ValueError "empty separator")
      | Some second =>
          let new_path := fold_left (fun acc p => ordered_add p acc) second new_path in
          Return (PyStr.join pathsep new_path)
      end
  end.

Definition setenv (key value : string) : M unit :=
  modify (fun s => let h := host s in
                   set_host (set_environ (<[ key := value ]> (environ h)) h) s).

(** Lines 442-451: one item of [_runtime['env']]. *)
Definition stage_variable (kv : pykey * pyval) : M unit :=
  match kv with
  | (KStr key, VStr value) =>
      e <- gets (fun s => environ (host s)) ;;
      match e !! key with
      | Some inherited =>
          if PyStr.contains "PATH" key then
            v <- lift_outcome (merge_path value inherited) ;;
            setenv key v
          else setenv key value
      | None => setenv key value
      end
  | (KStr _, _) => raise (TypeError "str expected")
  | _ => raise (TypeError "argument of this type is not iterable")
  end.

Definition strings_of (l : list pyval) : outcome (list string) :=
  map_outcome (fun v => match v with
                        | VStr s => Return s
                        | _ => Raise (TypeError "sequence item: expected str instance")
                        end) l.

(** Lines 452-461. *)
Definition prepend_path (pp : pyval) : M unit :=
  e <- gets (fun s => environ (host s)) ;;
  match pp with
  | VStr p =>
      match e !! "PATH" with
      | Some old => setenv "PATH" (p +:+ pathsep +:+ old)
      | None => raise (KeyError "PATH")
      end
  | _ =>
      rt <- env_get "_runtime" ;;
      pp' <- match rt with
             | VDict r => getitem "prepend_path" r
             | _ => raise (TypeError "indices must be integers")
             end ;;
      match pp' with
      | VList _ | VTargets _ | VStr _ =>
          match pp with
          | VList l | VTargets l =>
              ss <- lift_outcome (strings_of l) ;;
              match e !! "PATH" with
              | Some old => setenv "PATH" (PyStr.join pathsep ss +:+ pathsep +:+ old)
              | None => raise (KeyError "PATH")
              end
          | _ => raise (TypeError "can only join an iterable")
          end
      | _ => raise (ValueError ("Unacceptable input for option prepend_path: " +:+ py_str pp))
      end
  end.

(** Lines 440-461: [os.environ]. *)
Definition stage_environ (sos_dict : pydict) : M unit :=
  match Dict.get (KStr "_runtime") sos_dict with
  | None => ret tt
  | Some (VDict rt) =>
      match Dict.get (KStr "env") rt with
      | None => ret tt
      | Some (VDict items) => for_each items stage_variable
      | Some _ => raise (AttributeError "items")
      end ;;
      match Dict.get (KStr "prepend_path") rt with
      | None => ret tt
      | Some pp => prepend_path pp
      end
  | Some _ => raise (TypeError "argument is not iterable")
  end.

(** ** The caching decision (lines 320-370) *)

Definition nl : string := String (ascii_of_nat 10) "".

(** Lines 324-329: the fingerprint of the task. *)
Definition open_signature (task : string) : M RuntimeInfo :=
  tokens <- lift_outcome (generate_tokens task) ;;
  i <- env_get "_input" ;;
  o <- env_get "_output" ;;
  d <- env_get "_depends" ;;
  v <- env_get "__signature_vars__" ;;
  ret (mkRuntimeInfo
         (fingerprint (textMD5 ("#task" +:+ nl +:+ PyStr.join " " tokens)) task i o d v)
         task i o d v).

(** Lines 338-341 and 350-353: the values of a matching record are adopted. *)
Definition adopt (matched : pydict) : M unit :=
  i <- getitem "input" matched ;;
  ti <- lift_outcome (sos_targets i) ;;
  env_set "_input" ti ;;
  d <- getitem "depends" matched ;;
  td <- lift_outcome (sos_targets d) ;;
  env_set "_depends" td ;;
  o <- getitem "output" matched ;;
  to <- lift_outcome (sos_targets o) ;;
  env_set "_output" to ;;
  v <- getitem "vars" matched ;;
  match v with
  | VDict vars => env_update vars
  | _ => raise (TypeError "object is not a mapping")
  end.

Definition ignored_msg (kind step_name idx why : string) : string :=
  kind +:+ " ``" +:+ step_name +:+ "`` (index=" +:+ idx +:+ ") is " +:+ why.

(** [env.config['sig_mode']]. *)
Definition config_sig_mode : M string :=
  m <- gets sig_mode ;;
  match m with
  | Some mode => ret mode
  | None => raise (KeyError "sig_mode")
  end.

(** Lines 320-370: the signature (none in mode [ignore]) and whether the task
    is skipped. *)
Definition caching_decision (task : string) : M (option RuntimeInfo * bool) :=
  mode <- config_sig_mode ;;
  if decide (mode = "ignore") then ret (None, false)
  else
    sig <- open_signature task ;;
    sig_lock sig ;;
    idx <- env_get "_index" ;;
    if decide (mode = "default") then
      matched <- sig_validate sig ;;
      match matched with
      | VDict m =>
          adopt m ;;
          step_name <- env_get "step_name" ;;
          log INFO (ignored_msg "Task" (py_str step_name) (py_str idx)
                      "``ignored`` due to saved signature") ;;
          ret (Some sig, true)
      | _ => ret (Some sig, false)
      end
    else if decide (mode = "assert") then
      matched <- sig_validate sig ;;
      match matched with
      | VStr why => raise (RuntimeError ("Signature mismatch: " +:+ why))
      | VDict m =>
          adopt m ;;
          step_name <- env_get "step_name" ;;
          log INFO (ignored_msg "Step" (py_str step_name) (py_str idx)
                      "``ignored`` with matching signature") ;;
          ret (Some sig, true)
      | _ => raise (TypeError "object is not subscriptable")
      end
    else if decide (mode = "build") then
      ok <- sig_write sig true ;;
      step_name <- env_get "step_name" ;;
      if ok then
        log INFO (ignored_msg "Task" (py_str step_name) (py_str idx)
                    "``ignored`` with signature constructed") ;;
        ret (Some sig, true)
      else
        log INFO (ignored_msg "Task" (py_str step_name) (py_str idx)
                    "``executed`` with failed signature constructed") ;;
        ret (Some sig, false)
    else if decide (mode = "force") then ret (Some sig, false)
    else raise (RuntimeError ("Unrecognized signature mode " +:+ mode)).

(** ** [validate_step_sig] ([sos/executor_utils.py], lines 161-202) *)

Definition is_str (name : string) (v : pyval) : bool :=
  match v with
  | VStr s => bool_decide (s = name)
  | _ => false
  end.

(** [name in v] for a string [name]. *)
Definition contains_str (name : string) (v : pyval) : outcome bool :=
  match v with
  | VList l | VTargets l => Return (existsb (is_str name) l)
  | VDict d => Return (Dict.mem (KStr name) d)
  | VStr s => Return (PyStr.contains name s)
  | VUndetermined _ => Return false
  | _ => Raise (TypeError "argument is not iterable")
  end.

(** ['sos_run' in env.sos_dict['__signature_vars__']]. *)
Definition uses_sos_run : M bool :=
  v <- env_get "__signature_vars__" ;;
  lift_outcome (contains_str "sos_run" v).

Definition validate_step_sig (sig : RuntimeInfo) : M pyval :=
  mode <- config_sig_mode ;;
  if decide (mode = "default") then
    nested <- uses_sos_run ;;
    if nested then ret (VDict [])
    else
      matched <- sig_validate sig ;;
      match matched with
      | VDict m =>
          step_name <- env_get "step_name" ;;
          idx <- env_get "_index" ;;
          log INFO ("``" +:+ py_str step_name +:+ "`` (index=" +:+ py_str idx +:+
                    ") is ``ignored`` due to saved signature") ;;
          ret matched
      | _ =>
          log DEBUG ("Signature mismatch: " +:+ py_str matched) ;;
          ret (VDict [])
      end
  else if decide (mode = "assert") then
    matched <- sig_validate sig ;;
    match matched with
    | VStr why => raise (RuntimeError ("Signature mismatch: " +:+ why))
    | _ =>
        step_name <- env_get "step_name" ;;
        idx <- env_get "_index" ;;
        log INFO (ignored_msg "Step" (py_str step_name) (py_str idx)
                    "``ignored`` with matching signature") ;;
        ret matched
    end
  else if decide (mode = "build") then
    nested <- uses_sos_run ;;
    if nested then ret (VDict [])
    else
      ok <- sig_write sig true ;;
      if ok then
        step_name <- env_get "step_name" ;;
        idx <- env_get "_index" ;;
        log INFO (ignored_msg "Step" (py_str step_name) (py_str idx)
                    "``ignored`` with signature constructed") ;;
        s <- gets id ;;
        match store s !! sig_id sig with
        | Some content =>
            i <- getitem "input" content ;;
            o <- getitem "output" content ;;
            d <- getitem "depends" content ;;
            v <- getitem "end_context" content ;;
            ret (VDict [(KStr "input", i); (KStr "output", o);
                        (KStr "depends", d); (KStr "vars", v)])
        | None => raise (KeyError "input")
        end
      else ret VNone
  else if decide (mode = "force") then ret (VDict [])
  else raise (RuntimeError ("Unrecognized signature mode " +:+ mode)).

(** ** [_execute_task]: one task (lines 246-524) *)

(** The arguments besides the task: [verbosity], [runmode] and [sigmode]
    (the intervals of the monitor are not modelled). *)
Record Options := mkOptions {
  opt_verbosity : option Z;
  runmode : string;
  sigmode : option string;
}.

Definition prelude : string :=
  "import os, sys, glob" +:+ nl +:+ "from sos.runtime import *" +:+ nl +:+
  "CONFIG = {}" +:+ nl +:+ "del sos_handle_parameter_" +:+ nl.

(** [SoS_exec(code)]: the statements act on the host and on [env.sos_dict]. *)
Definition run_code (code : string) : M unit :=
  fun s => let '(r, (h', d')) := SoS_exec code (host s, env_sos_dict s) in
           (r, set_env_sos_dict d' (set_host h' s)).

(** Lines 307-318. *)
Definition resolve_remote (d : pydict) (x : pyval) : pyval :=
  match x with
  | VTarget (remote inner) => VStr (interpolate inner d)
  | _ => x
  end.

Definition is_sos_step (x : pyval) : bool :=
  match x with
  | VTarget (sos_step _) => true
  | _ => false
  end.

Definition resolve_remote_targets (sos_dict : pydict) : M unit :=
  for_each ["step_input"; "_input"; "step_output"; "_output"; "step_depends"; "_depends"]
    (fun key =>
       match Dict.get (KStr key) sos_dict with
       | Some (VList l) | Some (VTargets l) =>
           d <- gets env_sos_dict ;;
           t <- lift_outcome
                  (sos_targets (VList (map (resolve_remote d)
                                         (filter (fun x => negb (is_sos_step x)) l)))) ;;
           env_set key t
       | Some (VUndetermined _) => env_set key (VTargets [])
       | _ => ret tt
       end).

(** Lines 475-476. *)
Definition stop_result (task_id : string) : pydict :=
  [ (KStr "ret_code", VInt 0); (KStr "task", VStr task_id);
    (KStr "input", VList []); (KStr "output", VList []);
    (KStr "depends", VList []); (KStr "shared", VDict []) ].

(** Lines 471-508: the [except] clauses; each one that returns gives the
    result of the invocation.  The rendering of the traceback (lines 486-505,
    debug output only) is left out. *)
Definition except_clauses (task_id : string) (e : exn)
  : option (M (option pydict)) :=
  match e with
  | StopInputGroup message =>
      Some ((if decide (message = "") then ret tt
             else log WARNING (task_id +:+ " ``stopped``: " +:+ message)) ;;
            ret (Some (stop_result task_id)))
  | KeyboardInterrupt =>
      Some (log ERROR (task_id +:+ " ``interrupted``") ;; raise KeyboardInterrupt)
  | CalledProcessError returncode stderr =>
      Some (ret (Some [ (KStr "ret_code", VInt returncode); (KStr "task", VStr task_id);
                        (KStr "shared", VDict []);
                        (KStr "exception", VExc (RuntimeError stderr)) ]))
  | _ =>
      if is_Exception e then
        Some (log ERROR (task_id +:+ " ``failed``: " +:+ class_name e +:+ " " +:+
                         exn_detail e) ;;
              ret (Some [ (KStr "ret_code", VInt 1); (KStr "exception", VExc e);
                          (KStr "task", VStr task_id); (KStr "shared", VDict []) ]))
      else None
  end.

(** Lines 509-516: the [finally] clause; [orig_dir] is unbound when line 400
    was not reached. *)
Definition finalize (subtask : bool) (task_id : string)
    (orig_dir : option string) : M unit :=
  env_set "__step_sig__" VNone ;;
  match orig_dir with
  | Some d => os_chdir d
  | None => raise (UnboundLocalError "orig_dir")
  end ;;
  if subtask then ret tt
  else h <- gets host ;; os_utime (task_path h task_id ".task").

(** Lines 402-461: the targets, the directories and [os.environ]; lines
    464-469: the body; lines 402-469 together. *)
Definition stage (sos_dict : pydict) : M unit :=
  verify_targets sos_dict ;;
  make_output_dirs ;;
  go_to_workdir sos_dict ;;
  stage_environ sos_dict.

Definition run_body (subtask : bool) (task_id task : string)
  : M (option pydict) :=
  emit (EvExecTask task) ;;
  run_code task ;;
  log (if subtask then DEBUG else INFO) (task_id +:+ " ``completed``") ;;
  ret None.

Definition stage_and_run (subtask : bool) (task_id task : string)
    (sos_dict : pydict) : M (option pydict) :=
  stage sos_dict ;;
  run_body subtask task_id task.

(** [m] with its exception, if any, as a value. *)
Definition attempt {A} (m : M A) : M (outcome A) :=
  fun s => let (r, s') := m s in (Return r, s').

(** Lines 382-516: the [try] statement.  [Some r]: a clause returned [r];
    [None]: control goes on after the statement. *)
Definition protected (subtask : bool) (task_id task : string)
    (sos_dict : pydict) : M (option pydict) :=
  r <- attempt (go_to_cur_dir sos_dict) ;;
  match r with
  | Raise e =>
      try_finally (try_except (raise e) (except_clauses task_id))
        (finalize subtask task_id None)
  | Return _ =>
      orig_dir <- os_getcwd ;;
      try_finally
        (try_except (stage_and_run subtask task_id task sos_dict)
           (except_clauses task_id))
        (finalize subtask task_id (Some orig_dir))
  end.

(** Lines 293-297: [env.config]. *)
Definition set_modes (opts : Options) : M unit :=
  modify (set_run_mode (Some (runmode opts))) ;;
  if decide (runmode opts = "dryrun") then modify (set_sig_mode (Some "ignore"))
  else match sigmode opts with
       | Some m => modify (set_sig_mode (Some m))
       | None => ret tt
       end.

(** Lines 246-318: before the caching decision ([env.logfile], which only
    names the log, is left out). *)
Definition prepare (opts : Options) (subtask : bool) (task_id global_def : string)
    (sos_dict : pydict) : M pydict :=
  h <- gets host ;;
  env_set "__std_out__" (VStr (task_path h task_id ".out")) ;;
  env_set "__std_err__" (VStr (task_path h task_id ".err")) ;;
  (if path_exists h (task_path h task_id ".out")
   then truncate_file (task_path h task_id ".out") else ret tt) ;;
  (if path_exists h (task_path h task_id ".err")
   then truncate_file (task_path h task_id ".err") else ret tt) ;;
  match opt_verbosity opts with
  | Some v => modify (set_verbosity (Some v))
  | None => ret tt
  end ;;
  try_except (emit (EvExecGlobal global_def) ;; run_code (prelude +:+ global_def))
    (fun e => if is_Exception e
              then Some (log TRACE ("Failed to execute global definition " +:+
                                    short_repr global_def +:+ ": " +:+ exn_detail e))
              else None) ;;
  let sos_dict := if Dict.mem (KStr "_runtime") sos_dict then sos_dict
                  else Dict.set (KStr "_runtime") (VDict []) sos_dict in
  rt <- getitem "_runtime" sos_dict ;;
  match rt with
  | VDict _ => ret tt
  | _ => raise (AttributeError "get")
  end ;;
  emit (EvMonitorStart task_id) ;;
  set_modes opts ;;
  log (if subtask then DEBUG else INFO) (task_id +:+ " ``started``") ;;
  env_update sos_dict ;;
  resolve_remote_targets sos_dict ;;
  ret sos_dict.

(** Lines 378-380. *)
Definition touch_task_file (subtask : bool) (task_id : string)
    (sos_dict : pydict) : M pydict :=
  if subtask then ret sos_dict
  else
    h <- gets host ;;
    os_utime (task_path h task_id ".task") ;;
    now <- time_time ;;
    ret (Dict.set (KStr "start_time") now sos_dict).

(** Lines 518-524. *)
Definition finish (task_id : string) (sos_dict : pydict)
    (sig : option RuntimeInfo) : M pydict :=
  match sig with
  | Some sig => sig_write sig false ;; sig_release sig
  | None => ret tt
  end ;;
  collect_task_result task_id sos_dict false.

Definition execute_one (opts : Options) (subtask : bool)
    (task_id global_def task : string) (sos_dict : pydict) : M pydict :=
  sos_dict <- prepare opts subtask task_id global_def sos_dict ;;
  decision <- caching_decision task ;;
  if decision.2 then
    log INFO (task_id +:+ " ``skipped``") ;;
    collect_task_result task_id sos_dict true
  else
    sos_dict <- touch_task_file subtask task_id sos_dict ;;
    r <- protected subtask task_id task sos_dict ;;
    match r with
    | Some res => ret res
    | None => finish task_id sos_dict decision.1
    end.

(** ** [_execute_task]: a master task (lines 159-244) *)

(** Lines 178-196: the output of a sub-task goes to the files of the master. *)
Definition copy_out_and_err (result : pydict) : M unit :=
  t <- getitem "task" result ;;
  rc <- getitem "ret_code" result ;;
  let status := match rc with
                | VInt 0 => "completed"
                | _ => "failed"
                end in
  emit (EvMasterOut (py_str t +:+ ": " +:+ status +:+ nl)) ;;
  match Dict.get (KStr "output") result with
  | Some o => emit (EvMasterOut ("output: " +:+ py_str o +:+ nl))
  | None => ret tt
  end ;;
  match t with
  | VStr tid =>
      h <- gets host ;;
      match files h !! task_path h tid ".out" with
      | Some text => emit (EvMasterOut text)
      | None => ret tt
      end ;;
      emit (EvMasterErr (tid +:+ ": " +:+ status +:+ nl)) ;;
      match files h !! task_path h tid ".err" with
      | Some text => emit (EvMasterErr text)
      | None => ret tt
      end
  | _ => raise (TypeError "unsupported operand type(s) for +")
  end.

Definition has_exception (x : pydict) : bool := Dict.mem (KStr "exception") x.

(** Lines 211-217 and 226-232: the first result with an exception makes the
    result of the master. *)
Definition report_failure (task_id : string) (results : list pydict)
  : M (option pydict) :=
  match find has_exception results with
  | None => ret None
  | Some res =>
      failed <- lift_outcome
                  (strings_of (map (Dict.get_default (KStr "task") (VStr ""))
                                   (filter (fun x => has_exception x = true) results))) ;;
      log ERROR (task_id +:+ " ``failed`` due to failure of subtask" +:+
                 (if bool_decide (1 < length failed)%nat then "s" else "") +:+ " " +:+
                 PyStr.join ", " failed) ;;
      e <- getitem "exception" res ;;
      ret (Some [ (KStr "ret_code", VInt 1); (KStr "exception", e);
                  (KStr "task", VStr task_id) ])
  end.

(** The dictionary [all_res] of lines 235-236, by its five keys. *)
Record all_res := mkAllRes {
  ret_code : pyval;
  output : pydict;
  subtasks : pydict;
  shared : pydict;
  skipped : pyval;
}.

Definition all_res_init : all_res := mkAllRes (VInt 0) [] [] [] (VBool false).

Definition all_res_dict (a : all_res) : pydict :=
  [ (KStr "ret_code", ret_code a); (KStr "output", VDict (output a));
    (KStr "subtasks", VDict (subtasks a)); (KStr "shared", VDict (shared a));
    (KStr "skipped", skipped a) ].

(** [x[k]] without state. *)
Definition subscript (k : string) (x : pydict) : outcome pyval :=
  match Dict.get (KStr k) x with
  | Some v => Return v
  | None => Raise (KeyError k)
  end.

(** [a += b]. *)
Definition py_add (a b : pyval) : outcome pyval :=
  match a, b with
  | VInt x, VInt y => Return (VInt (x + y))
  | _, _ => Raise (TypeError "unsupported operand type(s) for +=")
  end.

(** One item of a sequence given to [dict.update]: a key and a value. *)
Definition update_item (d : outcome pydict) (item : pyval) : outcome pydict :=
  match d with
  | Raise e => Raise e
  | Return d =>
      match item with
      | VList [k; v] =>
          match hashable k with
          | Return k' => Return (Dict.set k' v d)
          | Raise e => Raise e
          end
      | _ => Raise (TypeError "cannot convert dictionary update sequence element")
      end
  end.

(** [d.update(other)]. *)
Definition py_update (d : pydict) (other : pyval) : outcome pydict :=
  match other with
  | VDict o => Return (Dict.update d o)
  | VList l => fold_left update_item l (Return d)
  | _ => Raise (TypeError "object is not iterable")
  end.

(** Lines 238-243: one turn of the loop. *)
Definition aggregate_one (a : all_res) (tid : string) (x : pydict)
  : outcome all_res :=
  match subscript "ret_code" x with
  | Raise e => Raise e
  | Return rc =>
  match py_add (ret_code a) rc with
  | Raise e => Raise e
  | Return rc' =>
  match subscript "output" x with
  | Raise e => Raise e
  | Return o =>
  match py_update (output a) o with
  | Raise e => Raise e
  | Return o' =>
  match subscript "shared" x with
  | Raise e => Raise e
  | Return sh =>
  match py_update (shared a) sh with
  | Raise e => Raise e
  | Return sh' =>
  match subscript "skipped" x with
  | Raise e => Raise e
  | Return sk =>
      Return (mkAllRes rc' o' (Dict.set (KStr tid) (VDict x) (subtasks a)) sh' sk)
  end end end end end end end.

(** Lines 237-244: the loop over [zip(params.task_stack, results)]. *)
Fixpoint aggregate (a : all_res) (pairs : list (string * pydict))
  : outcome all_res :=
  match pairs with
  | [] => Return a
  | (tid, x) :: pairs' =>
      match aggregate_one a tid x with
      | Raise e => Raise e
      | Return a' => aggregate a' pairs'
      end
  end.

(** Lines 209-244: from the results of the sub-tasks to that of the master. *)
Definition master_result (task_id : string) (ids : list string)
    (results : list pydict) : M pydict :=
  failure <- report_failure task_id results ;;
  match failure with
  | Some res => ret res
  | None =>
      a <- lift_outcome (aggregate all_res_init (zip ids results)) ;;
      ret (all_res_dict a)
  end.

(** Lines 219-225: the sub-tasks one after the other. *)
Fixpoint run_in_turn (calls : list (string * M pydict)) : M (list pydict) :=
  match calls with
  | [] => ret []
  | (_, call) :: calls' =>
      res <- call ;;
      copy_out_and_err res ;;
      results <- run_in_turn calls' ;;
      ret (res :: results)
  end.

(** Lines 159-244, given the invocation of each sub-task. *)
Definition execute_master (task_id : string) (sos_dict : pydict)
    (num_workers : Z) (calls : list (string * M pydict)) : M pydict :=
  rt <- getitem "_runtime" sos_dict ;;
  match rt with
  | VDict _ => ret tt
  | _ => raise (AttributeError "get")
  end ;;
  emit (EvMonitorStart task_id) ;;
  h <- gets host ;;
  truncate_file (task_path h task_id ".out") ;;
  truncate_file (task_path h task_id ".err") ;;
  results <- (if bool_decide (1 < num_workers)%Z then Pool calls
              else run_in_turn calls) ;;
  master_result task_id (map fst calls) results.

(** The body of [_execute_task] once the task is loaded; a sub-task is
    announced (line 157) and executed by the same function. *)
Fixpoint execute_params (opts : Options) (subtask : bool) (task_id : string)
    (params : TaskParams) {struct params} : M pydict :=
  match params with
  | Task global_def task sos_dict =>
      execute_one opts subtask task_id global_def task sos_dict
  | MasterTask sos_dict num_workers task_stack =>
      execute_master task_id sos_dict num_workers
        ((fix calls (stack : list (string * TaskParams)) : list (string * M pydict) :=
            match stack with
            | [] => []
            | (tid, tdef) :: stack' =>
                (tid, log TRACE ("Executing subtask " +:+ tid) ;;
                      execute_params opts true tid tdef) :: calls stack'
            end) task_stack)
  end.

(** [loadTask(task_file)]. *)
Definition loadTask (task_file : string) : M TaskParams :=
  h <- gets host ;;
  match files h !! task_file with
  | None => raise (FileNotFoundError task_file)
  | Some text =>
      match unpickle text with
      | Some params => ret params
      | None => raise (PyError "UnpicklingError" task_file)
      end
  end.

(** Lines 140-158: [task_id] is the name of a task file or, for a sub-task,
    the pair of its name and its definition. *)
Definition _execute_task (opts : Options) (task_id : string + string * TaskParams)
  : M pydict :=
  match task_id with
  | inl name =>
      h <- gets host ;;
      params <- loadTask (task_path h name ".task") ;;
      execute_params opts false name params
  | inr (name, params) =>
      log TRACE ("Executing subtask " +:+ name) ;;
      execute_params opts true name params
  end.

(** ** Points of an invocation *)

(** The invocation up to line 400: [None] when the task is skipped, else the
    variables [sos_dict], [sig] and [orig_dir] as the [try] statement has
    them once [orig_dir] is bound. *)
Definition enter_try (opts : Options) (subtask : bool)
    (task_id global_def task : string) (sos_dict : pydict)
  : M (option (pydict * option RuntimeInfo * string)) :=
  sos_dict <- prepare opts subtask task_id global_def sos_dict ;;
  decision <- caching_decision task ;;
  if decision.2 then ret None
  else
    sos_dict <- touch_task_file subtask task_id sos_dict ;;
    go_to_cur_dir sos_dict ;;
    orig_dir <- os_getcwd ;;
    ret (Some (sos_dict, decision.1, orig_dir)).

(** The invocation up to line 463, where the body starts. *)
Definition reach_body (opts : Options) (subtask : bool)
    (task_id global_def task : string) (sos_dict : pydict)
  : M (option (pydict * option RuntimeInfo * string)) :=
  x <- enter_try opts subtask task_id global_def task sos_dict ;;
  match x with
  | None => ret None
  | Some (sos_dict, _, _) => stage sos_dict ;; ret x
  end.

(** Lines 402-524 once [orig_dir] is bound. *)
Definition from_try (subtask : bool) (task_id task : string) (sos_dict : pydict)
    (sig : option RuntimeInfo) (orig_dir : string) : M pydict :=
  r <- try_finally
         (try_except (stage_and_run subtask task_id task sos_dict)
            (except_clauses task_id))
         (finalize subtask task_id (Some orig_dir)) ;;
  match r with
  | Some res => ret res
  | None => finish task_id sos_dict sig
  end.

(** Lines 464-524 once the body starts. *)
Definition from_body (subtask : bool) (task_id task : string) (sos_dict : pydict)
    (sig : option RuntimeInfo) (orig_dir : string) : M pydict :=
  r <- try_finally
         (try_except (run_body subtask task_id task) (except_clauses task_id))
         (finalize subtask task_id (Some orig_dir)) ;;
  match r with
  | Some res => ret res
  | None => finish task_id sos_dict sig
  end.

End Executor.

(** ** The order of the calls *)

(** The rank of a call in the order the executor makes them: the caching
    decision (lock, validation, write with [rebuild]), then the check of the
    targets, then the body. *)
Definition code_rank (ev : event) : option nat :=
  match ev with
  | EvSigLock _ | EvSigValidate _ | EvSigWrite _ true => Some 1
  | EvTargetExists _ => Some 2
  | EvExecTask _ => Some 3
  | _ => None
  end.

(** The rank of a call in the order of §5 of the design: the check of the
    targets, then the caching decision, then the body. *)
Definition spec_rank (ev : event) : option nat :=
  match ev with
  | EvTargetExists _ => Some 1
  | EvSigLock _ | EvSigValidate _ | EvSigWrite _ true => Some 2
  | EvExecTask _ => Some 3
  | _ => None
  end.

(** [l] never goes down and starts at [lo] or above. *)
Fixpoint ascending (lo : nat) (l : list nat) : bool :=
  match l with
  | [] => true
  | n :: l' => Nat.leb lo n && ascending n l'
  end.

Definition in_order (rank : event -> option nat) (evs : list event) : bool :=
  ascending 0 (omap rank evs).

(** [ev] occurs in [evs]. *)
Definition occurs (ev : event) (evs : list event) : bool :=
  bool_decide (ev ∈ evs).

(** The entries of a variable made of path entries. *)
Definition path_entries (value : string) : list string :=
  default [] (PyStr.split value pathsep).

(** The names that a declaration of shared variables exports as they are:
    the single name, the names of a sequence, and the entries of a mapping
    whose expression is the name itself.  [None] when some entry of a mapping
    has an expression of its own, or the declaration is of no known form. *)
Fixpoint plain_mapping (m : pydict) : option (list pykey) :=
  match m with
  | [] => Some []
  | (var, val) :: m' =>
      if key_is var val
      then names ← plain_mapping m'; Some (var :: names)
      else None
  end.

Fixpoint plain_sequence (l : list pyval) : option (list pykey) :=
  match l with
  | [] => Some []
  | VStr name :: l' => names ← plain_sequence l'; Some (KStr name :: names)
  | VDict m :: l' =>
      first ← plain_mapping m; names ← plain_sequence l'; Some (app first names)
  | _ :: _ => None
  end.

Definition plain_names (svars : pyval) : option (list pykey) :=
  match svars with
  | VStr name => Some [KStr name]
  | VDict m => plain_mapping m
  | VList l => plain_sequence l
  | _ => None
  end.

(** A result that the loop of lines 237-243 can take in: [ret_code] is an
    integer, [output] and [shared] are dictionaries, [skipped] is there. *)
Definition complete (x : pydict) : Prop :=
  (exists rc, Dict.get (KStr "ret_code") x = Some (VInt rc)) /\
  (exists o, Dict.get (KStr "output") x = Some (VDict o)) /\
  (exists sh, Dict.get (KStr "shared") x = Some (VDict sh)) /\
  (exists sk, Dict.get (KStr "skipped") x = Some sk).

(** ** A concrete set of collaborators, for running the executor *)

Fixpoint run_all (calls : list (string * M pydict)) : M (list pydict) :=
  match calls with
  | [] => ret []
  | (_, call) :: calls' =>
      res <- call ;;
      results <- run_all calls' ;;
      ret (res :: results)
  end.

(** Statements: [x = 1/0] divides by zero, [stop_if(True, 'halt now')] stops
    the task, [sh: false] is a command that fails, [touch out.txt] makes a
    file in the working directory, [interrupt] stands for a user interrupt;
    anything else does nothing. *)
Definition demo_exec (code : string) (w : Host * pydict)
  : outcome unit * (Host * pydict) :=
  if decide (code = "x = 1/0") then (Raise (ZeroDivisionError "division by zero"), w)
  else if decide (code = "stop_if(True, 'halt now')")
  then (Raise (StopInputGroup "halt now"), w)
  else if decide (code = "sh: false") then (Raise (CalledProcessError 1 "false"), w)
  else if decide (code = "interrupt") then (Raise KeyboardInterrupt, w)
  else if decide (code = "touch out.txt")
  then (Return tt, (set_files (<[ abspath w.1 "out.txt" := "" ]> (files w.1)) w.1, w.2))
  else (Return tt, w).

(** Expressions: a name evaluates to what [env.sos_dict] binds it to. *)
Definition demo_eval (expr : string) (h : Host) (d : pydict) : outcome pyval :=
  match Dict.get (KStr expr) d with
  | Some v => Return v
  | None => Raise (PyError "NameError" expr)
  end.

Definition demo_str (v : pyval) : string :=
  match v with
  | VStr s => s
  | VNone => "None"
  | VBool true => "True"
  | VBool false => "False"
  | VInt 0 => "0"
  | VInt 1 => "1"
  | _ => "..."
  end.

Definition demo : Collaborators := {|
  SoS_exec := demo_exec;
  SoS_eval := demo_eval;
  py_str := demo_str;
  short_repr := fun s => s;
  generate_tokens := fun code => Return [code];
  textMD5 := fun text => text;
  interpolate := fun text _ => text;
  unpickle := fun _ => None;
  _expand_file_list := fun _ _ => [];
  target_signature := fun h p => match files h !! abspath h p with
                                 | Some text => VStr text
                                 | None => VNone
                                 end;
  fingerprint := fun md5 _ _ _ _ _ => md5;
  sig_mismatch := fun _ _ _ _ => None;
  sig_content := fun _ d sig =>
    Some [ (KStr "input", input_files sig); (KStr "output", output_files sig);
           (KStr "depends", dependent_files sig); (KStr "vars", VDict []) ];
  Pool := run_all;
|}.

Definition demo_host : Host :=
  mkHost "/home/user" "/home/user" {[ "/home/user"; "/work" ]}
    {[ "/home/user/.sos/tasks/t1.task" := ""; "/home/user/in.txt" := "data" ]}
    ∅ {[ "PATH" := "/usr/bin" ]} 0.

Definition demo_state : State :=
  mkState demo_host [] None None None ∅ ∅ [].

Definition demo_opts : Options := mkOptions None "run" (Some "default").

(** The variables of a task: its input, its signature variables and its
    runtime options; no output and no dependency. *)
Definition demo_vars (input sigvars : pyval) (runtime : pydict) : pydict :=
  [ (KStr "_input", input); (KStr "_output", VTargets []);
    (KStr "_depends", VTargets []); (KStr "_index", VInt 0);
    (KStr "step_name", VStr "step"); (KStr "__signature_vars__", sigvars);
    (KStr "_runtime", VDict runtime) ].

Definition demo_dict (runtime : pydict) : pydict :=
  demo_vars (VTargets []) (VList []) runtime.

(** The fingerprint that [demo] gives to a task. *)
Definition demo_fingerprint (task : string) : string := "#task" +:+ nl +:+ task.

(** A store with a record of the task [pass]. *)
Definition recorded_state : State :=
  mkState demo_host [] None None None ∅
    {[ demo_fingerprint "pass" :=
         [ (KStr "input", VList []); (KStr "output", VList []);
           (KStr "depends", VList []); (KStr "vars", VDict []) ] ]} [].

(** The state of a process whose [env.sos_dict] holds [vars]. *)
Definition state_with (mode : option string) (vars : pydict) : State :=
  mkState demo_host vars None mode None ∅ ∅ [].

(** The result of a sub-task that ran to its end. *)
Definition demo_done (tid : string) (skip : bool) : pydict :=
  [ (KStr "ret_code", VInt 0); (KStr "task", VStr tid);
    (KStr "input", VDict []); (KStr "output", VDict []);
    (KStr "depends", VDict []); (KStr "shared", VDict [(KInt 0, VDict [])]);
    (KStr "skipped", VBool skip); (KStr "start_time", VStr "");
    (KStr "peak_cpu", VInt 0); (KStr "peak_mem", VInt 0);
    (KStr "end_time", VTime 0) ].

(** ** Further notions used in the proofs *)

(** A call to the signature store. *)
Definition is_sig_event (ev : event) : bool :=
  match ev with
  | EvSigLock _ | EvSigValidate _ | EvSigWrite _ _ | EvSigRelease _ => true
  | _ => false
  end.

Definition no_sig_event (ev : event) : Prop := is_sig_event ev = false.

Definition same_locked : relation State := fun s s' => locked s' = locked s.

(** The modes that lines 321-370 know. *)
Definition known_modes : list string :=
  ["ignore"; "default"; "assert"; "build"; "force"].

(** The mode in force after lines 293-297, from the arguments of the
    invocation and what [env.config] had. *)
Definition effective_mode (opts : Options) (configured : option string)
  : option string :=
  if decide (runmode opts = "dryrun") then Some "ignore"
  else match sigmode opts with
       | Some m => Some m
       | None => configured
       end.

(** The state once the lock of [sig] is taken (line 330). *)
Definition locked_state (sig : RuntimeInfo) (s : State) : State :=
  set_locked ({[ sig_id sig ]} ∪ locked s)
    (set_trace (trace s ++ [EvSigLock (sig_id sig)]) s).

(** The body of a task is executed. *)
Definition is_body_event (ev : event) : bool :=
  match ev with
  | EvExecTask _ => true
  | _ => false
  end.

(** [r] is the result that lines 480-508 make of the exception [e]: the
    return code and the payload (those of the command for a
    [CalledProcessError], 1 and [e] itself otherwise), the task, no shared
    variable, and none of the keys [skipped], [input], [output] and
    [depends]. *)
Definition is_failure_of (task_id : string) (e : exn) (r : pydict) : Prop :=
  has_exception r = true /\
  Dict.get (KStr "task") r = Some (VStr task_id) /\
  Dict.get (KStr "shared") r = Some (VDict []) /\
  Dict.get (KStr "skipped") r = None /\
  Dict.get (KStr "input") r = None /\
  Dict.get (KStr "output") r = None /\
  Dict.get (KStr "depends") r = None /\
  match e with
  | CalledProcessError returncode stderr =>
      Dict.get (KStr "ret_code") r = Some (VInt returncode) /\
      Dict.get (KStr "exception") r = Some (VExc (RuntimeError stderr))
  | _ =>
      Dict.get (KStr "ret_code") r = Some (VInt 1) /\
      Dict.get (KStr "exception") r = Some (VExc e)
  end.

Section FurtherNotions.
Context `{Collaborators}.

(** What [sig.validate()] answers in the state [s]: the stored record, or
    the reason why there is no match. *)
Definition stored_answer (sig : RuntimeInfo) (s : State) : pyval :=
  match store s !! sig_id sig with
  | None => VStr "Missing signature"
  | Some rec =>
      match sig_mismatch (host s) (env_sos_dict s) sig rec with
      | Some why => VStr why
      | None => VDict rec
      end
  end.

End FurtherNotions.

(** The fingerprint of a task with no input, output and dependency. *)
Definition demo_sig (task : string) : RuntimeInfo :=
  mkRuntimeInfo (demo_fingerprint task) task (VTargets []) (VTargets [])
    (VTargets []) (VList []).

(** ** Results *)

(** [x.get("task", "")] when it is a string. *)
Definition task_name (x : pydict) : string :=
  match Dict.get_default (KStr "task") (VStr "") x with
  | VStr t => t
  | _ => ""
  end.

(** The sub-tasks that lines 213 and 228 name: those whose result carries
    an exception. *)
Definition failed_names (results : list pydict) : list string :=
  map task_name (filter (fun x => has_exception x = true) results).

(** [shared] has the values of [d] under the names it has. *)
Definition agrees (shared d : pydict) : Prop :=
  forall k v, Dict.get k shared = Some v -> Dict.get k d = Some v.

(** The names that the items of a list given as [shared] declare. *)
Fixpoint declared_in_sequence (l : list pyval) : list pykey :=
  match l with
  | [] => []
  | VStr name :: l' => KStr name :: declared_in_sequence l'
  | VDict m :: l' => map fst m ++ declared_in_sequence l'
  | _ :: l' => declared_in_sequence l'
  end.

(** The names that the option [shared] declares. *)
Definition declared_names (svars : pyval) : list pykey :=
  match svars with
  | VStr name => [KStr name]
  | VDict m => map fst m
  | VList l | VTargets l => declared_in_sequence l
  | _ => []
  end.

Definition same_context : relation State :=
  fun s s' => env_sos_dict s' = env_sos_dict s.

(** * Further functions of the two modules *)

(** ** More calls of the operating system *)

(** [Path.unlink] and [os.remove]: a regular file is removed, a directory
    is not (rights on files are not modelled). *)
Definition os_unlink (p : string) : M unit :=
  h <- gets host ;;
  if isfile h p
  then modify (fun s => set_host (set_files (delete (abspath h p) (files h)) h) s)
  else if isdir h p then raise (PyError "IsADirectoryError" p)
  else raise (FileNotFoundError p).

(** [open(p).read()]. *)
Definition read_file (p : string) : M string :=
  h <- gets host ;;
  match files h !! abspath h p with
  | Some text => ret text
  | None =>
      if isdir h p then raise (PyError "IsADirectoryError" p)
      else raise (FileNotFoundError p)
  end.

(** [open(p, 'wb')] followed by the writing of [text]. *)
Definition write_file (p text : string) : M unit :=
  h <- gets host ;;
  if isdir h p then raise (PyError "IsADirectoryError" p)
  else modify (fun s => set_host (set_files (<[ abspath h p := text ]> (files h)) h) s).

(** [open(p, 'a')] followed by the writing of [text]. *)
Definition append_file (p text : string) : M unit :=
  h <- gets host ;;
  if isdir h p then raise (PyError "IsADirectoryError" p)
  else modify (fun s =>
         set_host (set_files (<[ abspath h p :=
                                   default "" (files h !! abspath h p) +:+ text ]>
                                (files h)) h) s).

(** A loop that carries a value. *)
Fixpoint fold_m {A B} (f : A -> B -> M A) (l : list B) (a : A) : M A :=
  match l with
  | [] => ret a
  | x :: l' => a' <- f a x ;; fold_m f l' a'
  end.

(** What [target_exists] answers in the state [s]. *)
Definition exists_now (s : State) (t : target) : bool :=
  match t with
  | file_target p => path_exists (host s) p
  | sos_variable n => Dict.mem (KStr n) (env_sos_dict s)
  | sos_step _ | remote _ => true
  end.

(** [RemovedTarget(target)] of [sos/targets.py]. *)
Definition RemovedTarget (t : target) : exn :=
  PyError "RemovedTarget" (target_name t).

(** [isinstance(target, (sos_variable, sos_step))]. *)
Definition is_internal (t : target) : bool :=
  match t with
  | sos_variable _ | sos_step _ => true
  | _ => false
  end.

(** The files that [execute_task] folds into the result, with the key of
    each (lines 111-113). *)
Definition side_files : list (string * string) :=
  [ (".out", "stdout"); (".err", "stderr"); (".pulse", "pulse");
    (".job_id", "job_id"); (".sh", "job") ].

(** [rc != 0] for a return code. *)
Definition nonzero (rc : pyval) : bool :=
  match rc with
  | VInt 0 | VBool false => false
  | _ => true
  end.

Section Utilities.
Context `{Collaborators}.

(** ** [verify_input] ([sos/executor_utils.py], lines 205-212) *)

(** Lines 210-212: one target. *)
Definition verify_target (ignore_internal_targets : bool) (v : pyval) : M unit :=
  match v with
  | VTarget t =>
      ok <- target_exists t ;;
      if negb ok && negb (ignore_internal_targets && is_internal t)
      then raise (RemovedTarget t)
      else ret tt
  | _ => raise (AttributeError "target_exists")
  end.

Definition verify_input (ignore_internal_targets : bool) : M unit :=
  for_each ["_input"; "_depends"] (fun key =>
    targets <- env_get key ;;
    l <- lift_outcome (iterate targets) ;;
    for_each l (verify_target ignore_internal_targets)).

(** ** [clear_output] ([sos/executor_utils.py], lines 42-52) *)

(** Lines 47-52: one target; [exists] of a file target is that of its path. *)
Definition clear_target (v : pyval) : M unit :=
  match v with
  | VTarget (file_target p) =>
      h <- gets host ;;
      if path_exists h p then
        try_except
          (os_unlink p ;;
           step_name <- env_get "step_name" ;;
           log WARNING ("Removing " +:+ p +:+ " generated by failed step " +:+
                        py_str step_name +:+ "."))
          (fun e => if is_Exception e
                    then Some (log WARNING ("Failed to remove " +:+ p +:+ ": " +:+
                                            py_str (VExc e)))
                    else None)
      else ret tt
  | _ => ret tt
  end.

Definition clear_output : M unit :=
  targets <- env_get "_output" ;;
  l <- lift_outcome (iterate targets) ;;
  for_each l clear_target.

(** ** [prepare_env] ([sos/executor_utils.py], lines 54-73) *)

(** The statements of lines 65-70 that come before [global_def]. *)
Definition step_prelude : string :=
  "import os, sys" +:+ nl +:+ "from sos.runtime import *" +:+ nl +:+
  "CONFIG = {}" +:+ nl +:+ "del sos_handle_parameter_" +:+ nl.

(** [version] is [__version__].  The handler of lines 71-73 makes its
    message with [short_repr], a name that the module neither imports nor
    defines: the evaluation of the message raises [NameError]. *)
Definition prepare_env (version global_def : string) : M unit :=
  env_set "__null_func__" (VFunc "__null_func__") ;;
  env_set "SOS_VERSION" (VStr version) ;;
  try_except (run_code (step_prelude +:+ global_def))
    (fun e => if is_Exception e
              then Some (raise (PyError "NameError" "name 'short_repr' is not defined"))
              else None).

(** ** [execute_task] ([sos/task_executor.py], lines 101-137) *)

(** Lines 114-129: one of the files beside the task file.  The rights that
    line 125 gives on the file are not modelled. *)
Definition fold_side_file (task_id : string) (res : pydict) (ek : string * string)
  : M pydict :=
  h <- gets host ;;
  let filename := task_path h task_id ek.1 in
  let failed e := log WARNING ("Failed to load " +:+ filename +:+ ": " +:+
                               py_str (VExc e)) in
  if negb (isfile h filename) then ret res
  else
    loaded <- attempt (if decide (ek.1 = ".job_id") then ret res
                       else content <- read_file filename ;;
                            ret (Dict.set (KStr ek.2) (VStr content) res)) ;;
    match loaded with
    | Raise e => if is_Exception e then failed e ;; ret res else raise e
    | Return res' =>
        removed <- attempt (os_unlink filename) ;;
        match removed with
        | Raise e => if is_Exception e then failed e ;; ret res' else raise e
        | Return _ => ret res'
        end
    end.

(** [dump] is [pickle.dump], as the text written to the file. *)
Definition execute_task (dump : pydict -> string) (opts : Options)
    (task_id : string) : M pyval :=
  res <- _execute_task opts (inl task_id) ;;
  h <- gets host ;;
  let res_file := task_path h task_id ".res" in
  res <- fold_m (fold_side_file task_id) side_files res ;;
  write_file res_file (dump res) ;;
  rc <- getitem "ret_code" res ;;
  (if nonzero rc && has_exception res
   then h <- gets host ;;
        append_file (task_path h task_id ".err")
          ("Task " +:+ task_id +:+ " exits with code " +:+ py_str rc)
   else ret tt) ;;
  getitem "ret_code" res.

(** What [execute_task] adds to the result [res] on the host [h]: the text
    of each file beside the task file that is there, but for [.job_id]. *)
Definition with_side_files (h : Host) (task_id : string) (res : pydict) : pydict :=
  fold_left (fun r ek =>
               match files h !! task_path h task_id ek.1 with
               | Some content =>
                   if decide (ek.1 = ".job_id") then r
                   else Dict.set (KStr ek.2) (VStr content) r
               | None => r
               end) side_files res.

End Utilities.

(** ** Notions for the further functions *)

(** A target that [verify_input] lets pass in the state [s]. *)
Definition acceptable (ignore_internal_targets : bool) (s : State) (v : pyval)
  : bool :=
  match v with
  | VTarget t => exists_now s t || (ignore_internal_targets && is_internal t)
  | _ => false
  end.

Definition is_existence_check (ev : event) : Prop :=
  exists name, ev = EvTargetExists name.

(** The names on the host [h] of the file targets among [l]. *)
Definition output_paths (h : Host) (l : list pyval) : list string :=
  omap (fun v => match v with
                 | VTarget (file_target p) => Some (abspath h p)
                 | _ => None
                 end) l.

(** The files of the host [h] but for those beside the task file. *)
Definition without_side_files (h : Host) (task_id : string) : gmap string string :=
  fold_left (fun fs ek => delete (task_path h task_id ek.1) fs) side_files (files h).

(** From [s] to [s'] the files named [paths] are removed, if they were
    there, and nothing else of the host, of [env.sos_dict] and of the store
    has changed. *)
Definition cleared (paths : list string) (s s' : State) : Prop :=
  env_sos_dict s' = env_sos_dict s /\ store s' = store s /\
  dirs (host s') = dirs (host s) /\ cwd (host s') = cwd (host s) /\
  forall q, files (host s') !! q =
            if bool_decide (q ∈ paths) then None else files (host s) !! q.

(** ** Notions used in the proofs *)

(** A relation between the state before and after holds along a
    computation, whatever its result. *)
Definition keeps (R : relation State) {A} (m : M A) : Prop :=
  forall s, R s (m s).2.

(** The relations kept: the records of the store, the host, and a trace that
    grows by calls of some kind only. *)
Definition same_store : relation State := fun s s' => store s' = store s.
Definition same_host : relation State := fun s s' => host s' = host s.
Definition same_sig_mode : relation State := fun s s' => sig_mode s' = sig_mode s.
Definition emitting (P : event -> Prop) : relation State :=
  fun s s' => exists evs, trace s' = trace s ++ evs /\ Forall P evs.

(** A call that is no part of the order, and one of the phase [n] at most. *)
Definition quiet (ev : event) : Prop := code_rank ev = None.
Definition in_phase (n : nat) (ev : event) : Prop :=
  code_rank ev = None \/ code_rank ev = Some n.

(** The ranked calls among [evs] go up from [lo] and stay below [hi]. *)
Definition ranked (lo hi : nat) (evs : list event) : Prop :=
  ascending lo (omap code_rank evs) = true /\
  Forall (fun n => n <= hi) (omap code_rank evs).

Definition runs (lo hi : nat) {A} (m : M A) : Prop :=
  forall s, exists evs, trace (m s).2 = trace s ++ evs /\ ranked lo hi evs.

(** What holds after a computation that returns. *)
Definition ensures {A} (P : State -> Prop) (m : M A) (Q : State -> Prop) : Prop :=
  forall s a s', P s -> m s = (Return a, s') -> Q s'.

(** [name not in d]. *)
Definition absent (d : pydict) (name : pykey) : bool := negb (Dict.mem name d).
Arguments absent : simpl never.

(** * Properties *)

(** ** Dictionaries *)

Lemma last_zip {A B} (l : list A) (k : list B) (x : B) :
  length l = length k -> last k = Some x ->
  exists a, last (zip l k) = Some (a, x).
Proof.
  revert k. induction l as [|a l IH]; intros [|b k] Hlen Hlast; simplify_eq/=.
  destruct k as [|b' k].
  - destruct l; simplify_eq/=. eauto.
  - destruct l as [|a' l]; simplify_eq/=.
    apply (IH (b' :: k)); simpl; [congruence | done].
Qed.

Lemma get_all_res_skipped (a : all_res) :
  Dict.get (KStr "skipped") (all_res_dict a) = Some (skipped a).
Proof. reflexivity. Qed.

(** ** The aggregation of a master task (lines 235-244) *)

Lemma aggregate_one_skipped a tid x a' :
  aggregate_one a tid x = Return a' ->
  Dict.get (KStr "skipped") x = Some (skipped a').
Proof.
  unfold aggregate_one, subscript. intros Hag.
  repeat (case_match; simplify_eq/=); done.
Qed.

Lemma aggregate_last a pairs a' tid x :
  aggregate a pairs = Return a' -> last pairs = Some (tid, x) ->
  Dict.get (KStr "skipped") x = Some (skipped a').
Proof.
  revert a. induction pairs as [|[tid0 x0] pairs IH]; intros a Hag Hlast; [done|].
  simpl in Hag. destruct (aggregate_one a tid0 x0) as [a0|] eqn:Hone; [|done].
  destruct pairs as [|p pairs].
  - simplify_eq/=. eauto using aggregate_one_skipped.
  - apply (IH a0); [done|]. by destruct pairs.
Qed.

Lemma report_failure_none task_id results s :
  find has_exception results = None ->
  report_failure task_id results s = (Return None, s).
Proof. intros Hfind. unfold report_failure. by rewrite Hfind. Qed.

(** C7. For a master task whose sub-task results carry no exception, the
    result built from them has the skip flag of the last sub-task in stack
    order, whatever the flags of the sub-tasks before it. *)
Theorem master_skip_flag_is_last_subtask task_id ids results s r s' x :
  length ids = length results ->
  find has_exception results = None ->
  last results = Some x ->
  master_result task_id ids results s = (Return r, s') ->
  exists flag, Dict.get (KStr "skipped") x = Some flag /\
               Dict.get (KStr "skipped") r = Some flag.
Proof.
  intros Hlen Hnone Hlast Hres.
  unfold master_result, bind in Hres.
  rewrite report_failure_none in Hres by done.
  unfold lift_outcome, ret in Hres.
  destruct (aggregate all_res_init (zip ids results)) as [a|] eqn:Hag;
    simplify_eq/=.
  destruct (last_zip ids results x Hlen Hlast) as [tid Hz].
  exists (skipped a). split; [|apply get_all_res_skipped].
  eauto using aggregate_last.
Qed.

Lemma aggregate_one_complete a tid x z :
  ret_code a = VInt z -> complete x ->
  exists a' z', aggregate_one a tid x = Return a' /\ ret_code a' = VInt z'.
Proof.
  intros Hrc ([rc Hx1] & [o Hx2] & [sh Hx3] & [sk Hx4]).
  unfold aggregate_one, subscript. rewrite Hx1, Hx2, Hx3, Hx4, Hrc. simpl.
  eauto.
Qed.

Lemma aggregate_one_stopped a tid tid' z :
  ret_code a = VInt z ->
  aggregate_one a tid (stop_result tid') = Raise (KeyError "skipped").
Proof. intros Hrc. unfold aggregate_one. simpl. by rewrite Hrc. Qed.

Lemma aggregate_stopped a z ids results :
  ret_code a = VInt z -> length ids = length results ->
  Forall (fun x => complete x \/ exists tid, x = stop_result tid) results ->
  Exists (fun x => exists tid, x = stop_result tid) results ->
  aggregate a (zip ids results) = Raise (KeyError "skipped").
Proof.
  intros Hrc Hlen Hall Hex. revert a z ids Hrc Hlen Hall.
  induction Hex as [x results [tid' ->]|x results Hex IH];
    intros a z [|tid ids] Hrc Hlen Hall; simplify_eq/=.
  - by erewrite aggregate_one_stopped.
  - inversion_clear Hall as [|?? [Hc|[tid' ->]] Hall'].
    + destruct (aggregate_one_complete a tid x z Hrc Hc) as (a' & z' & -> & Hrc').
      eapply IH; eauto.
    + by erewrite aggregate_one_stopped.
Qed.

(** C10. In a master task whose sub-task results carry no exception, each
    being complete or the result of a stopped sub-task, a stopped sub-task
    makes the aggregation fail: the loop reads ['skipped'] from every result
    and the result of a stop has no such key (and has empty lists, not
    digest maps, under ['input'], ['output'] and ['depends']). *)
Theorem stopped_subtask_breaks_aggregation task_id ids results s :
  length ids = length results ->
  Forall (fun x => has_exception x = false) results ->
  Forall (fun x => complete x \/ exists tid, x = stop_result tid) results ->
  Exists (fun x => exists tid, x = stop_result tid) results ->
  master_result task_id ids results s = (Raise (KeyError "skipped"), s) /\
  forall tid,
    Dict.get (KStr "skipped") (stop_result tid) = None /\
    Dict.get (KStr "input") (stop_result tid) = Some (VList []) /\
    Dict.get (KStr "output") (stop_result tid) = Some (VList []) /\
    Dict.get (KStr "depends") (stop_result tid) = Some (VList []).
Proof.
  intros Hlen Hnone Hall Hex. split; [|done].
  unfold master_result, bind.
  rewrite report_failure_none.
  - unfold lift_outcome.
    by erewrite (aggregate_stopped all_res_init 0).
  - clear -Hnone. induction Hnone as [|x l Hx _ IH]; [done|].
    simpl. by rewrite Hx.
Qed.

(** ** The monad *)

Lemma bind_Return {A B} (m : M A) (k : A -> M B) s a s' :
  m s = (Return a, s') -> bind m k s = k a s'.
Proof. unfold bind. by intros ->. Qed.

Lemma bind_Raise {A B} (m : M A) (k : A -> M B) s e s' :
  m s = (Raise e, s') -> bind m k s = (Raise e, s').
Proof. unfold bind. by intros ->. Qed.

Lemma bind_Return_inv {A B} (m : M A) (k : A -> M B) s b s' :
  bind m k s = (Return b, s') ->
  exists a s1, m s = (Return a, s1) /\ k a s1 = (Return b, s').
Proof. unfold bind. destruct (m s) as [[a|e] s1]; [eauto|done]. Qed.

Lemma try_except_bind_Return {A B} (m : M A) (k : A -> M B) h s a s' :
  m s = (Return a, s') ->
  try_except (bind m k) h s = try_except (k a) h s'.
Proof. unfold try_except, bind. by intros ->. Qed.

Lemma try_finally_eq {A} (m m' : M A) fin s s' :
  m s = m' s' -> try_finally m fin s = try_finally m' fin s'.
Proof. unfold try_finally. by intros ->. Qed.

Section Keeps.
Context (R : relation State) `{!PreOrder R}.

Lemma keeps_ret {A} (a : A) : keeps R (ret a).
Proof. intros s. reflexivity. Qed.

Lemma keeps_raise {A} e : keeps R (@raise A e).
Proof. intros s. reflexivity. Qed.

Lemma keeps_gets {A} (f : State -> A) : keeps R (gets f).
Proof. intros s. reflexivity. Qed.

Lemma keeps_lift_outcome {A} (o : outcome A) : keeps R (lift_outcome o).
Proof. intros s. reflexivity. Qed.

Lemma keeps_modify f : (forall s, R s (f s)) -> keeps R (modify f).
Proof. intros Hf s. apply Hf. Qed.

Lemma keeps_bind {A B} (m : M A) (k : A -> M B) :
  keeps R m -> (forall a, keeps R (k a)) -> keeps R (bind m k).
Proof.
  intros Hm Hk s. unfold bind. specialize (Hm s).
  destruct (m s) as [[a|e] s1]; simpl in *; [|done].
  etrans; [done|]. apply Hk.
Qed.

Lemma keeps_try_except {A} (m : M A) h :
  keeps R m -> (forall e k, h e = Some k -> keeps R k) -> keeps R (try_except m h).
Proof.
  intros Hm Hh s. unfold try_except. specialize (Hm s).
  destruct (m s) as [[a|e] s1]; simpl in *; [done|].
  destruct (h e) as [k|] eqn:Hk; [|done].
  etrans; [done|]. by eapply Hh.
Qed.

Lemma keeps_try_finally {A} (m : M A) fin :
  keeps R m -> keeps R fin -> keeps R (try_finally m fin).
Proof.
  intros Hm Hfin s. unfold try_finally. specialize (Hm s).
  destruct (m s) as [r s1]. specialize (Hfin s1).
  destruct (fin s1) as [[[]|e] s2]; simpl in *; by etrans.
Qed.

Lemma keeps_attempt {A} (m : M A) : keeps R m -> keeps R (attempt m).
Proof. intros Hm s. unfold attempt. specialize (Hm s). by destruct (m s). Qed.

Lemma keeps_for_each {A} (l : list A) f :
  (forall x, keeps R (f x)) -> keeps R (for_each l f).
Proof.
  intros Hf. induction l as [|x l IH]; simpl.
  - apply keeps_ret.
  - by apply keeps_bind.
Qed.

End Keeps.


#[local] Instance same_store_preorder : PreOrder same_store.
Proof. split; [done|]. unfold same_store. intros s1 s2 s3 H1 H2. congruence. Qed.

#[local] Instance same_host_preorder : PreOrder same_host.
Proof. split; [done|]. unfold same_host. intros s1 s2 s3 H1 H2. congruence. Qed.

#[local] Instance same_sig_mode_preorder : PreOrder same_sig_mode.
Proof. split; [done|]. unfold same_sig_mode. intros s1 s2 s3 H1 H2. congruence. Qed.

#[local] Instance emitting_preorder P : PreOrder (emitting P).
Proof.
  split.
  - intros s. exists []. by rewrite app_nil_r.
  - intros s1 s2 s3 (evs1 & H1 & HP1) (evs2 & H2 & HP2).
    exists (evs1 ++ evs2). rewrite H2, H1, <- app_assoc. split; [done|].
    by apply Forall_app.
Qed.

Lemma emitting_nothing P s s' : trace s' = trace s -> emitting P s s'.
Proof. intros Heq. exists []. by rewrite app_nil_r. Qed.

Lemma emitting_one P ev s s' :
  P ev -> trace s' = trace s ++ [ev] -> emitting P s s'.
Proof. intros HP Heq. exists [ev]. split; [done|]. by constructor. Qed.

Lemma emitting_weaken (P Q : event -> Prop) s s' :
  (forall ev, P ev -> Q ev) -> emitting P s s' -> emitting Q s s'.
Proof.
  intros HPQ (evs & Heq & HP). exists evs. split; [done|].
  eapply Forall_impl; eauto.
Qed.

Create HintDb exec discriminated.

#[local] Hint Unfold
  log emit env_get env_set env_update getitem os_path_isdir os_makedirs
  os_chdir os_getcwd os_utime truncate_file time_time setenv
  target_exists remove_sig
  sig_lock sig_release sig_validate sig_write
  env_contains export_name eval_expr collect_shared digests_of
  collect_output collect_files collect_task_result
  in_runtime go_to_cur_dir check_target verify_targets make_output_dirs
  go_to_workdir stage_variable prepend_path stage_environ
  open_signature adopt config_sig_mode caching_decision
  resolve_remote_targets finalize stage run_body stage_and_run
  set_modes prepare touch_task_file finish protected : exec.


(** The closing steps for the state after [modify]. *)
Ltac keeps_base :=
  intros;
  first [ reflexivity
        | apply emitting_nothing; reflexivity
        | eapply emitting_one; [|reflexivity];
          first [ reflexivity | by left | by right ] ].

Ltac keeps_clause :=
  match goal with
  | Hh : _ = Some ?k |- keeps _ ?k =>
      cbv beta delta [except_clauses] in Hh;
      repeat case_match; simplify_eq
  end.

Ltac keeps_step :=
  match goal with
  | |- PreOrder _ => tc_solve
  | |- keeps _ (bind _ _) => apply keeps_bind; [tc_solve| |intros ?]
  | |- keeps _ (ret _) => apply keeps_ret; tc_solve
  | |- keeps _ (raise _) => apply keeps_raise; tc_solve
  | |- keeps _ (gets _) => apply keeps_gets; tc_solve
  | |- keeps _ (lift_outcome _) => apply keeps_lift_outcome; tc_solve
  | |- keeps _ (modify _) => apply keeps_modify; keeps_base
  | |- keeps _ (try_except _ _) =>
      apply keeps_try_except; [tc_solve| |intros ???; keeps_clause]
  | |- keeps _ (try_finally _ _) => apply keeps_try_finally; [tc_solve| |]
  | |- keeps _ (attempt _) => apply keeps_attempt
  | |- keeps _ (for_each _ _) => apply keeps_for_each; [tc_solve|intros ?]
  | |- keeps _ (match ?x with _ => _ end) => destruct x
  | |- keeps _ _ => by auto with exec
  | |- keeps _ _ => progress autounfold with exec
  end.

Ltac keeps_auto := repeat keeps_step.

Section KeepsExec.
Context `{Collaborators}.

Lemma run_code_same_store code : keeps same_store (run_code code).
Proof.
  intros s. unfold run_code.
  by destruct (SoS_exec code (host s, env_sos_dict s)) as [r [h' d']].
Qed.

Lemma run_code_same_sig_mode code : keeps same_sig_mode (run_code code).
Proof.
  intros s. unfold run_code.
  by destruct (SoS_exec code (host s, env_sos_dict s)) as [r [h' d']].
Qed.

Lemma run_code_emitting P code : keeps (emitting P) (run_code code).
Proof.
  intros s. unfold run_code.
  destruct (SoS_exec code (host s, env_sos_dict s)) as [r [h' d']].
  by apply emitting_nothing.
Qed.

#[local] Hint Resolve run_code_same_store run_code_same_sig_mode
  run_code_emitting : exec.

(** *** The store changes by [sig.write] only *)

Lemma prepare_same_store opts subtask task_id global_def sos_dict :
  keeps same_store (prepare opts subtask task_id global_def sos_dict).
Proof. keeps_auto. Qed.

Lemma touch_same_store subtask task_id sos_dict :
  keeps same_store (touch_task_file subtask task_id sos_dict).
Proof. keeps_auto. Qed.

Lemma go_to_cur_dir_same_store sos_dict :
  keeps same_store (go_to_cur_dir sos_dict).
Proof. keeps_auto. Qed.

Lemma stage_same_store sos_dict : keeps same_store (stage sos_dict).
Proof. keeps_auto. Qed.

Lemma finalize_same_store subtask task_id orig_dir :
  keeps same_store (finalize subtask task_id orig_dir).
Proof. keeps_auto. Qed.

(** *** The mode changes in [prepare] only *)

Lemma resolve_remote_targets_same_sig_mode sos_dict :
  keeps same_sig_mode (resolve_remote_targets sos_dict).
Proof. keeps_auto. Qed.

(** *** The host after the [try] statement *)

Lemma export_mapping_same_host task_id m : forall shared0,
  keeps same_host (export_mapping task_id m shared0).
Proof.
  induction m as [|[var val] m IH]; intros shared0; simpl; keeps_auto.
Qed.

#[local] Hint Resolve export_mapping_same_host : exec.

Lemma export_sequence_same_host task_id svars l : forall shared0,
  keeps same_host (export_sequence task_id svars l shared0).
Proof.
  induction l as [|item l IH]; intros shared0; simpl; [keeps_auto|].
  destruct item; keeps_auto.
Qed.

#[local] Hint Resolve export_sequence_same_host : exec.

Lemma collect_task_result_same_host task_id sos_dict skipped :
  keeps same_host (collect_task_result task_id sos_dict skipped).
Proof. keeps_auto. Qed.

Lemma finish_same_host task_id sos_dict sig :
  keeps same_host (finish task_id sos_dict sig).
Proof. keeps_auto. Qed.

(** *** The calls of each part *)

Lemma prepare_quiet opts subtask task_id global_def sos_dict :
  keeps (emitting quiet) (prepare opts subtask task_id global_def sos_dict).
Proof. keeps_auto. Qed.

Lemma caching_decision_in_phase task :
  keeps (emitting (in_phase 1)) (caching_decision task).
Proof. keeps_auto. Qed.

Lemma export_mapping_quiet task_id m : forall shared0,
  keeps (emitting quiet) (export_mapping task_id m shared0).
Proof.
  induction m as [|[var val] m IH]; intros shared0; simpl; keeps_auto.
Qed.

#[local] Hint Resolve export_mapping_quiet : exec.

Lemma export_sequence_quiet task_id svars l : forall shared0,
  keeps (emitting quiet) (export_sequence task_id svars l shared0).
Proof.
  induction l as [|item l IH]; intros shared0; simpl; [keeps_auto|].
  destruct item; keeps_auto.
Qed.

#[local] Hint Resolve export_sequence_quiet : exec.

Lemma collect_task_result_quiet task_id sos_dict skipped :
  keeps (emitting quiet) (collect_task_result task_id sos_dict skipped).
Proof. keeps_auto. Qed.

Lemma touch_quiet subtask task_id sos_dict :
  keeps (emitting quiet) (touch_task_file subtask task_id sos_dict).
Proof. keeps_auto. Qed.

Lemma go_to_cur_dir_quiet sos_dict : keeps (emitting quiet) (go_to_cur_dir sos_dict).
Proof. keeps_auto. Qed.

Lemma verify_targets_in_phase sos_dict :
  keeps (emitting (in_phase 2)) (verify_targets sos_dict).
Proof. keeps_auto. Qed.

Lemma make_output_dirs_quiet : keeps (emitting quiet) make_output_dirs.
Proof. keeps_auto. Qed.

Lemma go_to_workdir_quiet sos_dict : keeps (emitting quiet) (go_to_workdir sos_dict).
Proof. keeps_auto. Qed.

Lemma stage_environ_quiet sos_dict : keeps (emitting quiet) (stage_environ sos_dict).
Proof. keeps_auto. Qed.

Lemma run_body_in_phase subtask task_id task :
  keeps (emitting (in_phase 3)) (run_body subtask task_id task).
Proof. keeps_auto. Qed.

Lemma except_clauses_quiet task_id e k :
  except_clauses task_id e = Some k -> keeps (emitting quiet) k.
Proof. intros Hk. keeps_clause; keeps_auto. Qed.

Lemma finalize_quiet subtask task_id orig_dir :
  keeps (emitting quiet) (finalize subtask task_id orig_dir).
Proof. keeps_auto. Qed.

Lemma finish_quiet task_id sos_dict sig :
  keeps (emitting quiet) (finish task_id sos_dict sig).
Proof. keeps_auto. Qed.

(** *** The order of the calls of one invocation *)


Lemma ascending_weaken lo lo' l :
  lo' <= lo -> ascending lo l = true -> ascending lo' l = true.
Proof.
  destruct l as [|n l]; simpl; [done|].
  intros Hle [Hn Hl]%andb_prop. apply andb_true_intro. split; [|done].
  apply Nat.leb_le. apply Nat.leb_le in Hn. lia.
Qed.

Lemma ascending_app lo mid l1 l2 :
  lo <= mid -> ascending lo l1 = true -> Forall (fun n => n <= mid) l1 ->
  ascending mid l2 = true -> ascending lo (l1 ++ l2) = true.
Proof.
  revert lo. induction l1 as [|n l1 IH]; intros lo Hle H1 Hb H2; simpl in *.
  - by eapply ascending_weaken.
  - apply andb_prop in H1 as [Hn H1]. inversion_clear Hb as [|?? Hnm Hb'].
    apply andb_true_intro. split; [done|]. by apply IH.
Qed.

Lemma ranked_app lo mid hi evs1 evs2 :
  lo <= mid -> mid <= hi ->
  ranked lo mid evs1 -> ranked mid hi evs2 -> ranked lo hi (evs1 ++ evs2).
Proof.
  intros Hlm Hmh [Ha1 Hb1] [Ha2 Hb2]. unfold ranked. rewrite omap_app. split.
  - by eapply ascending_app.
  - apply Forall_app. split; [|done].
    eapply Forall_impl; [done|]. simpl. lia.
Qed.

Lemma ranked_quiet lo hi evs : Forall quiet evs -> ranked lo hi evs.
Proof.
  intros Hq. assert (omap code_rank evs = []) as Hnil.
  { induction Hq as [|ev evs Hev _ IH]; [done|]. simpl. by rewrite Hev. }
  unfold ranked. by rewrite Hnil.
Qed.

Lemma ranked_in_phase n evs : Forall (in_phase n) evs -> ranked n n evs.
Proof.
  intros Hp. assert (Forall (fun k => k = n) (omap code_rank evs)) as Hall.
  { induction Hp as [|ev evs [Hev|Hev] _ IH]; simpl; [done|by rewrite Hev|].
    rewrite Hev. by constructor. }
  split.
  - clear Hp. induction Hall as [|k l -> _ IH]; [done|].
    simpl. by rewrite Nat.leb_refl.
  - eapply Forall_impl; [done|]. simpl. lia.
Qed.

Lemma runs_quiet lo hi {A} (m : M A) : keeps (emitting quiet) m -> runs lo hi m.
Proof.
  intros Hm s. destruct (Hm s) as (evs & Heq & Hq).
  exists evs. eauto using ranked_quiet.
Qed.

Lemma runs_in_phase n {A} (m : M A) :
  keeps (emitting (in_phase n)) m -> runs n n m.
Proof.
  intros Hm s. destruct (Hm s) as (evs & Heq & Hq).
  exists evs. eauto using ranked_in_phase.
Qed.

Lemma runs_then lo mid hi s s1 s2 :
  lo <= mid -> mid <= hi ->
  (exists evs, trace s1 = trace s ++ evs /\ ranked lo mid evs) ->
  (exists evs, trace s2 = trace s1 ++ evs /\ ranked mid hi evs) ->
  exists evs, trace s2 = trace s ++ evs /\ ranked lo hi evs.
Proof.
  intros Hlm Hmh (evs1 & H1 & Hr1) (evs2 & H2 & Hr2).
  exists (evs1 ++ evs2). rewrite H2, H1, <- app_assoc.
  eauto using ranked_app.
Qed.

Lemma runs_weaken lo hi lo' hi' {A} (m : M A) :
  lo' <= lo -> hi <= hi' -> runs lo hi m -> runs lo' hi' m.
Proof.
  intros Hlo Hhi Hm s. destruct (Hm s) as (evs & Heq & Ha & Hb).
  exists evs. split; [done|]. split.
  - by eapply ascending_weaken.
  - eapply Forall_impl; [done|]. simpl. lia.
Qed.

Lemma runs_bind lo mid hi {A B} (m : M A) (k : A -> M B) :
  lo <= mid -> mid <= hi ->
  runs lo mid m -> (forall a, runs mid hi (k a)) -> runs lo hi (bind m k).
Proof.
  intros Hlm Hmh Hm Hk s. unfold bind. specialize (Hm s).
  destruct (m s) as [[a|e] s1]; simpl in *.
  - eapply runs_then; [done|done|done|]. apply Hk.
  - destruct Hm as (evs & Heq & Ha & Hb). exists evs. split; [done|]. split.
    + done.
    + eapply Forall_impl; [done|]. simpl. lia.
Qed.

Lemma runs_try_except lo mid hi {A} (m : M A) h :
  lo <= mid -> mid <= hi ->
  runs lo mid m -> (forall e k, h e = Some k -> runs mid hi k) ->
  runs lo hi (try_except m h).
Proof.
  intros Hlm Hmh Hm Hh s. unfold try_except.
  assert (runs lo hi m) as Hm' by (eapply runs_weaken; [| |done]; lia).
  specialize (Hm s). specialize (Hm' s).
  destruct (m s) as [[a|e] s1]; simpl in *; [done|].
  destruct (h e) as [k|] eqn:Hk; [|done].
  eapply runs_then; [done|done|done|]. by eapply Hh.
Qed.

Lemma runs_try_finally lo mid hi {A} (m : M A) fin :
  lo <= mid -> mid <= hi ->
  runs lo mid m -> runs mid hi fin -> runs lo hi (try_finally m fin).
Proof.
  intros Hlm Hmh Hm Hfin s. unfold try_finally. specialize (Hm s).
  destruct (m s) as [r s1]. specialize (Hfin s1).
  destruct (fin s1) as [[[]|e] s2]; simpl in *; by eapply runs_then.
Qed.

Lemma keeps_emitting_weaken (P Q : event -> Prop) {A} (m : M A) :
  (forall ev, P ev -> Q ev) -> keeps (emitting P) m -> keeps (emitting Q) m.
Proof. intros HPQ Hm s. eapply emitting_weaken; [done|]. apply Hm. Qed.

Lemma stage_in_phase sos_dict : keeps (emitting (in_phase 2)) (stage sos_dict).
Proof.
  unfold stage. keeps_step; [apply verify_targets_in_phase|].
  apply (keeps_emitting_weaken quiet); [by left|].
  keeps_step; [apply make_output_dirs_quiet|].
  keeps_step; [apply go_to_workdir_quiet|apply stage_environ_quiet].
Qed.

Lemma protected_runs subtask task_id task sos_dict :
  runs 2 3 (protected subtask task_id task sos_dict).
Proof.
  unfold protected. apply (runs_bind 2 2 3); [lia|lia| |intros [[]|e]].
  - apply runs_quiet, keeps_attempt, go_to_cur_dir_quiet.
  - apply (runs_bind 2 2 3); [lia|lia|by apply runs_quiet; keeps_auto|intros orig_dir].
    apply (runs_try_finally 2 3 3); [lia|lia| |].
    + apply (runs_try_except 2 3 3); [lia|lia| |].
      * apply (runs_bind 2 2 3); [lia|lia| |intros _].
        -- apply runs_in_phase, stage_in_phase.
        -- apply (runs_weaken 3 3); [lia|lia|].
           apply runs_in_phase, run_body_in_phase.
      * intros e k Hk. eapply runs_quiet, except_clauses_quiet. done.
    + apply runs_quiet, finalize_quiet.
  - apply runs_quiet. apply keeps_try_finally; [tc_solve| |apply finalize_quiet].
    apply keeps_try_except; [tc_solve|keeps_auto|].
    intros e' k Hk. by eapply except_clauses_quiet.
Qed.

Lemma execute_one_runs opts subtask task_id global_def task sos_dict :
  runs 1 3 (execute_one opts subtask task_id global_def task sos_dict).
Proof.
  unfold execute_one. apply (runs_bind 1 1 3); [lia|lia| |intros sd].
  { apply runs_quiet, prepare_quiet. }
  apply (runs_bind 1 1 3); [lia|lia| |intros [sig skip]].
  { apply runs_in_phase, caching_decision_in_phase. }
  destruct skip; simpl.
  - apply runs_quiet. keeps_step; [keeps_auto|apply collect_task_result_quiet].
  - apply (runs_bind 1 2 3); [lia|lia| |intros sd'].
    { apply runs_quiet, touch_quiet. }
    apply (runs_bind 2 3 3); [lia|lia| |intros [res|]].
    + apply protected_runs.
    + apply runs_quiet. keeps_auto.
    + apply runs_quiet, finish_quiet.
Qed.

(** *** From the [try] statement on *)

Lemma bind_eq {A B} (m m' : M A) (k : A -> M B) s s' :
  m s = m' s' -> bind m k s = bind m' k s'.
Proof. unfold bind. by intros ->. Qed.

Lemma execute_one_from_try opts subtask task_id global_def task sos_dict s
    sd sig orig_dir s1 :
  enter_try opts subtask task_id global_def task sos_dict s =
    (Return (Some (sd, sig, orig_dir)), s1) ->
  execute_one opts subtask task_id global_def task sos_dict s =
    from_try subtask task_id task sd sig orig_dir s1 /\
  orig_dir = cwd (host s1).
Proof.
  unfold enter_try, execute_one. intros Henter.
  apply bind_Return_inv in Henter as (sd0 & sa & Hprep & Henter).
  apply bind_Return_inv in Henter as ([sig0 skip] & sb & Hdec & Henter).
  rewrite (bind_Return _ _ _ _ _ Hprep), (bind_Return _ _ _ _ _ Hdec).
  simpl in *. destruct skip; [done|].
  apply bind_Return_inv in Henter as (sd1 & sc & Htouch & Henter).
  apply bind_Return_inv in Henter as ([] & se & Hcur & Henter).
  unfold os_getcwd, bind, gets, ret in Henter. simplify_eq.
  rewrite (bind_Return _ _ _ _ _ Htouch). split; [|done].
  unfold from_try. apply bind_eq. unfold protected.
  erewrite bind_Return; [|by unfold attempt; rewrite Hcur]. done.
Qed.

Lemma execute_one_from_body opts subtask task_id global_def task sos_dict s
    sd sig orig_dir s2 :
  reach_body opts subtask task_id global_def task sos_dict s =
    (Return (Some (sd, sig, orig_dir)), s2) ->
  execute_one opts subtask task_id global_def task sos_dict s =
    from_body subtask task_id task sd sig orig_dir s2.
Proof.
  unfold reach_body. intros Hbody.
  apply bind_Return_inv in Hbody as ([[[sd' sig'] orig']|] & s1 & Henter & Hbody);
    [|done].
  apply bind_Return_inv in Hbody as ([] & s1' & Hstage & Hbody).
  unfold ret in Hbody. simplify_eq.
  destruct (execute_one_from_try _ _ _ _ _ _ _ _ _ _ _ Henter) as [-> _].
  unfold from_try, from_body. apply bind_eq, try_finally_eq.
  unfold stage_and_run.
  by apply (try_except_bind_Return (stage sd)
              (fun _ => run_body subtask task_id task) _ _ tt).
Qed.

Lemma bind_host {A B} (m : M A) (k : A -> M B) s :
  (forall a, keeps same_host (k a)) -> host (bind m k s).2 = host (m s).2.
Proof.
  intros Hk. unfold bind. destruct (m s) as [[a|e] s1]; simpl; [|done].
  apply Hk.
Qed.

Lemma bind_store {A B} (m : M A) (k : A -> M B) s :
  (forall a, keeps same_store (k a)) -> store (bind m k s).2 = store (m s).2.
Proof.
  intros Hk. unfold bind. destruct (m s) as [[a|e] s1]; simpl; [|done].
  apply Hk.
Qed.

Lemma try_finally_state {A} (m : M A) fin s :
  (try_finally m fin s).2 = (fin (m s).2).2.
Proof.
  unfold try_finally. destruct (m s) as [r s1]. simpl.
  by destruct (fin s1) as [[[]|e] s2].
Qed.

Lemma abspath_absolute h p : String.prefix "/" p = true -> abspath h p = p.
Proof. unfold abspath. by intros ->. Qed.

Lemma prefix_app a b c :
  String.prefix a b = true -> String.prefix a (b +:+ c) = true.
Proof.
  revert b. induction a as [|x a IH]; intros b.
  - intros _. by destruct (b +:+ c).
  - destruct b as [|y b]; simpl; [done|].
    destruct (Ascii.ascii_dec x y); [apply IH|done].
Qed.

(** Lines 509-516 when [orig_dir] is bound to an absolute name: if the
    directory is still there afterwards, it is the working directory. *)
Lemma finalize_goes_back subtask task_id orig_dir s :
  String.prefix "/" orig_dir = true ->
  orig_dir ∈ dirs (host (finalize subtask task_id (Some orig_dir) s).2) ->
  cwd (host (finalize subtask task_id (Some orig_dir) s).2) = orig_dir.
Proof.
  intros Habs. unfold finalize, env_set, os_chdir, os_utime, isdir.
  unfold bind, modify, gets, raise, ret. simpl.
  rewrite (abspath_absolute _ _ Habs).
  destruct (bool_decide (orig_dir ∈ dirs (host s))) eqn:Hdir; simpl.
  - intros _. destruct subtask; simpl; [done|]. by case_match.
  - intros Hin. by apply bool_decide_eq_false in Hdir.
Qed.

(** Lines 509-516 when nothing stands in their way. *)
Lemma finalize_returns subtask task_id orig_dir s :
  isdir (host s) orig_dir = true ->
  (subtask = false ->
   String.prefix "/" (home (host s)) = true /\
   isfile (host s) (task_path (host s) task_id ".task") = true) ->
  exists s', finalize subtask task_id (Some orig_dir) s = (Return tt, s') /\
             trace s' = trace s /\ store s' = store s /\ locked s' = locked s.
Proof.
  intros Hdir Hfile. unfold finalize, env_set, os_chdir, os_utime.
  unfold bind, modify, gets, raise, ret. simpl. rewrite Hdir. simpl.
  destruct subtask; simpl; [eauto|].
  destruct Hfile as [Hhome Hfile]; [done|].
  unfold isfile in *. simpl.
  assert (String.prefix "/" (task_path (host s) task_id ".task") = true) as Habs
    by (unfold task_path; by apply prefix_app).
  rewrite !(abspath_absolute _ _ Habs) in *. simpl. rewrite Hfile. eauto.
Qed.

(** Lines 464-469 when the body raises. *)
Lemma run_body_raises subtask task_id task s e h' d' :
  SoS_exec task (host s, env_sos_dict s) = (Raise e, (h', d')) ->
  run_body subtask task_id task s =
    (Raise e, set_env_sos_dict d'
                (set_host h' (set_trace (trace s ++ [EvExecTask task]) s))).
Proof.
  intros Hexec. unfold run_body, emit, run_code, bind, modify. simpl.
  by rewrite Hexec.
Qed.

Lemma keeps_eq (R : relation State) {A} (m : M A) s r s' :
  keeps R m -> m s = (r, s') -> R s s'.
Proof. intros Hm Heq. specialize (Hm s). by rewrite Heq in Hm. Qed.


Lemma ensures_bind {A B} P Q' Q (m : M A) (k : A -> M B) :
  ensures P m Q' -> (forall a, ensures Q' (k a) Q) -> ensures P (bind m k) Q.
Proof.
  intros Hm Hk s b s' HP Hbind.
  apply bind_Return_inv in Hbind as (a & s1 & Hms & Hks).
  eapply Hk; [|done]. by eapply Hm.
Qed.

Lemma ensures_any {A} P (m : M A) : ensures P m (fun _ => True).
Proof. done. Qed.

Lemma ensures_sig_mode {A} (m : M A) mode :
  keeps same_sig_mode m ->
  ensures (fun s => sig_mode s = mode) m (fun s => sig_mode s = mode).
Proof.
  intros Hm s a s' Hs Heq. apply (keeps_eq _ _ _ _ _ Hm) in Heq.
  unfold same_sig_mode in Heq. congruence.
Qed.

(** Lines 293-297: the mode given to the invocation is that of [env.config],
    unless this is a dry run. *)
Lemma prepare_sets_mode opts subtask task_id global_def sos_dict mode s sd s1 :
  runmode opts <> "dryrun" -> sigmode opts = Some mode ->
  prepare opts subtask task_id global_def sos_dict s = (Return sd, s1) ->
  sig_mode s1 = Some mode.
Proof.
  intros Hrun Hsig Hprep.
  assert (ensures (fun _ => True)
            (prepare opts subtask task_id global_def sos_dict)
            (fun s => sig_mode s = Some mode)) as Hens; [|by eapply Hens].
  unfold prepare.
  do 10 (eapply ensures_bind; [apply ensures_any|intros ?]).
  eapply (ensures_bind _ (fun s => sig_mode s = Some mode)); [|intros ?].
  - intros s0 [] s0' _. unfold set_modes, bind, modify.
    rewrite decide_False, Hsig by done. simpl. by intros [= <-].
  - apply ensures_sig_mode. keeps_auto.
Qed.

Lemma env_get_inv k s v s' : env_get k s = (Return v, s') -> s' = s.
Proof. unfold env_get, bind, gets, ret, raise. by repeat case_match; intros [= <-]. Qed.

Lemma open_signature_inv task s sig s' :
  open_signature task s = (Return sig, s') ->
  s' = s /\ exists md5 i o d v, sig_id sig = fingerprint md5 task i o d v.
Proof.
  unfold open_signature. intros Hopen.
  apply bind_Return_inv in Hopen as (tokens & s0 & Htok & Hopen).
  unfold lift_outcome in Htok. simplify_eq.
  repeat (apply bind_Return_inv in Hopen as (? & ? & ->%env_get_inv & Hopen)).
  unfold ret in Hopen. simplify_eq. simpl. eauto 10.
Qed.

(** Lines 333-344 when the store has no record of the task: the task is not
    skipped and the store stays as it is. *)
Lemma caching_decision_without_record task s decision s1 :
  sig_mode s = Some "default" ->
  (forall md5 i o d v, store s !! fingerprint md5 task i o d v = None) ->
  caching_decision task s = (Return decision, s1) ->
  decision.2 = false /\ store s1 = store s.
Proof.
  intros Hmode Hnone Hdec. unfold caching_decision in Hdec.
  apply bind_Return_inv in Hdec as (mode & s0 & Hm & Hdec).
  unfold config_sig_mode, bind, gets in Hm. rewrite Hmode in Hm.
  unfold ret in Hm. simplify_eq.
  rewrite decide_False in Hdec by done.
  apply bind_Return_inv in Hdec as (sig & s0' & Hopen & Hdec).
  apply open_signature_inv in Hopen as (-> & md5 & i & o & d & v & Hid).
  apply bind_Return_inv in Hdec as ([] & sl & Hlock & Hdec).
  unfold sig_lock, emit, bind, modify in Hlock. simplify_eq.
  apply bind_Return_inv in Hdec as (idx & si & ->%env_get_inv & Hdec).
  rewrite decide_True in Hdec by done.
  apply bind_Return_inv in Hdec as (matched & sv & Hval & Hdec).
  unfold sig_validate, emit, bind, modify, gets in Hval. simpl in Hval.
  rewrite Hid, Hnone in Hval. unfold ret in *. by simplify_eq.
Qed.

End KeepsExec.

Section Properties.
Context `{Collaborators}.

(** ** Shared variables (lines 26-66) *)


Lemma export_name_absent task_id name shared0 s :
  absent (env_sos_dict s) name = true ->
  export_name task_id (Name name) name shared0 s =
    (Raise (ValueError (unavailable (key_str name) task_id)), s).
Proof.
  unfold absent, export_name, bind, env_contains, gets. intros Habs.
  by rewrite Habs.
Qed.

Lemma export_name_present task_id name shared0 s :
  absent (env_sos_dict s) name = false ->
  exists v, export_name task_id (Name name) name shared0 s =
              (Return (Dict.set name v shared0), s).
Proof.
  unfold absent, export_name, bind, env_contains, gets, Dict.mem. intros Habs.
  destruct (Dict.get name (env_sos_dict s)) as [v|] eqn:Hget; [|done].
  exists v. simpl. by rewrite Hget.
Qed.

Lemma export_mapping_plain task_id m s : forall names shared0,
  plain_mapping m = Some names ->
  match find (absent (env_sos_dict s)) names with
  | Some name =>
      export_mapping task_id m shared0 s =
        (Raise (ValueError (unavailable (key_str name) task_id)), s)
  | None => exists shared1, export_mapping task_id m shared0 s = (Return shared1, s)
  end.
Proof.
  induction m as [|[var val] m IH]; intros names shared0 Hplain.
  - simplify_eq/=. eauto.
  - simpl in Hplain. destruct (key_is var val) eqn:Hkey; [|done].
    destruct (plain_mapping m) as [names'|]; simplify_eq/=.
    rewrite Hkey. simpl. rewrite (bind_Return _ _ s tt s) by done.
    destruct (absent (env_sos_dict s) var) eqn:Habs.
    + apply bind_Raise. by apply export_name_absent.
    + destruct (export_name_present task_id var shared0 s Habs) as [v Hv].
      rewrite (bind_Return _ _ _ _ _ Hv). by apply IH.
Qed.

Lemma find_app_absent d (l k : list pykey) :
  find (absent d) (l ++ k) =
  match find (absent d) l with
  | Some name => Some name
  | None => find (absent d) k
  end.
Proof. induction l as [|x l IH]; simpl; [done|]. by destruct (absent d x). Qed.

Lemma export_sequence_plain task_id svars l s : forall names shared0,
  plain_sequence l = Some names ->
  match find (absent (env_sos_dict s)) names with
  | Some name =>
      export_sequence task_id svars l shared0 s =
        (Raise (ValueError (unavailable (key_str name) task_id)), s)
  | None =>
      exists shared1, export_sequence task_id svars l shared0 s = (Return shared1, s)
  end.
Proof.
  induction l as [|item l IH]; intros names shared0 Hplain.
  - simplify_eq/=. eauto.
  - destruct item as [| | |name| | | | | |m| |]; simplify_eq/=.
    + destruct (plain_sequence l) as [names'|]; simplify_eq/=.
      destruct (absent (env_sos_dict s) (KStr name)) eqn:Habs.
      * apply bind_Raise. by apply export_name_absent.
      * destruct (export_name_present task_id (KStr name) shared0 s Habs) as [v Hv].
        rewrite (bind_Return _ _ _ _ _ Hv). by apply IH.
    + destruct (plain_mapping m) as [first|] eqn:Hm; simplify_eq/=.
      destruct (plain_sequence l) as [names'|]; simplify_eq/=.
      rewrite find_app_absent.
      pose proof (export_mapping_plain task_id m s first shared0 Hm) as Hfirst.
      destruct (find (absent (env_sos_dict s)) first) as [name|].
      * by apply bind_Raise.
      * destruct Hfirst as [shared1 Hfirst].
        rewrite (bind_Return _ _ _ _ _ Hfirst). by apply IH.
Qed.


(** ** The order of the stages (lines 320-469) *)

(** C2 (as amended). In every invocation of a task that is no master, the
    calls of the caching decision (the lock of the fingerprint, the
    validation, the write with [rebuild]) come before every check that an
    input or dependency target exists, and these come before the body. *)
Theorem caching_then_checks_then_body opts subtask task_id global_def task sos_dict s :
  exists evs,
    trace (execute_one opts subtask task_id global_def task sos_dict s).2 =
      trace s ++ evs /\
    in_order code_rank evs = true.
Proof.
  destruct (execute_one_runs opts subtask task_id global_def task sos_dict s)
    as (evs & Heq & Hup & _).
  exists evs. split; [done|]. unfold in_order.
  eapply ascending_weaken; [|done]. lia.
Qed.

(** ** The working directory (lines 382-400, 509-511) *)


(** When [cur_dir] is a directory of the host, the task goes there. *)
Lemma go_to_cur_dir_enters sos_dict runtime d s :
  Dict.get (KStr "_runtime") sos_dict = Some (VDict runtime) ->
  Dict.get (KStr "cur_dir") runtime = Some (VStr d) ->
  isdir (host s) (expanduser (host s) d) = true ->
  exists s', go_to_cur_dir sos_dict s = (Return tt, s') /\
             cwd (host s') = abspath (host s) (expanduser (host s) d).
Proof.
  intros Hrt Hcur Hdir. unfold go_to_cur_dir, in_runtime. rewrite Hrt, Hcur.
  unfold bind, ret, gets, os_path_isdir, os_chdir, modify. simpl.
  rewrite Hdir. simpl. unfold bind, gets. simpl. rewrite Hdir. eauto.
Qed.

(** ** Tasks that call [sos_run] *)

(** C6 (as amended). In mode [default], the validation of a step
    ([validate_step_sig]) whose signature variables include [sos_run] answers
    with no match and leaves the state as it is: no signature is validated
    or adopted. *)
Theorem step_with_sos_run_is_not_validated sig vars s :
  sig_mode s = Some "default" ->
  Dict.get (KStr "__signature_vars__") (env_sos_dict s) = Some vars ->
  contains_str "sos_run" vars = Return true ->
  validate_step_sig sig s = (Return (VDict []), s).
Proof.
  intros Hmode Hvars Hin. unfold validate_step_sig.
  erewrite bind_Return; [|by unfold config_sig_mode, bind, gets; rewrite Hmode].
  cbv beta. rewrite decide_True by done. erewrite bind_Return; last first.
  { unfold uses_sos_run, env_get, bind, gets, lift_outcome.
    rewrite Hvars. simpl. by rewrite Hin. }
  done.
Qed.

(** ** The stop signal (lines 471-476) *)

(** C8. When the body of a task raises [StopInputGroup], and the clause
    [finally] can go back to [orig_dir] (and, for a task that is no sub-task,
    find the task file), the invocation returns return code 0 with empty
    [input], [output] and [depends], an empty [shared] map and no
    [exception]; the message, when there is one, is logged as a warning. *)
Theorem stop_signal_returns_empty_success opts subtask task_id global_def task
    sos_dict s sd sig orig_dir s2 message h' d' :
  reach_body opts subtask task_id global_def task sos_dict s =
    (Return (Some (sd, sig, orig_dir)), s2) ->
  SoS_exec task (host s2, env_sos_dict s2) =
    (Raise (StopInputGroup message), (h', d')) ->
  isdir h' orig_dir = true ->
  (subtask = false ->
   String.prefix "/" (home h') = true /\
   isfile h' (task_path h' task_id ".task") = true) ->
  exists s',
    execute_one opts subtask task_id global_def task sos_dict s =
      (Return [ (KStr "ret_code", VInt 0); (KStr "task", VStr task_id);
                (KStr "input", VList []); (KStr "output", VList []);
                (KStr "depends", VList []); (KStr "shared", VDict []) ], s') /\
    trace s' =
      trace s2 ++ EvExecTask task ::
        (if decide (message = "") then []
         else [EvLog WARNING (task_id +:+ " ``stopped``: " +:+ message)]).
Proof.
  intros Hbody Hexec Hdir Hfile.
  rewrite (execute_one_from_body _ _ _ _ _ _ _ _ _ _ _ Hbody).
  unfold from_body, bind at 1, try_finally, try_except.
  rewrite (run_body_raises _ _ _ _ _ _ _ Hexec). simpl.
  destruct (decide (message = "")) as [->|Hmsg].
  - unfold bind at 1. simpl.
    edestruct (finalize_returns subtask task_id orig_dir) as (s' & -> & Htr & _);
      [..|exists s'; split; [done|]; rewrite Htr; done]; done.
  - unfold bind at 1. simpl.
    edestruct (finalize_returns subtask task_id orig_dir) as (s' & -> & Htr & _);
      [..|exists s'; split; [done|]; rewrite Htr; simpl];
      [done|done|].
    by rewrite <- app_assoc.
Qed.

(** ** A body that divides by zero (lines 483-508, 518-520) *)

(** C9. A task with the body [x = 1/0], run in mode [default] against a
    store that has no record of it: if nothing fails before the body, the
    body raises [ZeroDivisionError] and the clause [finally] can go back, the
    invocation returns return code 1 with that exception (error kind
    [ZeroDivisionError]) and the store is what it was: nothing is written. *)
Theorem division_error_is_reported_and_not_recorded opts subtask task_id global_def
    sos_dict s reached s2 detail h' d' :
  runmode opts <> "dryrun" ->
  sigmode opts = Some "default" ->
  (forall md5 i o d v, store s !! fingerprint md5 "x = 1/0" i o d v = None) ->
  reach_body opts subtask task_id global_def "x = 1/0" sos_dict s =
    (Return reached, s2) ->
  SoS_exec "x = 1/0" (host s2, env_sos_dict s2) =
    (Raise (ZeroDivisionError detail), (h', d')) ->
  (forall sd sig orig_dir,
     reached = Some (sd, sig, orig_dir) -> isdir h' orig_dir = true) ->
  (subtask = false ->
   String.prefix "/" (home h') = true /\
   isfile h' (task_path h' task_id ".task") = true) ->
  exists s',
    execute_one opts subtask task_id global_def "x = 1/0" sos_dict s =
      (Return [ (KStr "ret_code", VInt 1);
                (KStr "exception", VExc (ZeroDivisionError detail));
                (KStr "task", VStr task_id); (KStr "shared", VDict []) ], s') /\
    class_name (ZeroDivisionError detail) = "ZeroDivisionError" /\
    store s' = store s.
Proof.
  intros Hrun Hsig Hnone Hbody Hexec Hdir Hfile.
  assert (exists sd sig orig_dir,
             reached = Some (sd, sig, orig_dir) /\ store s2 = store s)
    as (sd & sig & orig_dir & -> & Hstore).
  { pose proof Hbody as Hb. unfold reach_body in Hb.
    apply bind_Return_inv in Hb as (x & s1 & Henter & Hb).
    unfold enter_try in Henter.
    apply bind_Return_inv in Henter as (sd0 & sa & Hprep & Henter).
    apply bind_Return_inv in Henter as (decision & sb & Hdec & Henter).
    pose proof (prepare_sets_mode _ _ _ _ _ _ _ _ _ Hrun Hsig Hprep) as Hmode.
    pose proof (keeps_eq _ _ _ _ _ (prepare_same_store _ _ _ _ _) Hprep) as Hsa.
    unfold same_store in Hsa.
    destruct (caching_decision_without_record "x = 1/0" sa decision sb)
      as [Hskip Hsb]; [done|by intros; rewrite Hsa|done|].
    rewrite Hskip in Henter.
    apply bind_Return_inv in Henter as (sd1 & sc & Htouch & Henter).
    apply bind_Return_inv in Henter as ([] & se & Hcur & Henter).
    unfold os_getcwd, bind, gets, ret in Henter. simplify_eq.
    apply bind_Return_inv in Hb as ([] & s1' & Hstage & Hb).
    unfold ret in Hb. simplify_eq.
    do 3 eexists. split; [done|].
    apply (keeps_eq _ _ _ _ _ (touch_same_store _ _ _)) in Htouch.
    apply (keeps_eq _ _ _ _ _ (go_to_cur_dir_same_store _)) in Hcur.
    apply (keeps_eq _ _ _ _ _ (stage_same_store _)) in Hstage.
    unfold same_store in *. congruence. }
  rewrite (execute_one_from_body _ _ _ _ _ _ _ _ _ _ _ Hbody).
  unfold from_body, bind at 1, try_finally, try_except.
  rewrite (run_body_raises _ _ _ _ _ _ _ Hexec). simpl.
  edestruct (finalize_returns subtask task_id orig_dir) as (s' & -> & _ & Hst & _);
    [..|exists s'; split; [done|]; split; [done|]; rewrite Hst; done]; eauto.
Qed.

End Properties.

(** * Further properties of the executor *)

#[local] Instance same_locked_preorder : PreOrder same_locked.
Proof. split; [done|]. unfold same_locked. intros s1 s2 s3 H1 H2. congruence. Qed.

Lemma keeps_bind_state (R : relation State) `{!Reflexive R} {A B}
    (m : M A) (k : A -> M B) s :
  (forall a, keeps R (k a)) -> R (m s).2 (bind m k s).2.
Proof.
  intros Hk. unfold bind. destruct (m s) as [[a|e] s1]; simpl; [apply Hk|done].
Qed.

Section Modes.
Context `{Collaborators}.

#[local] Hint Resolve run_code_same_store run_code_same_sig_mode
  run_code_emitting : exec.

Lemma run_code_same_locked code : keeps same_locked (run_code code).
Proof.
  intros s. unfold run_code.
  by destruct (SoS_exec code (host s, env_sos_dict s)) as [r [h' d']].
Qed.

#[local] Hint Resolve run_code_same_locked : exec.

(** ** The mode of an invocation (lines 293-297) *)

Lemma set_modes_effective opts s :
  set_modes opts s =
    (Return tt, set_sig_mode (effective_mode opts (sig_mode s))
                  (set_run_mode (Some (runmode opts)) s)).
Proof.
  unfold set_modes, effective_mode, bind, modify, ret.
  destruct (decide (runmode opts = "dryrun")); [done|].
  destruct (sigmode opts); [done|]. by destruct s.
Qed.

Lemma prepare_effective_mode opts subtask task_id global_def sos_dict s sd s1 :
  prepare opts subtask task_id global_def sos_dict s = (Return sd, s1) ->
  sig_mode s1 = effective_mode opts (sig_mode s).
Proof.
  intros Hprep.
  assert (ensures (fun s0 => sig_mode s0 = sig_mode s)
            (prepare opts subtask task_id global_def sos_dict)
            (fun s0 => sig_mode s0 = effective_mode opts (sig_mode s))) as Hens;
    [|by eapply Hens].
  unfold prepare.
  do 10 (eapply ensures_bind; [apply ensures_sig_mode; keeps_auto|intros ?]).
  eapply (ensures_bind _ (fun s0 => sig_mode s0 = effective_mode opts (sig_mode s)));
    [|intros ?].
  - intros s0 [] s0' Hs0. rewrite set_modes_effective. intros [= <-].
    simpl. by rewrite Hs0.
  - apply ensures_sig_mode. keeps_auto.
Qed.

Lemma caching_decision_ignore task s :
  sig_mode s = Some "ignore" ->
  caching_decision task s = (Return (None, false), s).
Proof.
  intros Hmode. unfold caching_decision, config_sig_mode, bind, gets.
  by rewrite Hmode.
Qed.

(** ** What the parts of an invocation leave alone *)

Lemma export_mapping_same_store task_id m : forall shared0,
  keeps same_store (export_mapping task_id m shared0).
Proof. induction m as [|[var val] m IH]; intros shared0; simpl; keeps_auto. Qed.

Lemma export_mapping_same_locked task_id m : forall shared0,
  keeps same_locked (export_mapping task_id m shared0).
Proof. induction m as [|[var val] m IH]; intros shared0; simpl; keeps_auto. Qed.

Lemma export_mapping_emitting P task_id m : forall shared0,
  keeps (emitting P) (export_mapping task_id m shared0).
Proof. induction m as [|[var val] m IH]; intros shared0; simpl; keeps_auto. Qed.

#[local] Hint Resolve export_mapping_same_store export_mapping_same_locked
  export_mapping_emitting : exec.

Lemma export_sequence_same_store task_id svars l : forall shared0,
  keeps same_store (export_sequence task_id svars l shared0).
Proof.
  induction l as [|item l IH]; intros shared0; simpl; [keeps_auto|].
  destruct item; keeps_auto.
Qed.

Lemma export_sequence_same_locked task_id svars l : forall shared0,
  keeps same_locked (export_sequence task_id svars l shared0).
Proof.
  induction l as [|item l IH]; intros shared0; simpl; [keeps_auto|].
  destruct item; keeps_auto.
Qed.

Lemma export_sequence_emitting P task_id svars l : forall shared0,
  keeps (emitting P) (export_sequence task_id svars l shared0).
Proof.
  induction l as [|item l IH]; intros shared0; simpl; [keeps_auto|].
  destruct item; keeps_auto.
Qed.

#[local] Hint Resolve export_sequence_same_store export_sequence_same_locked
  export_sequence_emitting : exec.

Lemma collect_task_result_same_store task_id sos_dict skipped :
  keeps same_store (collect_task_result task_id sos_dict skipped).
Proof. keeps_auto. Qed.

Lemma collect_task_result_same_locked task_id sos_dict skipped :
  keeps same_locked (collect_task_result task_id sos_dict skipped).
Proof. keeps_auto. Qed.

Lemma collect_task_result_no_sig task_id sos_dict skipped :
  keeps (emitting no_sig_event) (collect_task_result task_id sos_dict skipped).
Proof. keeps_auto. Qed.

Lemma prepare_same_locked opts subtask task_id global_def sos_dict :
  keeps same_locked (prepare opts subtask task_id global_def sos_dict).
Proof. keeps_auto. Qed.

Lemma prepare_no_sig opts subtask task_id global_def sos_dict :
  keeps (emitting no_sig_event) (prepare opts subtask task_id global_def sos_dict).
Proof. keeps_auto. Qed.

Lemma touch_same_locked subtask task_id sos_dict :
  keeps same_locked (touch_task_file subtask task_id sos_dict).
Proof. keeps_auto. Qed.

Lemma touch_no_sig subtask task_id sos_dict :
  keeps (emitting no_sig_event) (touch_task_file subtask task_id sos_dict).
Proof. keeps_auto. Qed.

Lemma protected_same_store subtask task_id task sos_dict :
  keeps same_store (protected subtask task_id task sos_dict).
Proof. keeps_auto. Qed.

Lemma protected_same_locked subtask task_id task sos_dict :
  keeps same_locked (protected subtask task_id task sos_dict).
Proof. keeps_auto. Qed.

Lemma protected_no_sig subtask task_id task sos_dict :
  keeps (emitting no_sig_event) (protected subtask task_id task sos_dict).
Proof. keeps_auto. Qed.

(** ** Mode [ignore] and dry runs (lines 294-295, 321-322, 518) *)

Lemma execute_one_ignore (R : relation State) `{!PreOrder R}
    opts subtask task_id global_def task sos_dict s :
  effective_mode opts (sig_mode s) = Some "ignore" ->
  keeps R (prepare opts subtask task_id global_def sos_dict) ->
  (forall sd, keeps R (touch_task_file subtask task_id sd)) ->
  (forall sd, keeps R (protected subtask task_id task sd)) ->
  (forall sd skipped, keeps R (collect_task_result task_id sd skipped)) ->
  R s (execute_one opts subtask task_id global_def task sos_dict s).2.
Proof.
  intros Hmode Hprep Htouch Hprot Hcoll. unfold execute_one.
  etrans; [apply (Hprep s)|].
  destruct (prepare opts subtask task_id global_def sos_dict s) as [[sd|e] s1] eqn:Hp.
  - rewrite (bind_Return _ _ _ _ _ Hp). simpl.
    apply prepare_effective_mode in Hp. rewrite Hmode in Hp.
    rewrite (bind_Return _ _ _ _ _ (caching_decision_ignore task s1 Hp)). simpl.
    apply keeps_bind; [done|done|intros sd'].
    apply keeps_bind; [done|done|intros [res|]].
    + by apply keeps_ret.
    + unfold finish. apply keeps_bind; [done|by apply keeps_ret|done].
  - by rewrite (bind_Raise _ _ _ _ _ Hp).
Qed.

(** X1. In a dry run, and in mode [ignore], an invocation never touches the
    signature store: the records and the locks held are what they were and no
    call to the store is made, however the invocation ends. *)
Theorem ignore_mode_never_touches_the_store opts subtask task_id global_def task
    sos_dict s :
  effective_mode opts (sig_mode s) = Some "ignore" ->
  store (execute_one opts subtask task_id global_def task sos_dict s).2 = store s /\
  locked (execute_one opts subtask task_id global_def task sos_dict s).2 = locked s /\
  exists evs,
    trace (execute_one opts subtask task_id global_def task sos_dict s).2 =
      trace s ++ evs /\
    forallb (fun ev => negb (is_sig_event ev)) evs = true.
Proof.
  intros Hmode. split; [|split].
  - apply (execute_one_ignore same_store); auto using prepare_same_store,
      touch_same_store, protected_same_store, collect_task_result_same_store.
  - apply (execute_one_ignore same_locked); auto using prepare_same_locked,
      touch_same_locked, protected_same_locked, collect_task_result_same_locked.
  - destruct (execute_one_ignore (emitting no_sig_event) opts subtask task_id
                global_def task sos_dict s) as (evs & Heq & Hall);
      auto using prepare_no_sig, touch_no_sig, protected_no_sig,
        collect_task_result_no_sig.
    exists evs. split; [done|]. clear Heq.
    induction Hall as [|ev evs Hev _ IH]; [done|].
    simpl. unfold no_sig_event in Hev. by rewrite Hev.
Qed.

(** ** The modes of the caching decision (lines 321-370) *)

Lemma config_sig_mode_eq s mode :
  sig_mode s = Some mode -> config_sig_mode s = (Return mode, s).
Proof. intros Hmode. unfold config_sig_mode, bind, gets. by rewrite Hmode. Qed.

Lemma sig_lock_eq sig s : sig_lock sig s = (Return tt, locked_state sig s).
Proof. done. Qed.

Lemma env_get_eq k v s :
  Dict.get (KStr k) (env_sos_dict s) = Some v -> env_get k s = (Return v, s).
Proof. intros Hget. unfold env_get, bind, gets. by rewrite Hget. Qed.

(** Lines 333-370 once the fingerprint is locked and [_index] read. *)
Ltac open_decision Hmode Hopen Hidx :=
  unfold caching_decision;
  rewrite (bind_Return _ _ _ _ _ (config_sig_mode_eq _ _ Hmode));
  rewrite decide_False by done;
  pose proof Hopen as Hopen_inv;
  apply open_signature_inv in Hopen_inv as [-> _];
  rewrite (bind_Return _ _ _ _ _ Hopen);
  rewrite (bind_Return _ _ _ _ _ (sig_lock_eq _ _));
  rewrite (bind_Return _ _ _ _ _ (env_get_eq "_index" _ (locked_state _ _) Hidx)).

(** X2. A mode that is none of [ignore], [default], [assert], [build] and
    [force] is fatal, and is found out only after the fingerprint is computed
    and its lock taken: the invocation raises [RuntimeError] and holds the
    lock. *)
Theorem unrecognized_mode_is_fatal task s mode sig s0 idx :
  sig_mode s = Some mode ->
  mode ∉ known_modes ->
  open_signature task s = (Return sig, s0) ->
  Dict.get (KStr "_index") (env_sos_dict s) = Some idx ->
  caching_decision task s =
    (Raise (RuntimeError ("Unrecognized signature mode " +:+ mode)),
     locked_state sig s) /\
  sig_id sig ∈ locked (locked_state sig s).
Proof.
  intros Hmode Hnot Hopen Hidx.
  assert (forall m, m ∈ known_modes -> mode <> m) as Hne
    by (intros m Hm ->; done).
  split; [|simpl; set_solver].
  unfold caching_decision.
  rewrite (bind_Return _ _ _ _ _ (config_sig_mode_eq _ _ Hmode)).
  rewrite decide_False by (apply Hne; set_solver).
  pose proof Hopen as Hopen_inv.
  apply open_signature_inv in Hopen_inv as [-> _].
  rewrite (bind_Return _ _ _ _ _ Hopen).
  rewrite (bind_Return _ _ _ _ _ (sig_lock_eq _ _)).
  rewrite (bind_Return _ _ _ _ _ (env_get_eq "_index" _ (locked_state _ _) Hidx)).
  by rewrite !decide_False by (apply Hne; set_solver).
Qed.

Lemma sig_validate_eq sig s :
  sig_validate sig s =
    (Return (stored_answer sig s),
     set_trace (trace s ++ [EvSigValidate (sig_id sig)]) s).
Proof.
  unfold sig_validate, stored_answer, emit, bind, modify, gets, ret. simpl.
  destruct (store s !! sig_id sig) as [rec|]; [|done].
  by destruct (sig_mismatch (host s) (env_sos_dict s) sig rec).
Qed.

(** X3. In mode [assert] the caching decision never lets the body run: a
    stored record that does not match (or no record at all) raises
    [RuntimeError] with the reason, and whenever the decision returns, it
    says that the task is skipped. *)
Theorem assert_mode_skips_or_fails task s sig s0 idx :
  sig_mode s = Some "assert" ->
  open_signature task s = (Return sig, s0) ->
  Dict.get (KStr "_index") (env_sos_dict s) = Some idx ->
  (forall why,
     stored_answer sig s = VStr why ->
     exists s', caching_decision task s =
                  (Raise (RuntimeError ("Signature mismatch: " +:+ why)), s') /\
                store s' = store s) /\
  (forall decision s',
     caching_decision task s = (Return decision, s') -> decision.2 = true).
Proof.
  intros Hmode Hopen Hidx. split.
  - intros why Hwhy. open_decision Hmode Hopen Hidx.
    rewrite decide_False, decide_True by done.
    rewrite (bind_Return _ _ _ _ _ (sig_validate_eq _ _)).
    change (stored_answer sig (locked_state sig s)) with (stored_answer sig s).
    rewrite Hwhy. eauto.
  - intros decision s'. open_decision Hmode Hopen Hidx.
    rewrite decide_False, decide_True by done.
    rewrite (bind_Return _ _ _ _ _ (sig_validate_eq _ _)).
    destruct (stored_answer sig (locked_state sig s)); try done.
    intros Hret.
    apply bind_Return_inv in Hret as ([] & s1 & _ & Hret).
    apply bind_Return_inv in Hret as (name & s2 & _ & Hret).
    apply bind_Return_inv in Hret as ([] & s3 & _ & Hret).
    unfold ret in Hret. by simplify_eq.
Qed.

(** X4. In mode [force] the caching decision never skips and never asks the
    store: it takes the lock of the fingerprint and nothing else. *)
Theorem force_mode_never_skips task s decision s' :
  sig_mode s = Some "force" ->
  caching_decision task s = (Return decision, s') ->
  decision.2 = false /\
  store s' = store s /\
  exists sig, decision.1 = Some sig /\
              trace s' = trace s ++ [EvSigLock (sig_id sig)].
Proof.
  intros Hmode Hdec. unfold caching_decision in Hdec.
  rewrite (bind_Return _ _ _ _ _ (config_sig_mode_eq _ _ Hmode)) in Hdec.
  rewrite decide_False in Hdec by done.
  apply bind_Return_inv in Hdec as (sig & s1 & Hopen & Hdec).
  apply open_signature_inv in Hopen as [-> _].
  rewrite (bind_Return _ _ _ _ _ (sig_lock_eq _ _)) in Hdec.
  apply bind_Return_inv in Hdec as (idx & s2 & ->%env_get_inv & Hdec).
  rewrite !decide_False, decide_True in Hdec by done.
  unfold ret in Hdec. simplify_eq. simpl. eauto.
Qed.

(** X5. In mode [build] the caching decision never validates: when the
    declared outputs are not all on the host the task is not skipped and the
    store is left as it is; when they are, and the record can be made, the
    record is stored under the fingerprint and the task is skipped without
    running its body. *)
Theorem build_mode_writes_or_runs task s sig s0 idx name :
  sig_mode s = Some "build" ->
  open_signature task s = (Return sig, s0) ->
  Dict.get (KStr "_index") (env_sos_dict s) = Some idx ->
  Dict.get (KStr "step_name") (env_sos_dict s) = Some name ->
  (outputs_exist (host s) (output_files sig) = false ->
   exists s', caching_decision task s = (Return (Some sig, false), s') /\
              store s' = store s /\
              trace s' =
                trace s ++
                [ EvSigLock (sig_id sig); EvSigWrite (sig_id sig) true;
                  EvLog INFO (ignored_msg "Task" (py_str name) (py_str idx)
                                "``executed`` with failed signature constructed") ]) /\
  (forall rec,
     outputs_exist (host s) (output_files sig) = true ->
     sig_content (host s) (env_sos_dict s) sig = Some rec ->
     exists s', caching_decision task s = (Return (Some sig, true), s') /\
                store s' = <[ sig_id sig := rec ]> (store s) /\
                trace s' =
                  trace s ++
                  [ EvSigLock (sig_id sig); EvSigWrite (sig_id sig) true;
                    EvLog INFO (ignored_msg "Task" (py_str name) (py_str idx)
                                  "``ignored`` with signature constructed") ]).
Proof.
  intros Hmode Hopen Hidx Hname. split.
  - intros Hout. open_decision Hmode Hopen Hidx.
    rewrite !decide_False, decide_True by done.
    unfold sig_write, emit, bind, modify, gets, ret. simpl. rewrite Hout. simpl.
    unfold env_get, bind, gets. simpl. rewrite Hname. simpl.
    eexists. split; [done|]. split; [done|]. simpl.
    by rewrite <- !app_assoc.
  - intros rec Hout Hrec. open_decision Hmode Hopen Hidx.
    rewrite !decide_False, decide_True by done.
    unfold sig_write, emit, bind, modify, gets, ret. simpl. rewrite Hout, Hrec. simpl.
    unfold env_get, bind, gets. simpl. rewrite Hname. simpl.
    eexists. split; [done|]. split; [done|]. simpl.
    by rewrite <- !app_assoc.
Qed.

(** ** The ways out of the [try] statement (lines 464-520) *)

Lemma run_body_returns subtask task_id task s h' d' :
  SoS_exec task (host s, env_sos_dict s) = (Return tt, (h', d')) ->
  exists s', run_body subtask task_id task s = (Return None, s') /\
             host s' = h' /\ store s' = store s /\ locked s' = locked s /\
             trace s' =
               trace s ++ [ EvExecTask task;
                            EvLog (if subtask then DEBUG else INFO)
                              (task_id +:+ " ``completed``") ].
Proof.
  intros Hexec. unfold run_body, emit, log, emit, run_code, bind, modify, ret.
  simpl. rewrite Hexec. simpl. eexists. split; [done|]. simpl.
  by rewrite <- app_assoc.
Qed.

Lemma sig_write_spec sig rebuild s :
  exists ok s', sig_write sig rebuild s = (Return ok, s') /\
                host s' = host s /\ locked s' = locked s /\
                trace s' = trace s ++ [EvSigWrite (sig_id sig) rebuild].
Proof.
  unfold sig_write, emit, bind, modify, gets, ret. simpl.
  destruct (rebuild && _); [eauto 10|].
  destruct (sig_content _ _ _); eauto 10.
Qed.

(** What the [except] clauses make of an exception (lines 480-508). *)
Lemma except_clauses_failure task_id e :
  is_Exception e = true ->
  (forall message, e <> StopInputGroup message) ->
  exists k r, except_clauses task_id e = Some k /\
              is_failure_of task_id e r /\
              forall s, exists s', k s = (Return (Some r), s') /\
                                   host s' = host s /\ store s' = store s /\
                                   locked s' = locked s /\
                                   env_sos_dict s' = env_sos_dict s /\
                                   emitting quiet s s'.
Proof.
  intros Hexc Hstop.
  destruct e as [message| | |returncode stderr|target|cls detail];
    try done; [by destruct (Hstop message)| | |]; simpl;
    do 2 eexists; (split; [done|]); (split; last first).
  all: try (intros s; unfold bind, log, emit, modify, ret; simpl; eexists;
            (repeat split; try done);
            first [ by apply emitting_nothing
                  | by eapply emitting_one; [|done] ]).
  all: by repeat split.
Qed.

(** The [try] statement when its block raises an exception that a clause
    turns into a result, and [finally] meets no obstacle. *)
Lemma try_statement_failure subtask task_id orig_dir (m : M (option pydict))
    s e sx :
  m s = (Raise e, sx) ->
  is_Exception e = true ->
  (forall message, e <> StopInputGroup message) ->
  isdir (host sx) orig_dir = true ->
  (subtask = false ->
   String.prefix "/" (home (host sx)) = true /\
   isfile (host sx) (task_path (host sx) task_id ".task") = true) ->
  exists r s',
    try_finally (try_except m (except_clauses task_id))
      (finalize subtask task_id (Some orig_dir)) s = (Return (Some r), s') /\
    is_failure_of task_id e r /\
    store s' = store sx /\ locked s' = locked sx /\ emitting quiet sx s'.
Proof.
  intros Hm Hexc Hstop Hdir Hfile.
  destruct (except_clauses_failure task_id e Hexc Hstop) as (k & r & Hk & Hr & Hks).
  destruct (Hks sx) as (sh & Hsh & Hhost & Hstore & Hlocked & _ & Hquiet).
  destruct (finalize_returns subtask task_id orig_dir sh) as (s' & Hfin & Htr & Hst & Hlk);
    [by rewrite Hhost|by rewrite Hhost|].
  exists r, s'. unfold try_finally, try_except. rewrite Hm, Hk, Hsh, Hfin.
  split; [done|]. split; [done|]. split; [congruence|]. split; [congruence|].
  destruct Hquiet as (evs & Hevs & Hq). exists evs. by rewrite Htr.
Qed.

(** X6. When the body of a task with a signature runs to its end, the record
    is written and the lock of the fingerprint released (lines 518-520)
    before the result is collected: at the end of the invocation the lock is
    not held, whether the collection of the result succeeds or not. *)
Theorem completed_body_releases_the_lock opts subtask task_id global_def task
    sos_dict s sd sig orig_dir s2 h' d' :
  reach_body opts subtask task_id global_def task sos_dict s =
    (Return (Some (sd, Some sig, orig_dir)), s2) ->
  SoS_exec task (host s2, env_sos_dict s2) = (Return tt, (h', d')) ->
  isdir h' orig_dir = true ->
  (subtask = false ->
   String.prefix "/" (home h') = true /\
   isfile h' (task_path h' task_id ".task") = true) ->
  (sig_id sig ∉ locked (execute_one opts subtask task_id global_def task sos_dict s).2) /\
  exists evs,
    trace (execute_one opts subtask task_id global_def task sos_dict s).2 =
      trace s2 ++
      [ EvExecTask task;
        EvLog (if subtask then DEBUG else INFO) (task_id +:+ " ``completed``");
        EvSigWrite (sig_id sig) false; EvSigRelease (sig_id sig) ] ++ evs.
Proof.
  intros Hbody Hexec Hdir Hfile.
  rewrite (execute_one_from_body _ _ _ _ _ _ _ _ _ _ _ Hbody).
  destruct (run_body_returns subtask task_id task s2 h' d' Hexec)
    as (sb & Hrun & Hhost & _ & _ & Htrace).
  destruct (finalize_returns subtask task_id orig_dir sb)
    as (sf & Hfin & Htrf & _ & _); [by rewrite Hhost|by rewrite Hhost|].
  unfold from_body. erewrite bind_Return; last first.
  { unfold try_finally, try_except. by rewrite Hrun, Hfin. }
  unfold finish.
  destruct (sig_write_spec sig false sf) as (ok & sw & Hw & _ & Hlw & Htw).
  set (sr := set_locked (locked sw ∖ {[ sig_id sig ]})
               (set_trace (trace sw ++ [EvSigRelease (sig_id sig)]) sw)).
  assert ((sig_write sig false;; sig_release sig) sf = (Return tt, sr)) as Hwr.
  { by rewrite (bind_Return _ _ _ _ _ Hw). }
  rewrite (bind_Return _ _ _ _ _ Hwr). split.
  - rewrite (collect_task_result_same_locked task_id sd false sr). simpl.
    apply not_elem_of_difference. right. by apply elem_of_singleton.
  - destruct (keeps_emitting_weaken no_sig_event (fun _ => True) _ (fun _ _ => I)
                (collect_task_result_no_sig task_id sd false) sr) as (evs & Hevs & _).
    exists evs. rewrite Hevs. simpl. rewrite Htw, Htrf, Htrace.
    by rewrite <- !app_assoc.
Qed.

(** X7. An exception of the body that is no [Exception] (a user interrupt, an
    exit of the interpreter) is never turned into a result: the invocation
    raises it, after the clause [finally]; an interrupt is logged as an
    error. *)
Theorem interrupt_is_raised_again opts subtask task_id global_def task
    sos_dict s sd sig orig_dir s2 e h' d' :
  reach_body opts subtask task_id global_def task sos_dict s =
    (Return (Some (sd, sig, orig_dir)), s2) ->
  SoS_exec task (host s2, env_sos_dict s2) = (Raise e, (h', d')) ->
  is_Exception e = false ->
  isdir h' orig_dir = true ->
  (subtask = false ->
   String.prefix "/" (home h') = true /\
   isfile h' (task_path h' task_id ".task") = true) ->
  exists s',
    execute_one opts subtask task_id global_def task sos_dict s = (Raise e, s') /\
    trace s' =
      trace s2 ++ EvExecTask task ::
        match e with
        | KeyboardInterrupt => [EvLog ERROR (task_id +:+ " ``interrupted``")]
        | _ => []
        end.
Proof.
  intros Hbody Hexec Hexc Hdir Hfile.
  rewrite (execute_one_from_body _ _ _ _ _ _ _ _ _ _ _ Hbody).
  unfold from_body, bind at 1, try_finally, try_except.
  rewrite (run_body_raises _ _ _ _ _ _ _ Hexec).
  destruct e; try done; simpl.
  - edestruct (finalize_returns subtask task_id orig_dir) as (s' & -> & Htr & _);
      [..|exists s'; split; [done|]; rewrite Htr; simpl]; [done|done|].
    by rewrite <- app_assoc.
  - edestruct (finalize_returns subtask task_id orig_dir) as (s' & -> & Htr & _);
      [..|exists s'; split; [done|]; rewrite Htr; simpl]; [done|done|].
    done.
Qed.

(** X8. An [Exception] of the body other than the stop signal never leaves
    the invocation: it returns a result with that failure (return code and
    standard error of a failed command, or return code 1 and the exception
    itself), without the keys [skipped], [input], [output] and [depends] of a
    collected result, and nothing is written to the store. *)
Theorem exception_of_the_body_is_a_result opts subtask task_id global_def task
    sos_dict s sd sig orig_dir s2 e h' d' :
  reach_body opts subtask task_id global_def task sos_dict s =
    (Return (Some (sd, sig, orig_dir)), s2) ->
  SoS_exec task (host s2, env_sos_dict s2) = (Raise e, (h', d')) ->
  is_Exception e = true ->
  (forall message, e <> StopInputGroup message) ->
  isdir h' orig_dir = true ->
  (subtask = false ->
   String.prefix "/" (home h') = true /\
   isfile h' (task_path h' task_id ".task") = true) ->
  exists r s',
    execute_one opts subtask task_id global_def task sos_dict s = (Return r, s') /\
    is_failure_of task_id e r /\
    store s' = store s2.
Proof.
  intros Hbody Hexec Hexc Hstop Hdir Hfile.
  rewrite (execute_one_from_body _ _ _ _ _ _ _ _ _ _ _ Hbody).
  destruct (try_statement_failure subtask task_id orig_dir
              (run_body subtask task_id task) s2 e _
              (run_body_raises _ _ _ _ _ _ _ Hexec) Hexc Hstop)
    as (r & s' & Htry & Hr & Hst & _); [done|done|].
  exists r, s'. unfold from_body. rewrite (bind_Return _ _ _ _ _ Htry).
  done.
Qed.

(** X9. An [Exception] raised while the targets are checked or the
    environment staged (a missing input, a directory that cannot be made) is
    caught by the [try] statement like one of the body: the invocation
    returns a result with that failure, and the body is not executed. *)
Theorem failure_of_staging_is_a_result opts subtask task_id global_def task
    sos_dict s sd sig orig_dir s1 e sx :
  enter_try opts subtask task_id global_def task sos_dict s =
    (Return (Some (sd, sig, orig_dir)), s1) ->
  stage sd s1 = (Raise e, sx) ->
  is_Exception e = true ->
  (forall message, e <> StopInputGroup message) ->
  isdir (host sx) orig_dir = true ->
  (subtask = false ->
   String.prefix "/" (home (host sx)) = true /\
   isfile (host sx) (task_path (host sx) task_id ".task") = true) ->
  exists r s' evs,
    execute_one opts subtask task_id global_def task sos_dict s = (Return r, s') /\
    is_failure_of task_id e r /\
    trace s' = trace s1 ++ evs /\
    forallb (fun ev => negb (is_body_event ev)) evs = true.
Proof.
  intros Henter Hstage Hexc Hstop Hdir Hfile.
  destruct (execute_one_from_try _ _ _ _ _ _ _ _ _ _ _ Henter) as [-> _].
  assert (stage_and_run subtask task_id task sd s1 = (Raise e, sx)) as Hrun
    by (unfold stage_and_run; by apply bind_Raise).
  destruct (try_statement_failure subtask task_id orig_dir _ s1 e sx
              Hrun Hexc Hstop Hdir Hfile)
    as (r & s' & Htry & Hr & _ & _ & (evs2 & Hevs2 & Hq2)).
  destruct (keeps_eq _ _ _ _ _ (stage_in_phase sd) Hstage) as (evs1 & Hevs1 & Hq1).
  exists r, s', (evs1 ++ evs2). unfold from_try. rewrite (bind_Return _ _ _ _ _ Htry).
  split; [done|]. split; [done|]. split; [by rewrite Hevs2, Hevs1, app_assoc|].
  rewrite forallb_app. apply andb_true_intro. split.
  - clear -Hq1. induction Hq1 as [|ev evs [Hev|Hev] _ IH]; [done| |];
      simpl; rewrite IH, andb_true_r; by destruct ev.
  - clear -Hq2. induction Hq2 as [|ev evs Hev _ IH]; [done|].
    simpl. rewrite IH, andb_true_r. by destruct ev.
Qed.

End Modes.


(** * Results: shared variables and master tasks *)

Section Results.
Context `{Collaborators}.

(** ** Dictionaries *)

Lemma get_set k k' v d :
  Dict.get k (Dict.set k' v d) = if decide (k = k') then Some v else Dict.get k d.
Proof.
  induction d as [|[k0 v0] d IH]; simpl.
  - by destruct (decide (k = k')).
  - destruct (decide (k' = k0)) as [->|Hne]; simpl.
    + by destruct (decide (k = k0)).
    + destruct (decide (k = k0)) as [->|Hne'].
      * by rewrite decide_False.
      * done.
Qed.

Lemma mem_set k k' v d :
  Dict.mem k d = true -> Dict.mem k (Dict.set k' v d) = true.
Proof.
  unfold Dict.mem. rewrite get_set. by destruct (decide (k = k')).
Qed.

Lemma mem_set_eq k v d : Dict.mem k (Dict.set k v d) = true.
Proof. unfold Dict.mem. rewrite get_set. by rewrite decide_True. Qed.

(** ** The shared variables of a result (lines 26-66) *)

Lemma export_name_inv task_id test name shared0 s shared' s' :
  export_name task_id test name shared0 s = (Return shared', s') ->
  s' = s /\
  exists v, Dict.get name (env_sos_dict s) = Some v /\
            shared' = Dict.set name v shared0.
Proof.
  unfold export_name. intros Hex.
  apply bind_Return_inv in Hex as (present & s1 & Hc & Hex).
  assert (s1 = s) as ->.
  { destruct test; unfold env_contains, gets, ret in Hc; by simplify_eq. }
  destruct present; simpl in Hex; [|done].
  unfold bind, gets in Hex.
  destruct (Dict.get name (env_sos_dict s)) as [v|]; [|done].
  unfold ret in Hex. simplify_eq. eauto.
Qed.

Lemma agrees_export shared0 d name v :
  agrees shared0 d -> Dict.get name d = Some v ->
  agrees (Dict.set name v shared0) d.
Proof.
  intros Hag Hget k v0. rewrite get_set.
  destruct (decide (k = name)) as [->|_]; [congruence|apply Hag].
Qed.

(** One entry of a mapping: the name is given its value, if its expression
    is not the name itself, and exported. *)
Lemma export_entry_inv task_id var val shared0 s shared' s' :
  ((if negb (key_is var val)
    then v <- eval_expr val ;;
         modify (fun s => set_env_sos_dict (Dict.set var v (env_sos_dict s)) s)
    else ret tt) ;;
   export_name task_id (Name var) var shared0) s = (Return shared', s') ->
  agrees shared0 (env_sos_dict s) ->
  agrees shared' (env_sos_dict s') /\
  Dict.mem var shared' = true /\
  (forall k, Dict.mem k shared0 = true -> Dict.mem k shared' = true).
Proof.
  intros Hex Hag.
  apply bind_Return_inv in Hex as ([] & s1 & Hset & Hex).
  apply export_name_inv in Hex as (-> & v & Hget & ->).
  split; [|split; [apply mem_set_eq|intros k; apply mem_set]].
  destruct (key_is var val); simpl in Hset.
  - unfold ret in Hset. simplify_eq. by apply agrees_export.
  - apply bind_Return_inv in Hset as (v0 & s2 & Hev & Hset).
    assert (s2 = s) as ->.
    { unfold eval_expr in Hev. destruct val; try done.
      unfold bind, gets, lift_outcome in Hev. simpl in Hev.
      destruct (SoS_eval _ _ _); by simplify_eq. }
    unfold modify in Hset. simplify_eq. simpl in *.
    rewrite get_set, decide_True in Hget by done. simplify_eq.
    intros k v1. rewrite !get_set.
    destruct (decide (k = var)); [done|apply Hag].
Qed.

Lemma export_mapping_inv task_id items : forall shared0 s shared' s',
  export_mapping task_id items shared0 s = (Return shared', s') ->
  agrees shared0 (env_sos_dict s) ->
  agrees shared' (env_sos_dict s') /\
  Forall (fun k => Dict.mem k shared' = true) (map fst items) /\
  (forall k, Dict.mem k shared0 = true -> Dict.mem k shared' = true).
Proof.
  induction items as [|[var val] items IH]; intros shared0 s shared' s' Hex Hag.
  - unfold export_mapping, ret in Hex. by simplify_eq.
  - cbn [export_mapping] in Hex.
    destruct ((if negb (key_is var val)
               then v <- eval_expr val ;;
                    modify (fun s => set_env_sos_dict (Dict.set var v (env_sos_dict s)) s)
               else ret tt) s) as [[[]|e] s1] eqn:Hset;
      [|by rewrite (bind_Raise _ _ _ _ _ Hset) in Hex].
    rewrite (bind_Return _ _ _ _ _ Hset) in Hex.
    apply bind_Return_inv in Hex as (shared1 & s2 & Hname & Hex).
    destruct (export_entry_inv task_id var val shared0 s shared1 s2)
      as (Hag1 & Hvar & Hmono1); [by rewrite (bind_Return _ _ _ _ _ Hset)|done|].
    destruct (IH _ _ _ _ Hex Hag1) as (Hag' & Hall & Hmono).
    split; [done|]. split; [|by auto].
    simpl. constructor; auto.
Qed.

Lemma export_sequence_inv task_id svars items : forall shared0 s shared' s',
  export_sequence task_id svars items shared0 s = (Return shared', s') ->
  agrees shared0 (env_sos_dict s) ->
  agrees shared' (env_sos_dict s') /\
  Forall (fun k => Dict.mem k shared' = true) (declared_in_sequence items) /\
  (forall k, Dict.mem k shared0 = true -> Dict.mem k shared' = true).
Proof.
  induction items as [|item items IH]; intros shared0 s shared' s' Hex Hag.
  - unfold export_sequence, ret in Hex. by simplify_eq.
  - destruct item; try done; cbn [export_sequence declared_in_sequence] in *.
    + apply bind_Return_inv in Hex as (shared1 & s1 & Hname & Hex).
      apply export_name_inv in Hname as (-> & v & Hget & ->).
      destruct (IH _ _ _ _ Hex (agrees_export _ _ _ _ Hag Hget))
        as (Hag' & Hall & Hmono).
      split; [done|]. split.
      * constructor; [apply Hmono, mem_set_eq|done].
      * intros k Hk. by apply Hmono, mem_set.
    + apply bind_Return_inv in Hex as (shared1 & s1 & Hmap & Hex).
      destruct (export_mapping_inv _ _ _ _ _ _ Hmap Hag) as (Hag1 & Hall1 & Hmono1).
      destruct (IH _ _ _ _ Hex Hag1) as (Hag' & Hall & Hmono).
      split; [done|]. split; [|by auto].
      apply Forall_app. split; [|done].
      eapply Forall_impl; [exact Hall1|]. auto.
Qed.


(** X11. With a single name as the option [shared], the collection of the
    result always fails: line 30 asks whether the builtin [vars] is in
    [env.sos_dict], not the name, so [ValueError] is raised also when the
    name is bound. *)
Theorem single_name_shared_always_fails task_id sos_dict skipped runtime name s :
  Dict.get (KStr "_runtime") (env_sos_dict s) = Some (VDict runtime) ->
  Dict.get (KStr "shared") runtime = Some (VStr name) ->
  collect_task_result task_id sos_dict skipped s =
    (Raise (ValueError (unavailable name task_id)), s).
Proof.
  intros Hrt Hsv. unfold collect_task_result.
  apply bind_Raise. unfold collect_shared.
  rewrite (bind_Return _ _ _ _ _ (env_get_eq "_runtime" _ s Hrt)).
  rewrite Hsv. by apply bind_Raise.
Qed.

(** ** The result of a master task (lines 209-244) *)

Lemma find_first {A} (P : A -> bool) (l1 : list A) x l2 :
  Forall (fun y => P y = false) l1 -> P x = true ->
  find P (l1 ++ x :: l2) = Some x.
Proof.
  intros Hall Hx. induction Hall as [|y l1 Hy _ IH]; simpl.
  - by rewrite Hx.
  - by rewrite Hy.
Qed.

Lemma strings_of_failed results :
  Forall (fun x => has_exception x = true ->
                   exists t, Dict.get_default (KStr "task") (VStr "") x = VStr t)
         results ->
  strings_of (map (Dict.get_default (KStr "task") (VStr ""))
                (filter (fun x => has_exception x = true) results)) =
    Return (failed_names results).
Proof.
  unfold failed_names, strings_of.
  induction 1 as [|x results Hx _ IH]; [done|].
  rewrite filter_cons. destruct (decide (has_exception x = true)) as [Hexc|]; [|done].
  destruct (Hx Hexc) as [t Ht]. simpl. unfold task_name. rewrite Ht.
  by rewrite IH.
Qed.

(** X12. When a sub-task of a master task fails, the results are not
    aggregated: the master returns return code 1 (whatever the return codes
    of the sub-tasks), with the exception of the first failed sub-task in
    stack order, and logs one error that names every failed sub-task. *)
Theorem first_failure_is_reported task_id ids results passed res rest e s :
  results = passed ++ res :: rest ->
  Forall (fun x => has_exception x = false) passed ->
  Dict.get (KStr "exception") res = Some e ->
  Forall (fun x => has_exception x = true ->
                   exists t, Dict.get_default (KStr "task") (VStr "") x = VStr t)
         results ->
  master_result task_id ids results s =
    (Return [ (KStr "ret_code", VInt 1); (KStr "exception", e);
              (KStr "task", VStr task_id) ],
     set_trace
       (trace s ++
        [EvLog ERROR
           (task_id +:+ " ``failed`` due to failure of subtask" +:+
            (if bool_decide (1 < length (failed_names results))%nat then "s" else "")
            +:+ " " +:+ PyStr.join ", " (failed_names results))]) s).
Proof.
  intros -> Hpassed Hexc Hnames.
  assert (has_exception res = true) as Hres
    by (unfold has_exception, Dict.mem; by rewrite Hexc).
  unfold master_result, report_failure.
  rewrite (find_first _ _ _ _ Hpassed Hres).
  rewrite (strings_of_failed _ Hnames).
  unfold bind, lift_outcome, log, emit, modify, getitem, ret. simpl.
  by rewrite Hexc.
Qed.

(** What [copy_out_and_err] reads from a result. *)
Lemma copy_out_and_err_returns result t rc s :
  Dict.get (KStr "task") result = Some (VStr t) ->
  Dict.get (KStr "ret_code") result = Some rc ->
  exists s', copy_out_and_err result s = (Return tt, s') /\
             env_sos_dict s' = env_sos_dict s /\ host s' = host s /\
             store s' = store s /\ locked s' = locked s.
Proof.
  intros Ht Hrc. unfold copy_out_and_err, getitem. rewrite Ht, Hrc.
  unfold bind, ret, emit, modify, gets. simpl.
  destruct (Dict.get (KStr "output") result); simpl;
    destruct (files (host s) !! task_path (host s) t ".out"); simpl;
    destruct (files (host s) !! task_path (host s) t ".err"); simpl; eauto 10.
Qed.


Lemma collect_task_result_complete task_id sos_dict skipped s x s' :
  collect_task_result task_id sos_dict skipped s = (Return x, s') ->
  has_exception x = false /\
  Dict.get (KStr "ret_code") x = Some (VInt 0) /\
  Dict.get (KStr "skipped") x = Some (VBool skipped) /\
  (exists o, Dict.get (KStr "output") x = Some (VDict o)) /\
  (exists sh, Dict.get (KStr "shared") x = Some (VDict sh)).
Proof.
  unfold collect_task_result. intros Hcol.
  apply bind_Return_inv in Hcol as (shared & s1 & _ & Hcol).
  apply bind_Return_inv in Hcol as (output & s2 & _ & Hcol).
  apply bind_Return_inv in Hcol as (input & s3 & _ & Hcol).
  apply bind_Return_inv in Hcol as (depends & s4 & _ & Hcol).
  apply bind_Return_inv in Hcol as (idx & s5 & _ & Hcol).
  apply bind_Return_inv in Hcol as (kidx & s6 & _ & Hcol).
  apply bind_Return_inv in Hcol as (now & s7 & _ & Hcol).
  unfold ret in Hcol. simplify_eq. repeat split; eauto.
Qed.

Lemma aggregate_collected results : forall a ids,
  ret_code a = VInt 0 ->
  Forall (fun x =>
            Dict.get (KStr "ret_code") x = Some (VInt 0) /\
            (exists sk, Dict.get (KStr "skipped") x = Some sk) /\
            (exists o, Dict.get (KStr "output") x = Some (VDict o)) /\
            (exists sh, Dict.get (KStr "shared") x = Some (VDict sh))) results ->
  exists a', aggregate a (zip ids results) = Return a' /\ ret_code a' = VInt 0.
Proof.
  induction results as [|x results IH]; intros a ids Hrc Hall.
  - exists a. by destruct ids.
  - destruct ids as [|tid ids]; [by exists a|].
    apply Forall_cons in Hall as [(Hx1 & [sk Hx2] & [o Hx3] & [sh Hx4]) Hall'].
    change (zip (tid :: ids) (x :: results)) with ((tid, x) :: zip ids results).
    cbn [aggregate]. unfold aggregate_one, subscript.
    rewrite Hx1, Hx2, Hx3, Hx4, Hrc. simpl. by apply IH.
Qed.

(** X14. A master task whose sub-tasks all ran to the collection of their
    result (completed or skipped) never fails: the results are aggregated
    without an error, the return code of the master is 0 and nothing but
    the result is made (no message, no change of the process). *)
Theorem master_of_collected_results task_id ids results s :
  Forall (fun x => exists tid sos_dict skipped s0 s1,
            collect_task_result tid sos_dict skipped s0 = (Return x, s1)) results ->
  exists a,
    master_result task_id ids results s = (Return (all_res_dict a), s) /\
    ret_code a = VInt 0 /\
    has_exception (all_res_dict a) = false.
Proof.
  intros Hall.
  assert (Forall (fun x =>
            has_exception x = false /\
            Dict.get (KStr "ret_code") x = Some (VInt 0) /\
            (exists sk, Dict.get (KStr "skipped") x = Some sk) /\
            (exists o, Dict.get (KStr "output") x = Some (VDict o)) /\
            (exists sh, Dict.get (KStr "shared") x = Some (VDict sh))) results)
    as Hshape.
  { eapply Forall_impl; [exact Hall|]. simpl.
    intros x (tid & sd & sk & s0 & s1 & Hcol).
    apply collect_task_result_complete in Hcol as (? & ? & Hsk & ? & ?).
    eauto 10. }
  clear Hall.
  destruct (aggregate_collected results all_res_init ids eq_refl) as (a & Hag & Hrc).
  { eapply Forall_impl; [exact Hshape|]. simpl. intros x (_ & ? & ? & ? & ?).
    eauto. }
  assert (find has_exception results = None) as Hnone.
  { clear -Hshape. induction Hshape as [|x l (Hx & _) _ IH]; [done|].
    simpl. by rewrite Hx. }
  exists a. unfold master_result.
  rewrite (bind_Return _ _ _ _ _ (report_failure_none task_id results s Hnone)).
  unfold bind, lift_outcome. by rewrite Hag.
Qed.

End Results.

(** * Staging: directories and [os.environ] *)

Section Staging.
Context `{Collaborators}.

(** ** [str.split] *)

Lemma append_empty_r s : s +:+ "" = s.
Proof.
  induction s as [|c s IH]; [done|].
  change (String c s +:+ "") with (String c (s +:+ "")). by rewrite IH.
Qed.

Lemma append_snoc acc c s : PyStr.snoc acc c +:+ s = acc +:+ String c s.
Proof.
  unfold PyStr.snoc. induction acc as [|a acc IH]; [done|].
  change ((String a acc +:+ String c "") +:+ s)
    with (String a ((acc +:+ String c "") +:+ s)).
  by rewrite IH.
Qed.

(** A separator that does not occur splits nothing. *)
Lemma split_go_absent sep s : forall acc,
  PyStr.contains sep s = false -> PyStr.split_go sep 0 acc s = [acc +:+ s].
Proof.
  induction s as [|c s IH]; intros acc Hno.
  - simpl. by rewrite append_empty_r.
  - cbn [PyStr.contains] in Hno. apply orb_false_elim in Hno as [Hpre Hno].
    cbn [PyStr.split_go]. rewrite Hpre, IH by done. by rewrite append_snoc.
Qed.

(** The characters of a match are passed over. *)
Lemma split_go_skip sep s : forall acc,
  PyStr.split_go sep (String.length s) acc s = [acc].
Proof. induction s as [|c s IH]; intros acc; simpl; [done|apply IH]. Qed.

Lemma prefix_refl s : String.prefix s s = true.
Proof.
  induction s as [|c s IH]; simpl; [done|].
  by destruct (Ascii.ascii_dec c c).
Qed.

Lemma ordered_add_twice p keys :
  ordered_add p (ordered_add p keys) = ordered_add p keys.
Proof.
  unfold ordered_add. destruct (decide (p ∈ keys)) as [Hin|Hin].
  - by rewrite !(bool_decide_true (p ∈ keys)).
  - rewrite (bool_decide_false (p ∈ keys)) by done.
    rewrite bool_decide_true; [done|].
    apply elem_of_app. right. by apply list_elem_of_singleton.
Qed.

(** ** Variables whose name contains [PATH] (lines 443-449) *)

(** X15. When the inherited value of a [PATH]-like variable does not occur
    (as a piece of text) in the configured value, it contributes nothing to
    the merged value: the result is made of the configured entries, in
    order and without repetition, followed by the whole configured value
    unless that is one of its own entries.  No inherited entry is kept. *)
Theorem merge_path_ignores_inherited value inherited :
  inherited <> "" ->
  PyStr.contains inherited value = false ->
  merge_path value inherited =
    Return (PyStr.join pathsep
              (ordered_add value
                 (fold_left (fun acc p => ordered_add p acc) (path_entries value) []))).
Proof.
  intros Hne Hno. unfold merge_path, path_entries.
  destruct inherited as [|c inherited]; [done|].
  unfold PyStr.split at 2. rewrite (split_go_absent _ _ "" Hno).
  by unfold PyStr.split, pathsep.
Qed.

(** X16. A [PATH]-like variable that the process has with an empty value
    cannot be configured: the split at the inherited value raises
    [ValueError] (empty separator), whatever the configured value, and
    [os.environ] is left as it is. *)
Theorem empty_inherited_path_is_fatal key value s :
  PyStr.contains "PATH" key = true ->
  environ (host s) !! key = Some "" ->
  stage_variable (KStr key, VStr value) s =
    (Raise (ValueError "empty separator"), s).
Proof.
  intros Hkey Hold. unfold stage_variable, bind, gets. simpl.
  by rewrite Hold, Hkey.
Qed.

(** X17. Configuring a [PATH]-like variable with the value that the process
    already has adds an empty entry to it: the split of the value at itself
    gives two empty pieces, so the merged value is the entries of the value
    followed by the empty entry (unless the value has one already). *)
Theorem merge_path_same_value value :
  value <> "" ->
  merge_path value value =
    Return (PyStr.join pathsep
              (ordered_add ""
                 (fold_left (fun acc p => ordered_add p acc) (path_entries value) []))).
Proof.
  intros Hne. unfold merge_path, path_entries.
  destruct value as [|c value]; [done|].
  unfold PyStr.split at 2. cbn [PyStr.split_go].
  rewrite (prefix_refl (String c value)).
  cbn [String.length]. rewrite Nat.sub_1_r. cbn [Nat.pred].
  rewrite split_go_skip.
  unfold PyStr.split, pathsep. cbn [fold_left default].
  by rewrite ordered_add_twice.
Qed.

(** ** Directories (lines 384-398 and 429-437) *)

Lemma os_makedirs_fails p s :
  isdir (host s) p = false ->
  isfile (host s) p = true \/ abspath (host s) p ∈ denied (host s) ->
  exists e, os_makedirs false p s = (Raise e, s) /\ is_Exception e = true.
Proof.
  intros Hdir Hwhy. unfold os_makedirs, bind, gets. simpl. rewrite Hdir.
  destruct (isfile (host s) p); [by eexists|].
  destruct Hwhy as [|Hden]; [done|].
  rewrite bool_decide_true by done. by eexists.
Qed.



End Staging.

(** * The validation of a step, and the [try] statement without [orig_dir] *)

#[local] Instance same_context_preorder : PreOrder same_context.
Proof. split; [done|]. unfold same_context. intros s1 s2 s3 H1 H2. congruence. Qed.

Section Steps.
Context `{Collaborators}.

(** ** [validate_step_sig] ([sos/executor_utils.py], lines 161-202) *)

Lemma validate_step_sig_same_context sig : keeps same_context (validate_step_sig sig).
Proof. unfold validate_step_sig, uses_sos_run. keeps_auto. Qed.

Lemma validate_step_sig_same_host sig : keeps same_host (validate_step_sig sig).
Proof. unfold validate_step_sig, uses_sos_run. keeps_auto. Qed.

Lemma validate_step_sig_same_locked sig : keeps same_locked (validate_step_sig sig).
Proof. unfold validate_step_sig, uses_sos_run. keeps_auto. Qed.

(** X20. The validation of a step only answers: in every mode it leaves
    [env.sos_dict] as it is (the values of a matching record are returned,
    not adopted as lines 338-341 of the task executor do), takes and
    releases no lock, and does not touch the host; in every mode but
    [build] it leaves the records of the store as they are. *)
Theorem validate_step_sig_only_answers sig s :
  env_sos_dict (validate_step_sig sig s).2 = env_sos_dict s /\
  host (validate_step_sig sig s).2 = host s /\
  locked (validate_step_sig sig s).2 = locked s /\
  (sig_mode s <> Some "build" -> store (validate_step_sig sig s).2 = store s).
Proof.
  split; [apply validate_step_sig_same_context|].
  split; [apply validate_step_sig_same_host|].
  split; [apply validate_step_sig_same_locked|].
  intros Hmode. unfold validate_step_sig.
  destruct (sig_mode s) as [mode|] eqn:Hm.
  - rewrite (bind_Return _ _ _ _ _ (config_sig_mode_eq _ _ Hm)).
    assert (mode <> "build") as Hnb by congruence.
    repeat match goal with
           | |- context [decide (mode = ?m)] => destruct (decide (mode = m))
           end;
      try done;
      match goal with
      | |- store (?m s).2 = store s =>
          assert (keeps same_store m) as Hk by (unfold uses_sos_run; keeps_auto);
          apply Hk
      end.
  - unfold config_sig_mode, bind, gets. by rewrite Hm.
Qed.

(** X21. In mode [build] the validation of a step whose signature cannot
    be written (and which does not use [sos_run]) answers with [None], not
    with the empty dictionary of the other cases without a match: the branch
    of lines 190-197 has no [else]. *)
Theorem build_step_without_signature_answers_none sig vars s s1 :
  sig_mode s = Some "build" ->
  Dict.get (KStr "__signature_vars__") (env_sos_dict s) = Some vars ->
  contains_str "sos_run" vars = Return false ->
  sig_write sig true s = (Return false, s1) ->
  validate_step_sig sig s = (Return VNone, s1).
Proof.
  intros Hmode Hvars Hin Hwrite. unfold validate_step_sig.
  rewrite (bind_Return _ _ _ _ _ (config_sig_mode_eq _ _ Hmode)).
  rewrite !decide_False, decide_True by done.
  erewrite bind_Return; last first.
  { unfold uses_sos_run.
    rewrite (bind_Return _ _ _ _ _ (env_get_eq "__signature_vars__" _ s Hvars)).
    unfold lift_outcome. by rewrite Hin. }
  simpl. by rewrite (bind_Return _ _ _ _ _ Hwrite).
Qed.

(** ** The [try] statement when [orig_dir] is not bound (lines 382-400, 509-511) *)


End Steps.

(** * Further functions: [verify_input], [clear_output], [prepare_env], [execute_task] *)

Section Utilities.
Context `{Collaborators}.

(** ** [verify_input] *)

Lemma target_exists_eq t s :
  target_exists t s =
    (Return (exists_now s t),
     set_trace (trace s ++ [EvTargetExists (target_name t)]) s).
Proof. by destruct t. Qed.

Lemma verify_list ign l : forall s,
  exists evs,
    (for_each l (verify_target ign) s).2 = set_trace (trace s ++ evs) s /\
    Forall is_existence_check evs /\
    match (for_each l (verify_target ign) s).1 with
    | Return _ => forallb (acceptable ign s) l = true
    | Raise e =>
        forallb (acceptable ign s) l = false /\
        ((exists t, e = RemovedTarget t /\ VTarget t ∈ l /\ exists_now s t = false) \/
         e = AttributeError "target_exists")
    end.
Proof.
  induction l as [|v l IH]; intros s.
  - exists []. simpl. rewrite app_nil_r. by destruct s.
  - cbn [for_each].
    destruct v as [| | | | |t| | | | | |];
      try (exists []; simpl; rewrite app_nil_r; split; [by destruct s|];
           split; [done|]; split; [done|by right]).
    pose proof (target_exists_eq t s) as Htarget.
    set (s1 := set_trace (trace s ++ [EvTargetExists (target_name t)]) s) in *.
    assert (verify_target ign (VTarget t) s =
              ((if acceptable ign s (VTarget t) then Return tt
                else Raise (RemovedTarget t)), s1)) as Hv.
    { unfold verify_target. rewrite (bind_Return _ _ _ _ _ Htarget). simpl.
      destruct (exists_now s t); simpl; [done|].
      by destruct (ign && is_internal t). }
    destruct (acceptable ign s (VTarget t)) eqn:Hacc.
    + rewrite (bind_Return _ _ _ _ _ Hv).
      destruct (IH s1) as (evs & Hst & Hevs & Hres).
      exists (EvTargetExists (target_name t) :: evs). split; [|split].
      * rewrite Hst. subst s1. simpl. by rewrite <- app_assoc.
      * constructor; [by eexists|done].
      * cbn [forallb]. rewrite Hacc. simpl.
        change (acceptable ign s1) with (acceptable ign s) in Hres.
        destruct (for_each l (verify_target ign) s1).1 as [|e]; [done|].
        destruct Hres as (Hno & [(t' & -> & Hin & Hex)| ->]); (split; [done|]).
        -- left. exists t'. split; [done|]. split; [by apply elem_of_cons; right|done].
        -- by right.
    + rewrite (bind_Raise _ _ _ _ _ Hv).
      exists [EvTargetExists (target_name t)]. split; [done|].
      split; [constructor; [by eexists|done]|].
      cbn [forallb fst]. rewrite Hacc. split; [done|].
      left. exists t. split; [done|]. split; [by apply elem_of_cons; left|].
      simpl in Hacc. by apply orb_false_elim in Hacc as [? _].
Qed.

(** X23. [verify_input] returns exactly when every target of [_input] and
    [_depends] exists (or is a variable or a step and those are ignored);
    when it does not, the exception is [RemovedTarget] of a target that does
    not exist.  It changes nothing: it only asks whether targets exist, and
    does not remove their signature as the check of the task executor does
    (lines 411 and 416). *)
Theorem verify_input_returns_iff ign s li ld :
  Dict.get (KStr "_input") (env_sos_dict s) = Some (VTargets li) ->
  Dict.get (KStr "_depends") (env_sos_dict s) = Some (VTargets ld) ->
  exists evs,
    (verify_input ign s).2 = set_trace (trace s ++ evs) s /\
    Forall is_existence_check evs /\
    match (verify_input ign s).1 with
    | Return _ => forallb (acceptable ign s) (li ++ ld) = true
    | Raise e =>
        forallb (acceptable ign s) (li ++ ld) = false /\
        ((exists t, e = RemovedTarget t /\ VTarget t ∈ li ++ ld /\
                    exists_now s t = false) \/
         e = AttributeError "target_exists")
    end.
Proof.
  intros Hi Hd. unfold verify_input. cbn [for_each].
  rewrite forallb_app.
  destruct (verify_list ign li s) as (evs1 & Hst1 & Hevs1 & Hres1).
  destruct (for_each li (verify_target ign) s) as [r1 s1] eqn:Hrun1.
  simpl in Hst1, Hres1.
  assert ((targets <- env_get "_input" ;;
           l <- lift_outcome (iterate targets) ;;
           for_each l (verify_target ign)) s = (r1, s1)) as Hfirst.
  { rewrite (bind_Return _ _ _ _ _ (env_get_eq "_input" _ s Hi)). simpl.
    unfold bind at 1, lift_outcome. exact Hrun1. }
  destruct r1 as [[]|e].
  - rewrite (bind_Return _ _ _ _ _ Hfirst).
    destruct (verify_list ign ld s1) as (evs2 & Hst2 & Hevs2 & Hres2).
    destruct (for_each ld (verify_target ign) s1) as [r2 s2] eqn:Hrun2.
    simpl in Hst2, Hres2.
    assert ((targets <- env_get "_depends" ;;
             l <- lift_outcome (iterate targets) ;;
             for_each l (verify_target ign)) s1 = (r2, s2)) as Hsecond.
    { rewrite (bind_Return _ _ _ _ _ (env_get_eq "_depends" _ s1
                 ltac:(by rewrite Hst1))). simpl.
      unfold bind at 1, lift_outcome. exact Hrun2. }
    exists (evs1 ++ evs2). split; [|split; [by apply Forall_app|]].
    + destruct r2 as [[]|e].
      * rewrite (bind_Return _ _ _ _ _ Hsecond). unfold ret. simpl.
        rewrite Hst2, Hst1. simpl. by rewrite <- app_assoc.
      * rewrite (bind_Raise _ _ _ _ _ Hsecond). simpl.
        rewrite Hst2, Hst1. simpl. by rewrite <- app_assoc.
    + rewrite Hst1 in Hres2.
      change (acceptable ign (set_trace (trace s ++ evs1) s))
        with (acceptable ign s) in Hres2.
      change (exists_now (set_trace (trace s ++ evs1) s))
        with (exists_now s) in Hres2.
      rewrite Hres1. simpl. destruct r2 as [[]|e].
      * by rewrite (bind_Return _ _ _ _ _ Hsecond).
      * rewrite (bind_Raise _ _ _ _ _ Hsecond). simpl.
        destruct Hres2 as (Hno & [(t & -> & Hin & Hex)| ->]); (split; [done|]).
        -- left. exists t. split; [done|]. split; [|done].
           apply elem_of_app. by right.
        -- by right.
  - rewrite (bind_Raise _ _ _ _ _ Hfirst). simpl.
    exists evs1. split; [done|]. split; [done|].
    destruct Hres1 as (Hno & [(t & -> & Hin & Hex)| ->]);
      (split; [by rewrite Hno|]).
    + left. exists t. split; [done|]. split; [|done].
      apply elem_of_app. by left.
    + by right.
Qed.

(** ** [clear_output] *)

Lemma abspath_cwd h h' p : cwd h' = cwd h -> abspath h' p = abspath h p.
Proof. unfold abspath. by intros ->. Qed.

Lemma isfile_false_lookup h p : isfile h p = false -> files h !! abspath h p = None.
Proof.
  unfold isfile. intros Hf. apply bool_decide_eq_false in Hf.
  by apply eq_None_not_Some.
Qed.

Lemma cleared_nothing s s' :
  env_sos_dict s' = env_sos_dict s -> store s' = store s -> host s' = host s ->
  cleared [] s s'.
Proof.
  intros He Hs Hh. unfold cleared. rewrite Hh. repeat split; try done;
    intros q; by rewrite bool_decide_false by apply not_elem_of_nil.
Qed.

Lemma cleared_absent p s s' :
  env_sos_dict s' = env_sos_dict s -> store s' = store s -> host s' = host s ->
  files (host s) !! p = None ->
  cleared [p] s s'.
Proof.
  intros He Hs Hh Hno. unfold cleared. rewrite Hh. repeat split; try done;
    intros q; case_bool_decide as Hq; [|done].
  apply list_elem_of_singleton in Hq as ->. done.
Qed.

Lemma cleared_deleted p s s' :
  env_sos_dict s' = env_sos_dict s -> store s' = store s ->
  host s' = set_files (delete p (files (host s))) (host s) ->
  cleared [p] s s'.
Proof.
  intros He Hs Hh. unfold cleared. rewrite Hh. repeat split; try done;
    intros q; simpl; case_bool_decide as Hq.
  - apply list_elem_of_singleton in Hq as ->. apply lookup_delete_eq.
  - apply lookup_delete_ne. intros ->. apply Hq. by apply list_elem_of_singleton.
Qed.

Lemma os_unlink_file p s :
  isfile (host s) p = true ->
  os_unlink p s =
    (Return tt,
     set_host (set_files (delete (abspath (host s) p) (files (host s))) (host s)) s).
Proof. intros Hfile. unfold os_unlink, bind, gets, modify. by rewrite Hfile. Qed.

Lemma os_unlink_no_file p s :
  isfile (host s) p = false ->
  exists e, os_unlink p s = (Raise e, s) /\ is_Exception e = true.
Proof.
  intros Hfile. unfold os_unlink, bind, gets. rewrite Hfile.
  destruct (isdir (host s) p); by eexists.
Qed.

Lemma env_get_absent k s :
  Dict.get (KStr k) (env_sos_dict s) = None -> env_get k s = (Raise (KeyError k), s).
Proof. intros Hget. unfold env_get, bind, gets. by rewrite Hget. Qed.

Lemma clear_target_spec v s :
  exists s', clear_target v s = (Return tt, s') /\
             cleared (output_paths (host s) [v]) s s'.
Proof.
  destruct v as [| | | | |t| | | | | |];
    try (exists s; split; [done|by apply cleared_nothing]).
  destruct t as [p| | |];
    try (exists s; split; [done|by apply cleared_nothing]).
  unfold clear_target.
  rewrite (bind_Return (gets host) _ s (host s) s eq_refl).
  change (output_paths (host s) [VTarget (file_target p)])
    with [abspath (host s) p].
  destruct (path_exists (host s) p) eqn:Hex.
  - unfold try_except. destruct (isfile (host s) p) eqn:Hfile.
    + rewrite (bind_Return _ _ _ _ _ (os_unlink_file p s Hfile)).
      set (s1 := set_host (set_files (delete (abspath (host s) p) (files (host s)))
                             (host s)) s).
      destruct (Dict.get (KStr "step_name") (env_sos_dict s1)) as [name|] eqn:Hname.
      * rewrite (bind_Return _ _ _ _ _ (env_get_eq "step_name" _ s1 Hname)).
        eexists. split; [reflexivity|by apply cleared_deleted].
      * rewrite (bind_Raise _ _ _ _ _ (env_get_absent "step_name" s1 Hname)).
        eexists. split; [reflexivity|by apply cleared_deleted].
    + destruct (os_unlink_no_file p s Hfile) as (e & Hrm & Hexc).
      rewrite (bind_Raise _ _ _ _ _ Hrm), Hexc.
      eexists. split; [reflexivity|].
      apply cleared_absent; try done. by apply isfile_false_lookup.
  - exists s. split; [done|]. apply cleared_absent; try done.
    apply isfile_false_lookup. unfold path_exists in Hex.
    by apply orb_false_elim in Hex as [_ ?].
Qed.

Lemma cleared_trans paths1 paths2 s1 s2 s3 :
  cleared paths1 s1 s2 -> cleared paths2 s2 s3 -> cleared (paths1 ++ paths2) s1 s3.
Proof.
  intros (He1 & Hs1 & Hd1 & Hc1 & Hf1) (He2 & Hs2 & Hd2 & Hc2 & Hf2).
  unfold cleared. rewrite He2, Hs2, Hd2, Hc2. repeat split; try done;
    intros q; rewrite Hf2, Hf1.
  destruct (decide (q ∈ paths1)) as [Hq1|Hq1];
    destruct (decide (q ∈ paths2)) as [Hq2|Hq2];
    rewrite ?(bool_decide_true (q ∈ paths2)), ?(bool_decide_false (q ∈ paths2)),
      ?(bool_decide_true (q ∈ paths1)), ?(bool_decide_false (q ∈ paths1)) by done.
  - rewrite bool_decide_true; [done|]. apply elem_of_app. by left.
  - rewrite bool_decide_true; [done|]. apply elem_of_app. by left.
  - rewrite bool_decide_true; [done|]. apply elem_of_app. by right.
  - rewrite bool_decide_false; [done|]. intros [?|?]%elem_of_app; done.
Qed.

Lemma output_paths_cwd h h' l :
  cwd h' = cwd h -> output_paths h' l = output_paths h l.
Proof.
  intros Hc. unfold output_paths.
  apply list_omap_ext, Forall_Forall2_diag, Forall_true.
  intros v. destruct v as [| | | | |[]| | | | | |]; try done.
  by rewrite (abspath_cwd _ _ _ Hc).
Qed.

Lemma clear_targets_spec l : forall s,
  exists s', for_each l clear_target s = (Return tt, s') /\
             cleared (output_paths (host s) l) s s'.
Proof.
  induction l as [|v l IH]; intros s.
  - exists s. split; [done|]. by apply cleared_nothing.
  - destruct (clear_target_spec v s) as (s1 & Hrun1 & Hc1).
    destruct (IH s1) as (s2 & Hrun2 & Hc2).
    exists s2. split.
    + cbn [for_each]. by rewrite (bind_Return _ _ _ _ _ Hrun1).
    + rewrite (output_paths_cwd (host s) (host s1)) in Hc2 by apply Hc1.
      change (v :: l) with ([v] ++ l). unfold output_paths. rewrite omap_app.
      exact (cleared_trans _ _ _ _ _ Hc1 Hc2).
Qed.

(** X24. [clear_output] never raises once [_output] can be iterated over:
    a file that cannot be removed (a directory) is only logged.  When it
    returns, no file target of [_output] is a regular file of the host any
    more, every other file is as it was, and nothing else has changed (the
    directories, the working directory, [env.sos_dict], the store). *)
Theorem clear_output_removes_the_files s targets l :
  Dict.get (KStr "_output") (env_sos_dict s) = Some targets ->
  iterate targets = Return l ->
  exists s',
    clear_output s = (Return tt, s') /\
    env_sos_dict s' = env_sos_dict s /\ store s' = store s /\
    dirs (host s') = dirs (host s) /\ cwd (host s') = cwd (host s) /\
    forall q, files (host s') !! q =
              if bool_decide (q ∈ output_paths (host s) l) then None
              else files (host s) !! q.
Proof.
  intros Hout Hiter.
  destruct (clear_targets_spec l s) as (s' & Hrun & Hc).
  exists s'. split; [|exact Hc].
  unfold clear_output.
  rewrite (bind_Return _ _ _ _ _ (env_get_eq "_output" _ s Hout)).
  unfold bind at 1, lift_outcome. by rewrite Hiter.
Qed.

End Utilities.
(** * Concrete invocations *)

#[local] Existing Instance demo.

(** ** C1: the lock of the fingerprint *)

(** C1. The task [x = 1/0] in mode [default]: the invocation returns the
    failure of the body while the lock taken at line 330 is still held;
    [release] was never called. *)
Lemma lock_is_held_after_failure :
  let r := execute_params demo_opts false "t1" (Task "" "x = 1/0" (demo_dict []))
             demo_state in
  r.1 = Return [ (KStr "ret_code", VInt 1);
                 (KStr "exception", VExc (ZeroDivisionError "division by zero"));
                 (KStr "task", VStr "t1"); (KStr "shared", VDict []) ] /\
  occurs (EvSigLock (demo_fingerprint "x = 1/0")) (trace r.2) = true /\
  occurs (EvSigRelease (demo_fingerprint "x = 1/0")) (trace r.2) = false /\
  bool_decide (demo_fingerprint "x = 1/0" ∈ locked r.2) = true.
Proof. vm_compute. done. Qed.

(** ** C2: the order of the stages *)

(** C2, as stated, fails: for a task with the input [in.txt], which the host
    has, the body is executed and the calls are not in the order "targets
    checked, then caching decision, then body": the fingerprint is locked and
    validated before the target is checked. *)
Lemma caching_decision_comes_first :
  let r := execute_params demo_opts false "t1"
             (Task "" "pass" (demo_vars (VList [VStr "in.txt"]) (VList []) []))
             demo_state in
  occurs (EvTargetExists "in.txt") (trace r.2) = true /\
  occurs (EvSigValidate (demo_fingerprint "pass")) (trace r.2) = true /\
  occurs (EvExecTask "pass") (trace r.2) = true /\
  in_order spec_rank (trace r.2) = false /\
  in_order code_rank (trace r.2) = true.
Proof. vm_compute. done. Qed.

(** ** C3: variables whose name contains [PATH] *)

(** C3. With [PATH=/usr/bin] inherited and [PATH=/opt/bin] configured, the
    value after staging is [/opt/bin]: the inherited entry is lost, where
    the configured entries ahead of the inherited ones would be
    [/opt/bin:/usr/bin]. *)
Lemma path_merge_loses_inherited_entries :
  let r := execute_params demo_opts false "t1"
             (Task "" "pass"
                (demo_dict [(KStr "env", VDict [(KStr "PATH", VStr "/opt/bin")])]))
             demo_state in
  environ (host demo_state) !! "PATH" = Some "/usr/bin" /\
  merge_path "/opt/bin" "/usr/bin" = Return "/opt/bin" /\
  environ (host r.2) !! "PATH" = Some "/opt/bin" /\
  bool_decide ("/usr/bin" ∈ path_entries "/opt/bin") = false /\
  path_entries "/opt/bin" ++ path_entries "/usr/bin" = ["/opt/bin"; "/usr/bin"].
Proof. vm_compute. done. Qed.

(** ** C4: the working directory *)



(** ** C5: shared variables *)



(** ** C6: tasks that call [sos_run] *)

(** C6, as stated, fails for a task: with [sos_run] among its signature
    variables and a matching record in the store, the task executor
    validates the signature in mode [default] and skips the task; the body
    is not executed. *)
Lemma task_with_sos_run_is_skipped :
  let r := execute_params demo_opts false "t1"
             (Task "" "pass" (demo_vars (VTargets []) (VList [VStr "sos_run"]) []))
             recorded_state in
  contains_str "sos_run" (VList [VStr "sos_run"]) = Return true /\
  match r.1 with
  | Return res => Dict.get (KStr "skipped") res = Some (VBool true)
  | Raise _ => False
  end /\
  occurs (EvSigValidate (demo_fingerprint "pass")) (trace r.2) = true /\
  occurs (EvExecTask "pass") (trace r.2) = false.
Proof. vm_compute. done. Qed.

Lemma step_with_sos_run_is_not_validated_witness :
  let vars := demo_vars (VTargets []) (VList [VStr "sos_run"]) [] in
  let sig := mkRuntimeInfo (demo_fingerprint "pass") "pass"
               (VTargets []) (VTargets []) (VTargets []) (VList [VStr "sos_run"]) in
  validate_step_sig sig (state_with (Some "default") vars) =
    (Return (VDict []), state_with (Some "default") vars).
Proof.
  cbv zeta.
  apply (step_with_sos_run_is_not_validated _ (VList [VStr "sos_run"]));
    reflexivity.
Defined.

(** ** C7 and C10: the result of a master task *)

Lemma master_skip_flag_is_last_subtask_witness :
  exists flag,
    Dict.get (KStr "skipped") (demo_done "b" false) = Some flag /\
    Dict.get (KStr "skipped")
      (all_res_dict
         (mkAllRes (VInt 0) [] [ (KStr "a", VDict (demo_done "a" true));
                                 (KStr "b", VDict (demo_done "b" false)) ]
            [(KInt 0, VDict [])] (VBool false))) = Some flag.
Proof.
  apply (master_skip_flag_is_last_subtask "m" ["a"; "b"]
           [demo_done "a" true; demo_done "b" false] demo_state _ demo_state);
    reflexivity.
Defined.

Lemma stopped_subtask_breaks_aggregation_witness :
  master_result "m" ["a"; "b"] [demo_done "a" false; stop_result "b"] demo_state =
    (Raise (KeyError "skipped"), demo_state).
Proof.
  eapply proj1, stopped_subtask_breaks_aggregation.
  - reflexivity.
  - repeat constructor.
  - constructor; [left|constructor; [right; by eexists|constructor]].
    repeat split; eexists; reflexivity.
  - apply Exists_cons_tl, Exists_cons_hd. by eexists.
Defined.

(** ** C8 and C9: a body that stops, a body that fails *)

Lemma stop_signal_returns_empty_success_witness :
  exists s',
    execute_one demo_opts false "t1" "" "stop_if(True, 'halt now')" (demo_dict [])
      demo_state =
      (Return [ (KStr "ret_code", VInt 0); (KStr "task", VStr "t1");
                (KStr "input", VList []); (KStr "output", VList []);
                (KStr "depends", VList []); (KStr "shared", VDict []) ], s') /\
    trace s' =
      trace (reach_body demo_opts false "t1" "" "stop_if(True, 'halt now')"
               (demo_dict []) demo_state).2
      ++ EvExecTask "stop_if(True, 'halt now')" ::
         (if decide ("halt now" = "") then []
          else [EvLog WARNING ("t1" +:+ " ``stopped``: " +:+ "halt now")]).
Proof.
  eapply stop_signal_returns_empty_success.
  - vm_compute. reflexivity.
  - vm_compute. reflexivity.
  - vm_compute. reflexivity.
  - intros _. split; vm_compute; reflexivity.
Defined.

Lemma division_error_is_reported_and_not_recorded_witness :
  exists s',
    execute_one demo_opts false "t1" "" "x = 1/0" (demo_dict []) demo_state =
      (Return [ (KStr "ret_code", VInt 1);
                (KStr "exception", VExc (ZeroDivisionError "division by zero"));
                (KStr "task", VStr "t1"); (KStr "shared", VDict []) ], s') /\
    class_name (ZeroDivisionError "division by zero") = "ZeroDivisionError" /\
    store s' = store demo_state.
Proof.
  eapply division_error_is_reported_and_not_recorded.
  - done.
  - reflexivity.
  - intros. reflexivity.
  - vm_compute. reflexivity.
  - vm_compute. reflexivity.
  - intros sd sig orig_dir [= <- <- <-]. vm_compute. reflexivity.
  - intros _. split; vm_compute; reflexivity.
Defined.

(** * Further concrete invocations *)

(** ** Invocations in the modes of the caching decision *)

Lemma ignore_mode_never_touches_the_store_witness :
  let r := execute_one (mkOptions None "dryrun" None) false "t1" "" "pass"
             (demo_dict []) demo_state in
  store r.2 = store demo_state /\
  locked r.2 = locked demo_state /\
  exists evs,
    trace r.2 = trace demo_state ++ evs /\
    forallb (fun ev => negb (is_sig_event ev)) evs = true.
Proof.
  cbv zeta. apply ignore_mode_never_touches_the_store. reflexivity.
Defined.

Lemma unrecognized_mode_is_fatal_witness :
  let s := state_with (Some "fast") (demo_dict []) in
  caching_decision "pass" s =
    (Raise (RuntimeError ("Unrecognized signature mode " +:+ "fast")),
     locked_state (demo_sig "pass") s) /\
  sig_id (demo_sig "pass") ∈ locked (locked_state (demo_sig "pass") s).
Proof.
  cbv zeta.
  eapply (unrecognized_mode_is_fatal "pass" _ "fast" (demo_sig "pass")).
  - reflexivity.
  - apply (bool_decide_unpack _). vm_compute. exact I.
  - vm_compute. reflexivity.
  - reflexivity.
Defined.

Lemma assert_mode_skips_or_fails_witness :
  let s := state_with (Some "assert") (demo_dict []) in
  (forall why,
     stored_answer (demo_sig "pass") s = VStr why ->
     exists s', caching_decision "pass" s =
                  (Raise (RuntimeError ("Signature mismatch: " +:+ why)), s') /\
                store s' = store s) /\
  (forall decision s',
     caching_decision "pass" s = (Return decision, s') -> decision.2 = true).
Proof.
  cbv zeta.
  eapply (assert_mode_skips_or_fails "pass" _ (demo_sig "pass")).
  - reflexivity.
  - vm_compute. reflexivity.
  - reflexivity.
Defined.

Lemma force_mode_never_skips_witness :
  let s := state_with (Some "force") (demo_dict []) in
  let r := caching_decision "pass" s in
  exists decision,
    r.1 = Return decision /\
    decision.2 = false /\
    store r.2 = store s /\
    exists sig, decision.1 = Some sig /\
                trace r.2 = trace s ++ [EvSigLock (sig_id sig)].
Proof.
  cbv zeta. exists (Some (demo_sig "pass"), false).
  split; [vm_compute; reflexivity|].
  eapply (force_mode_never_skips "pass").
  - reflexivity.
  - vm_compute. reflexivity.
Defined.

Lemma build_mode_writes_or_runs_witness :
  let s := state_with (Some "build") (demo_dict []) in
  let sig := demo_sig "pass" in
  (outputs_exist (host s) (output_files sig) = false ->
   exists s', caching_decision "pass" s = (Return (Some sig, false), s') /\
              store s' = store s /\
              trace s' =
                trace s ++
                [ EvSigLock (sig_id sig); EvSigWrite (sig_id sig) true;
                  EvLog INFO (ignored_msg "Task" (py_str (VStr "step")) (py_str (VInt 0))
                                "``executed`` with failed signature constructed") ]) /\
  (forall rec,
     outputs_exist (host s) (output_files sig) = true ->
     sig_content (host s) (env_sos_dict s) sig = Some rec ->
     exists s', caching_decision "pass" s = (Return (Some sig, true), s') /\
                store s' = <[ sig_id sig := rec ]> (store s) /\
                trace s' =
                  trace s ++
                  [ EvSigLock (sig_id sig); EvSigWrite (sig_id sig) true;
                    EvLog INFO (ignored_msg "Task" (py_str (VStr "step")) (py_str (VInt 0))
                                  "``ignored`` with signature constructed") ]).
Proof.
  cbv zeta.
  eapply (build_mode_writes_or_runs "pass" _ (demo_sig "pass")).
  - reflexivity.
  - vm_compute. reflexivity.
  - reflexivity.
  - reflexivity.
Defined.

(** ** Invocations that reach the body *)

Lemma completed_body_releases_the_lock_witness :
  let r := execute_one demo_opts false "t1" "" "pass" (demo_dict []) demo_state in
  (sig_id (demo_sig "pass") ∉ locked r.2) /\
  exists evs,
    trace r.2 =
      trace (reach_body demo_opts false "t1" "" "pass" (demo_dict []) demo_state).2 ++
      [ EvExecTask "pass"; EvLog INFO ("t1" +:+ " ``completed``");
        EvSigWrite (sig_id (demo_sig "pass")) false;
        EvSigRelease (sig_id (demo_sig "pass")) ] ++ evs.
Proof.
  cbv zeta.
  eapply (completed_body_releases_the_lock demo_opts false "t1" "" "pass").
  - vm_compute. reflexivity.
  - vm_compute. reflexivity.
  - vm_compute. reflexivity.
  - intros _. split; vm_compute; reflexivity.
Defined.

Lemma interrupt_is_raised_again_witness :
  exists s',
    execute_one demo_opts false "t1" "" "interrupt" (demo_dict []) demo_state =
      (Raise KeyboardInterrupt, s') /\
    trace s' =
      trace (reach_body demo_opts false "t1" "" "interrupt" (demo_dict [])
               demo_state).2 ++
      [EvExecTask "interrupt"; EvLog ERROR ("t1" +:+ " ``interrupted``")].
Proof.
  eapply (interrupt_is_raised_again demo_opts false "t1" "" "interrupt" _ _ _ _ _ _
            KeyboardInterrupt).
  - vm_compute. reflexivity.
  - vm_compute. reflexivity.
  - reflexivity.
  - vm_compute. reflexivity.
  - intros _. split; vm_compute; reflexivity.
Defined.

Lemma exception_of_the_body_is_a_result_witness :
  exists r s',
    execute_one demo_opts false "t1" "" "sh: false" (demo_dict []) demo_state =
      (Return r, s') /\
    is_failure_of "t1" (CalledProcessError 1 "false") r /\
    store s' =
      store (reach_body demo_opts false "t1" "" "sh: false" (demo_dict [])
               demo_state).2.
Proof.
  eapply (exception_of_the_body_is_a_result demo_opts false "t1" "" "sh: false").
  - vm_compute. reflexivity.
  - vm_compute. reflexivity.
  - reflexivity.
  - done.
  - vm_compute. reflexivity.
  - intros _. split; vm_compute; reflexivity.
Defined.

Lemma failure_of_staging_is_a_result_witness :
  exists r s' evs,
    execute_one demo_opts false "t1" "" "pass"
      (demo_vars (VList [VStr "missing.txt"]) (VList []) []) demo_state =
      (Return r, s') /\
    is_failure_of "t1" (UnknownTarget "missing.txt") r /\
    trace s' =
      trace (enter_try demo_opts false "t1" "" "pass"
               (demo_vars (VList [VStr "missing.txt"]) (VList []) [])
               demo_state).2 ++ evs /\
    forallb (fun ev => negb (is_body_event ev)) evs = true.
Proof.
  eapply (failure_of_staging_is_a_result demo_opts false "t1" "" "pass").
  - vm_compute. reflexivity.
  - vm_compute. reflexivity.
  - reflexivity.
  - done.
  - vm_compute. reflexivity.
  - intros _. split; vm_compute; reflexivity.
Defined.

(** ** Shared variables and master tasks *)


Lemma single_name_shared_always_fails_witness :
  let vars := demo_dict [(KStr "shared", VStr "a")] ++ [(KStr "a", VInt 1)] in
  Dict.mem (KStr "a") vars = true /\
  collect_task_result "t1" vars false (state_with None vars) =
    (Raise (ValueError (unavailable "a" "t1")), state_with None vars).
Proof.
  cbv zeta. split; [reflexivity|].
  apply (single_name_shared_always_fails "t1" _ false [(KStr "shared", VStr "a")]);
    reflexivity.
Defined.

Lemma first_failure_is_reported_witness :
  let failure tid e := [ (KStr "ret_code", VInt 2); (KStr "exception", VExc e);
                         (KStr "task", VStr tid); (KStr "shared", VDict []) ] in
  let results := [ demo_done "a" false;
                   failure "b" (RuntimeError "first");
                   failure "c" (ValueError "second") ] in
  master_result "m" ["a"; "b"; "c"] results demo_state =
    (Return [ (KStr "ret_code", VInt 1);
              (KStr "exception", VExc (RuntimeError "first"));
              (KStr "task", VStr "m") ],
     set_trace
       (trace demo_state ++
        [EvLog ERROR
           ("m" +:+ " ``failed`` due to failure of subtask" +:+
            (if bool_decide (1 < length (failed_names results))%nat then "s" else "")
            +:+ " " +:+ PyStr.join ", " (failed_names results))]) demo_state) /\
  failed_names results = ["b"; "c"].
Proof.
  cbv zeta. split; [|reflexivity].
  eapply (first_failure_is_reported "m" _ _ [demo_done "a" false]).
  - reflexivity.
  - by repeat constructor.
  - reflexivity.
  - repeat constructor; intros _; by eexists.
Defined.


Lemma master_of_collected_results_witness :
  exists a,
    master_result "m" ["a"; "b"] [demo_done "a" true; demo_done "b" false] demo_state =
      (Return (all_res_dict a), demo_state) /\
    ret_code a = VInt 0 /\
    has_exception (all_res_dict a) = false.
Proof.
  apply master_of_collected_results.
  repeat constructor.
  - exists "a", (demo_dict []), true, (state_with None (demo_dict [])), (state_with None (demo_dict [])).
    vm_compute. reflexivity.
  - exists "b", (demo_dict []), false, (state_with None (demo_dict [])), (state_with None (demo_dict [])).
    vm_compute. reflexivity.
Defined.

(** ** Staging *)

Lemma merge_path_ignores_inherited_witness :
  merge_path "/opt/bin:/opt/sbin" "/usr/bin" =
    Return (PyStr.join pathsep
              (ordered_add "/opt/bin:/opt/sbin"
                 (fold_left (fun acc p => ordered_add p acc)
                    (path_entries "/opt/bin:/opt/sbin") []))) /\
  PyStr.join pathsep
    (ordered_add "/opt/bin:/opt/sbin"
       (fold_left (fun acc p => ordered_add p acc)
          (path_entries "/opt/bin:/opt/sbin") [])) =
    "/opt/bin:/opt/sbin:/opt/bin:/opt/sbin".
Proof.
  split; [|vm_compute; reflexivity].
  apply merge_path_ignores_inherited; [done|reflexivity].
Defined.

Lemma empty_inherited_path_is_fatal_witness :
  let s := set_host (set_environ {[ "LD_LIBRARY_PATH" := "" ]} demo_host) demo_state in
  stage_variable (KStr "LD_LIBRARY_PATH", VStr "/opt/lib") s =
    (Raise (ValueError "empty separator"), s).
Proof.
  cbv zeta. apply empty_inherited_path_is_fatal; vm_compute; reflexivity.
Defined.

Lemma merge_path_same_value_witness :
  merge_path "/usr/bin" "/usr/bin" =
    Return (PyStr.join pathsep
              (ordered_add ""
                 (fold_left (fun acc p => ordered_add p acc)
                    (path_entries "/usr/bin") []))) /\
  PyStr.join pathsep
    (ordered_add ""
       (fold_left (fun acc p => ordered_add p acc) (path_entries "/usr/bin") [])) =
    "/usr/bin:".
Proof.
  split; [|vm_compute; reflexivity].
  by apply merge_path_same_value.
Defined.



(** ** The validation of a step *)

Lemma build_step_without_signature_answers_none_witness :
  let sig := mkRuntimeInfo (demo_fingerprint "pass") "pass" (VTargets [])
               (VTargets [VTarget (file_target "missing.txt")]) (VTargets [])
               (VList []) in
  let s := state_with (Some "build") (demo_dict []) in
  validate_step_sig sig s =
    (Return VNone, set_trace (trace s ++ [EvSigWrite (sig_id sig) true]) s).
Proof.
  cbv zeta.
  eapply (build_step_without_signature_answers_none _ (VList [])).
  - reflexivity.
  - reflexivity.
  - reflexivity.
  - vm_compute. reflexivity.
Defined.


